(** * Fact normalisation of the NAPALM driver for Aruba AOS-CX

    A shallow embedding of [napalm_aoscx/aoscx.py] (class [AOSCXDriver]).
    The driver reads nested JSON-like structures through the vendor SDK
    (pyaoscx) and reshapes them.  The embedding has three layers:

    - [Py]: the fragment of Python's data model the driver relies on
      (dynamically typed values, insertion-ordered dictionaries, the
      exceptions raised by subscripting, [len], [in], [int], ...);
    - [Session]: what each call into the vendor SDK returns for one
      snapshot of the device, an exception being a value [Raise e];
    - the driver methods themselves, under their Python names. *)

From Stdlib Require Import String Ascii List ZArith QArith Qround Bool Lia.
Import ListNotations.
Local Open Scope string_scope.
Local Open Scope Z_scope.
Local Open Scope list_scope.

Set Warnings "-register-all".

(** ** Exceptions and the error monad *)

Inductive exn : Type :=
| KeyError
| TypeError
| IndexError
| ValueError
| AttributeError
| UnboundLocalError
| OverflowError
| TransportError (msg : string)        (* raised inside the vendor SDK / HTTP layer *)
| MergeConfigException (msg : string).

Inductive result (A : Type) : Type :=
| Ok (a : A)
| Raise (e : exn).
Arguments Ok {A} a.
Arguments Raise {A} e.

Definition bind {A B : Type} (m : result A) (k : A -> result B) : result B :=
  match m with
  | Ok a => k a
  | Raise e => Raise e
  end.

Declare Scope py_scope.
Delimit Scope py_scope with py.
Notation "x <- m ;; k" := (bind m (fun x => k))
  (at level 61, m at next level, right associativity) : py_scope.
Notation "m ;;; k" := (bind m (fun _ => k))
  (at level 61, right associativity) : py_scope.
Local Open Scope py_scope.

Definition is_ok {A : Type} (r : result A) : bool :=
  match r with Ok _ => true | Raise _ => false end.

(** [for x in xs: acc = body(acc, x)] with exceptions. *)
Fixpoint foldM {A S : Type} (body : S -> A -> result S) (xs : list A) (acc : S)
  : result S :=
  match xs with
  | [] => Ok acc
  | x :: xs' => acc' <- body acc x ;; foldM body xs' acc'
  end.

(** [[f(x) for x in xs]] with exceptions. *)
Fixpoint mapM {A B : Type} (f : A -> result B) (xs : list A) : result (list B) :=
  match xs with
  | [] => Ok []
  | x :: xs' => y <- f x ;; ys <- mapM f xs' ;; Ok (y :: ys)
  end.

(** ** Python values *)

Module Py.

(** Hashable values used as dictionary keys: strings (JSON), integers
    (the VLAN table built by [get_vlans]; [True] and [1.0] hash as [1]),
    [None], and floats that are not integers. *)
Inductive key : Type :=
| KStr (s : string)
| KInt (z : Z)
| KNone
| KFloat (q : Q).

Definition key_eqb (a b : key) : bool :=
  match a, b with
  | KStr s, KStr t => String.eqb s t
  | KInt x, KInt y => Z.eqb x y
  | KNone, KNone => true
  | KFloat x, KFloat y => Qeq_bool x y
  | _, _ => false
  end.

(** A float is held by its value, a rational: the driver only builds
    floats by [float(int)], by dividing by 1000 (both rounded to the
    nearest binary64 number), and from the literals -1.0 and 0.0. *)
Inductive val : Type :=
| VNone
| VBool (b : bool)
| VInt (z : Z)
| VFloat (q : Q)
| VStr (s : string)
| VList (l : list val)
| VDict (d : list (key * val)).

(** *** Insertion-ordered dictionaries

    A dictionary is the list of its items in insertion order.  [dict_set]
    is [d[k] = v]: an existing key keeps its position, a new key goes last. *)

Section Dict.
Variable V : Type.
Definition dict := list (key * V).

Fixpoint dict_get (k : key) (d : dict) : option V :=
  match d with
  | [] => None
  | (k', v) :: d' => if key_eqb k k' then Some v else dict_get k d'
  end.

Definition dict_has (k : key) (d : dict) : bool :=
  match dict_get k d with Some _ => true | None => false end.

Fixpoint dict_set (k : key) (v : V) (d : dict) : dict :=
  match d with
  | [] => [(k, v)]
  | (k', v') :: d' =>
      if key_eqb k k' then (k', v) :: d' else (k', v') :: dict_set k v d'
  end.

Definition dict_keys (d : dict) : list key := map fst d.
Definition dict_values (d : dict) : list V := map snd d.

(** [d.update(e)] *)
Definition dict_update (d e : dict) : dict :=
  fold_left (fun acc kv => dict_set (fst kv) (snd kv) acc) e d.
End Dict.

Arguments dict_get {V} k d.
Arguments dict_has {V} k d.
Arguments dict_set {V} k v d.
Arguments dict_keys {V} d.
Arguments dict_values {V} d.
Arguments dict_update {V} d e.

(** A dictionary display [{k1: v1, ..., kn: vn}]. *)
Definition dict_of {V : Type} (items : list (key * V)) : dict V :=
  dict_update [] items.

Definition key_val (k : key) : val :=
  match k with
  | KStr s => VStr s
  | KInt z => VInt z
  | KNone => VNone
  | KFloat q => VFloat q
  end.

(** *** Builtins *)

Definition Zlen {A : Type} (l : list A) : Z := Z.of_nat (List.length l).

(** [len(v)] *)
Definition len (v : val) : result Z :=
  match v with
  | VStr s => Ok (Z.of_nat (String.length s))
  | VList l => Ok (Zlen l)
  | VDict d => Ok (Zlen d)
  | _ => Raise TypeError
  end.

(** [bool(v)] *)
Definition truthy (v : val) : bool :=
  match v with
  | VNone => false
  | VBool b => b
  | VInt z => negb (z =? 0)
  | VFloat q => negb (Qeq_bool q 0)
  | VStr s => negb (String.eqb s EmptyString)
  | VList l => match l with [] => false | _ => true end
  | VDict d => match d with [] => false | _ => true end
  end.

(** [v == s] for a string literal [s] *)
Definition eq_str (v : val) (s : string) : bool :=
  match v with
  | VStr t => String.eqb t s
  | _ => false
  end.

Definition is_none (v : val) : bool :=
  match v with VNone => true | _ => false end.

(** [isinstance(v, dict)] *)
Definition is_dict (v : val) : bool :=
  match v with VDict _ => true | _ => false end.

(** [t in s] on strings: substring test *)
Fixpoint substring_of (t s : string) : bool :=
  String.prefix t s ||
  match s with
  | EmptyString => false
  | String _ s' => substring_of t s'
  end.

(** [k in v] for a string literal [k] *)
Definition contains (k : string) (v : val) : result bool :=
  match v with
  | VDict d => Ok (dict_has (KStr k) d)
  | VList l => Ok (existsb (fun x => eq_str x k) l)
  | VStr s => Ok (substring_of k s)
  | _ => Raise TypeError
  end.

(** [v[k]] for a string literal [k] *)
Definition getitem (v : val) (k : string) : result val :=
  match v with
  | VDict d =>
      match dict_get (KStr k) d with
      | Some x => Ok x
      | None => Raise KeyError
      end
  | _ => Raise TypeError
  end.

(** [v.get(k, default)]; only dictionaries have the method *)
Definition get_default (v : val) (k : string) (default : val) : result val :=
  match v with
  | VDict d =>
      match dict_get (KStr k) d with
      | Some x => Ok x
      | None => Ok default
      end
  | _ => Raise AttributeError
  end.

(** [v.items()] *)
Definition items (v : val) : result (list (key * val)) :=
  match v with
  | VDict d => Ok d
  | _ => Raise AttributeError
  end.

(** [v.keys()] *)
Definition keys (v : val) : result (list key) :=
  match v with
  | VDict d => Ok (dict_keys d)
  | _ => Raise AttributeError
  end.

(** [for x in v]: a dictionary yields its keys, a list its elements, a
    string its characters *)
Fixpoint chars (s : string) : list val :=
  match s with
  | EmptyString => []
  | String c s' => VStr (String c EmptyString) :: chars s'
  end.

Definition iter (v : val) : result (list val) :=
  match v with
  | VDict d => Ok (map key_val (dict_keys d))
  | VList l => Ok l
  | VStr s => Ok (chars s)
  | _ => Raise TypeError
  end.

(** A value used as a dictionary key: lists and dictionaries are not
    hashable. *)
Definition to_key (v : val) : result key :=
  match v with
  | VStr s => Ok (KStr s)
  | VInt z => Ok (KInt z)
  | VBool b => Ok (KInt (if b then 1 else 0))
  | VFloat q =>
      Ok (if Qeq_bool q (inject_Z (Qfloor q)) then KInt (Qfloor q) else KFloat q)
  | VNone => Ok KNone
  | VList _ | VDict _ => Raise TypeError
  end.

(** [l[i]] on a sequence, negative indices counting from the end *)
Definition seq_index {A : Type} (l : list A) (i : Z) : result A :=
  let n := Zlen l in
  let j := if i <? 0 then i + n else i in
  if (j <? 0) || (n <=? j) then Raise IndexError
  else match nth_error l (Z.to_nat j) with
       | Some x => Ok x
       | None => Raise IndexError
       end.

(** [v[i]] for an arbitrary index value *)
Definition subscript (v i : val) : result val :=
  match v with
  | VDict d =>
      k <- to_key i ;;
      match dict_get k d with
      | Some x => Ok x
      | None => Raise KeyError
      end
  | VList l =>
      match i with
      | VInt z => seq_index l z
      | VBool b => seq_index l (if b then 1 else 0)
      | _ => Raise TypeError
      end
  | VStr s =>
      match i with
      | VInt z => seq_index (chars s) z
      | VBool b => seq_index (chars s) (if b then 1 else 0)
      | _ => Raise TypeError
      end
  | _ => Raise TypeError
  end.

(** [v[k] = x] for a string literal [k] *)
Definition setitem (v : val) (k : string) (x : val) : result val :=
  match v with
  | VDict d => Ok (VDict (dict_set (KStr k) x d))
  | _ => Raise TypeError
  end.

(** [a + b] where the driver uses it: string concatenation *)
Definition add (a b : val) : result val :=
  match a, b with
  | VStr s, VStr t => Ok (VStr (s ++ t))
  | VInt x, VInt y => Ok (VInt (x + y))
  | VList x, VList y => Ok (VList (x ++ y))
  | _, _ => Raise TypeError
  end.

End Py.
Import Py.

(** ** The vendor SDK, as seen by the driver

    One [Session] is one snapshot of the device: what each SDK call returns
    (or raises) during one driver operation. *)

(** Attributes of [Device(session)] that the driver reads after [get()]. *)
Record Device : Type := {
  boot_time : Z;
  mgmt_intf_status : val;
  software_info : val
}.

(** [Interface(session, name)] after [get()]: [ip6_addresses] may be
    missing ([hasattr]); each element exposes [.address]. *)
Record InterfaceObj : Type := {
  ip6_addresses : option (list string)
}.

(** A [Vlan] object; the driver reads [__dict__['id']]. *)
Record VlanObj : Type := {
  vlan_obj_id : val
}.

(** A [Mac] object: [get()] may raise; afterwards the driver reads
    [_parent_vlan] and [__dict__['_original_attributes']]. *)
Record MacObj : Type := {
  mac_obj_get : result unit;
  _parent_vlan : VlanObj;
  _original_attributes : val
}.

(** A [requests] response. *)
Record Response : Type := {
  resp_ok : bool;
  status_code : string;
  text : string;
  json : result val
}.

Record Session : Type := {
  base_url : string;
  time_now : Z;                                    (* int(time.time()) *)
  Device_get : result Device;                      (* switch.get() *)
  Device_get_subsystems : result val;              (* switch.get_subsystems() *)
  Interface_get_all : result val;
  Interface_get_facts : result val;
  Interface_get : key -> result InterfaceObj;
  LLDPNeighbor_get_facts : result val;
  Vlan_get_all : result (dict VlanObj);
  Vlan_get_facts : result val;
  Mac_get_all : VlanObj -> result (dict MacObj);
  http_get : string -> result Response             (* session.s.get(url, ...) *)
}.

(** ** Subsystem candidates *)

Definition subsystem_keys : list string := ["management_module,1/1"; "chassis,1"].

(** The loop shared by the four subsystem lookups:
[[
    for key in keys:
        if len(<tested>) > 0:
            <var> = <taken>
            break
]]
    [None] means the loop ended without assigning. *)
Fixpoint first_candidate (tested taken : string -> result val) (keys : list string)
  : result (option val) :=
  match keys with
  | [] => Ok None
  | key :: keys' =>
      t <- tested key ;;
      n <- len t ;;
      if 0 <? n then (v <- taken key ;; Ok (Some v))
      else first_candidate tested taken keys'
  end.

(** [switch.subsystems[key][field]] *)
Definition subsystem_field (subsystems : val) (field key : string) : result val :=
  sub <- getitem subsystems key ;;
  getitem sub field.

(** ** get_facts *)

(** [switch.subsystems[key]['product_info']['serial_number']] *)
Definition subsystem_serial (subsystems : val) (key : string) : result val :=
  pi <- subsystem_field subsystems "product_info" key ;;
  getitem pi "serial_number".

(** The part of [get_facts] after the candidate loop. *)
Definition get_facts_build (s : Session) (switch : Device) (interface_list : val)
  (product_info : val) : result val :=
  has_host <- contains "hostname" (mgmt_intf_status switch) ;;
  hostname <- (if negb has_host then Ok (VStr "ArubaCX")
               else getitem (mgmt_intf_status switch) "hostname") ;;
  has_dom <- contains "domain_name" (mgmt_intf_status switch) ;;
  domain_name <- (if negb has_dom then Ok (VStr EmptyString)
                  else getitem (mgmt_intf_status switch) "domain_name") ;;
  use_dom <- (if is_none domain_name then Ok false
              else n <- len domain_name ;; Ok (0 <? n)) ;;
  fqdn <- (if (use_dom : bool)
           then h <- add hostname (VStr ".") ;; add h domain_name
           else Ok hostname) ;;
  build_id <- getitem (software_info switch) "build_id" ;;
  serial_number <- getitem product_info "serial_number" ;;
  product_name <- getitem product_info "product_name" ;;
  ks <- keys interface_list ;;
  Ok (VDict (dict_of
    [ (KStr "uptime", VInt (time_now s - boot_time switch));
      (KStr "vendor", VStr "Aruba");
      (KStr "os_version", build_id);
      (KStr "serial_number", serial_number);
      (KStr "model", product_name);
      (KStr "hostname", hostname);
      (KStr "fqdn", fqdn);
      (KStr "interface_list", VList (map key_val ks)) ])).

Definition get_facts (s : Session) : result val :=
  switch <- Device_get s ;;
  subsystems <- Device_get_subsystems s ;;
  interface_list <- Interface_get_all s ;;
  found <- first_candidate (subsystem_serial subsystems)
             (subsystem_field subsystems "product_info") subsystem_keys ;;
  let product_info := match found with Some pi => pi | None => VDict [] end in
  get_facts_build s switch interface_list product_info.

(** ** Subsystem lookups used by get_environment *)

(** After the loop the local variable is returned; it is unbound when no
    candidate matched. *)
Definition subsystem_lookup (s : Session) (field : string) : result val :=
  switch <- Device_get s ;;
  subsystems <- Device_get_subsystems s ;;
  found <- first_candidate (subsystem_field subsystems field)
             (subsystem_field subsystems field) subsystem_keys ;;
  match found with
  | Some v => Ok v
  | None => Raise UnboundLocalError
  end.

Definition _get_fan_info (s : Session) : result val :=
  subsystem_lookup s "fans".

Definition _get_power_supplies (s : Session) : result val :=
  subsystem_lookup s "power_supplies".

Definition _get_resource_utilization (s : Session) : result val :=
  subsystem_lookup s "resource_utilization".

(** ** get_interfaces *)

(** One iteration of the loop of [get_interfaces]: the item added to
    [interfaces_return]. *)
Definition get_interfaces_entry (interface_list interface : val)
  : result (key * val) :=
  interface_details <- subscript interface_list interface ;;
  has_descr <- contains "description" interface_details ;;
  descr_none <- (if negb has_descr then Ok true
                 else d <- getitem interface_details "description" ;;
                      Ok (is_none d)) ;;
  interface_details <-
    (if (descr_none : bool)
     then setitem interface_details "description" (VStr EmptyString)
     else Ok interface_details) ;;
  hw <- getitem interface_details "hw_intf_info" ;;
  has_speed <- contains "max_speed" hw ;;
  speed <- (if negb has_speed then Ok (VStr "N/A")
            else hw' <- getitem interface_details "hw_intf_info" ;;
                 getitem hw' "max_speed") ;;
  has_mtu <- contains "mtu" interface_details ;;
  mtu <- (if negb has_mtu then Ok (VStr "N/A")
          else getitem interface_details "mtu") ;;
  hw <- getitem interface_details "hw_intf_info" ;;
  has_mac <- contains "mac_addr" hw ;;
  mac_address <- (if negb has_mac then Ok (VStr "N/A")
                  else hw' <- getitem interface_details "hw_intf_info" ;;
                       getitem hw' "mac_addr") ;;
  name <- to_key interface ;;
  link_state <- getitem interface_details "link_state" ;;
  admin_state <- getitem interface_details "admin_state" ;;
  description <- getitem interface_details "description" ;;
  Ok (name, VDict (dict_of
    [ (KStr "is_up", VBool (eq_str link_state "up"));
      (KStr "is_enabled", VBool (eq_str admin_state "up"));
      (KStr "description", description);
      (KStr "last_flapped", VFloat (-1 # 1));
      (KStr "speed", speed);
      (KStr "mtu", mtu);
      (KStr "mac_address", mac_address) ])).

(** The normaliser of [get_interfaces], given what [Interface.get_facts]
    returned. *)
Definition interfaces_of (interface_list : val) : result val :=
  names <- iter interface_list ;;
  interfaces_return <-
    foldM (fun acc interface =>
             kv <- get_interfaces_entry interface_list interface ;;
             Ok (dict_update acc [kv]))
          names [] ;;
  Ok (VDict interfaces_return).

Definition get_interfaces (s : Session) : result val :=
  interface_list <- Interface_get_facts s ;;
  interfaces_of interface_list.

(** ** get_interfaces_counters *)

(** The initial [intf_counter] display. *)
Definition zero_counters : dict val :=
  dict_of
    [ (KStr "tx_errors", VInt 0); (KStr "rx_errors", VInt 0);
      (KStr "tx_discards", VInt 0); (KStr "rx_discards", VInt 0);
      (KStr "tx_octets", VInt 0); (KStr "rx_octets", VInt 0);
      (KStr "tx_unicast_packets", VInt 0); (KStr "rx_unicast_packets", VInt 0);
      (KStr "tx_multicast_packets", VInt 0); (KStr "rx_multicast_packets", VInt 0);
      (KStr "tx_broadcast_packets", VInt 0); (KStr "rx_broadcast_packets", VInt 0) ].

(** The twelve [if src in statistics: intf_counter[dst] = statistics[src]]
    statements, as (source statistic, output counter), in source order. *)
Definition counter_sources : list (string * string) :=
  [ ("tx_bytes", "tx_octets");
    ("rx_bytes", "rx_octets");
    ("if_hc_out_unicast_packets", "tx_unicast_packets");
    ("if_hc_in_unicast_packets", "rx_unicast_packets");
    ("if_out_multicast_packets", "tx_multicast_packets");
    ("if_in_multicast_packets", "rx_multicast_packets");
    ("if_out_broadcast_packets", "tx_broadcast_packets");
    ("if_in_broadcast_packets", "rx_broadcast_packets");
    ("tx_errors", "tx_errors");
    ("rx_errors", "rx_errors");
    ("tx_dropped", "tx_discards");
    ("rx_dropped", "rx_discards") ].

Definition copy_statistic (interface_details : val) (intf_counter : dict val)
  (sd : string * string) : result (dict val) :=
  let (src, dst) := sd in
  stats <- getitem interface_details "statistics" ;;
  has <- contains src stats ;;
  if (has : bool)
  then stats' <- getitem interface_details "statistics" ;;
       v <- getitem stats' src ;;
       Ok (dict_set (KStr dst) v intf_counter)
  else Ok intf_counter.

Definition interface_counters (interface_details : val) : result (dict val) :=
  foldM (copy_statistic interface_details) counter_sources zero_counters.

Definition counters_of (interface_list : val) : result val :=
  names <- iter interface_list ;;
  interface_stats_dictionary <-
    foldM (fun acc interface =>
             interface_details <- subscript interface_list interface ;;
             intf_counter <- interface_counters interface_details ;;
             name <- to_key interface ;;
             Ok (dict_update acc [(name, VDict intf_counter)]))
          names [] ;;
  Ok (VDict interface_stats_dictionary).

Definition get_interfaces_counters (s : Session) : result val :=
  interface_list <- Interface_get_facts s ;;
  counters_of interface_list.

(** ** get_lldp_neighbors *)

(** [lst.append(x)] on a value *)
Definition append (lst x : val) : result val :=
  match lst with
  | VList l => Ok (VList (l ++ [x]))
  | _ => Raise AttributeError
  end.

Definition lldp_brief_of (lldp_interfaces_list : val) : result val :=
  uris <- iter lldp_interfaces_list ;;
  lldp_brief_return <-
    foldM (fun acc interface_uri =>
             interface_details <- subscript lldp_interfaces_list interface_uri ;;
             interface_name <- to_key interface_uri ;;
             let acc := if dict_has interface_name acc then acc
                        else dict_set interface_name (VList []) acc in
             neighbors <- iter interface_details ;;
             foldM (fun acc neighbor =>
                      nbr <- subscript interface_details neighbor ;;
                      ni <- getitem nbr "neighbor_info" ;;
                      hostname <- getitem ni "chassis_name" ;;
                      nbr' <- subscript interface_details neighbor ;;
                      port <- getitem nbr' "port_id" ;;
                      let entry := VDict (dict_of [ (KStr "hostname", hostname);
                                                    (KStr "port", port) ]) in
                      match dict_get interface_name acc with
                      | Some lst => lst' <- append lst entry ;;
                                    Ok (dict_set interface_name lst' acc)
                      | None => Raise KeyError
                      end)
                   neighbors acc)
          uris [] ;;
  Ok (VDict lldp_brief_return).

Definition get_lldp_neighbors (s : Session) : result val :=
  lldp_interfaces_list <- LLDPNeighbor_get_facts s ;;
  lldp_brief_of lldp_interfaces_list.

(** ** String builtins *)

Module Str.

Definition ascii_in (lo hi : N) (c : ascii) : bool :=
  let n := N_of_ascii c in (N.leb lo n && N.leb n hi)%bool.

Definition is_digit (c : ascii) : bool := ascii_in 48 57 c.
Definition is_upper (c : ascii) : bool := ascii_in 65 90 c.
Definition is_lower (c : ascii) : bool := ascii_in 97 122 c.

(** A string all of whose characters are ASCII. *)
Definition is_ascii_char (c : ascii) : bool := N.ltb (N_of_ascii c) 128.

Fixpoint is_ascii (s : string) : bool :=
  match s with
  | EmptyString => true
  | String c s' => (is_ascii_char c && is_ascii s')%bool
  end.

(** The whitespace [int()] skips around an ASCII numeral: tab, line
    feed, vertical tab, form feed, carriage return and space. *)
Definition is_space (c : ascii) : bool :=
  (ascii_in 9 13 c || Ascii.eqb c " ")%bool.

(** [\w] of the [re] module, for an ASCII character: a letter, a digit or
    the underscore. *)
Definition is_word (c : ascii) : bool :=
  (is_digit c || is_upper c || is_lower c || Ascii.eqb c "_")%bool.

Definition lower_char (c : ascii) : ascii :=
  if is_upper c then ascii_of_N (N_of_ascii c + 32) else c.

(** [s.lower()] for an ASCII string [s]. *)
Fixpoint lower_ascii (s : string) : string :=
  match s with
  | EmptyString => EmptyString
  | String c s' => String (lower_char c) (lower_ascii s')
  end.

Fixpoint rev_string (s acc : string) : string :=
  match s with
  | EmptyString => acc
  | String c s' => rev_string s' (String c acc)
  end.

Fixpoint lstrip (p : ascii -> bool) (s : string) : string :=
  match s with
  | EmptyString => EmptyString
  | String c s' => if p c then lstrip p s' else s
  end.

(** [s.strip(chars)] for the characters satisfying [p] *)
Definition strip (p : ascii -> bool) (s : string) : string :=
  rev_string (lstrip p (rev_string (lstrip p s) EmptyString)) EmptyString.

(** [s.split(sep)] for a one-character separator: every occurrence
    splits, so the result has one more element than there are
    separators. *)
Fixpoint split (sep : ascii) (s : string) : list string :=
  match s with
  | EmptyString => [EmptyString]
  | String c s' =>
      if Ascii.eqb c sep then EmptyString :: split sep s'
      else match split sep s' with
           | [] => [String c EmptyString]
           | hd :: tl => String c hd :: tl
           end
  end.

(** [s.rfind(c)]: index of the last occurrence, or -1 *)
Fixpoint rfind_from (c : ascii) (s : string) (i : Z) (last : Z) : Z :=
  match s with
  | EmptyString => last
  | String a s' => rfind_from c s' (i + 1) (if Ascii.eqb a c then i else last)
  end.

Definition rfind (c : ascii) (s : string) : Z := rfind_from c s 0 (-1).

(** Slice bounds: a negative bound counts from the end, then clamps. *)
Definition clamp (s : string) (i : Z) : nat :=
  let n := Z.of_nat (String.length s) in
  let j := if i <? 0 then i + n else i in
  Z.to_nat (Z.max 0 (Z.min n j)).

(** [s[:i]] *)
Definition slice_to (s : string) (i : Z) : string :=
  String.substring 0 (clamp s i) s.

(** [s[i:]] *)
Definition slice_from (s : string) (i : Z) : string :=
  String.substring (clamp s i) (String.length s - clamp s i) s.

(** [c in s] for a character *)
Fixpoint has_char (c : ascii) (s : string) : bool :=
  match s with
  | EmptyString => false
  | String a s' => (Ascii.eqb a c || has_char c s')%bool
  end.

(** Decimal digits with single underscores between them, as accepted by
    [int()]: [prev] tells whether the previous character was a digit. *)
Fixpoint digits_value (s : string) (prev : bool) (acc : Z) : option Z :=
  match s with
  | EmptyString => if prev then Some acc else None
  | String c s' =>
      if is_digit c
      then digits_value s' true (10 * acc + Z.of_N (N_of_ascii c - 48))
      else if (Ascii.eqb c "_" && prev)%bool
           then digits_value s' false acc
           else None
  end.

(** [int(s)] for an ASCII string, base 10: surrounding whitespace is
    ignored, one sign is allowed, and single underscores may separate
    digits. *)
Definition int_of_string (s : string) : result Z :=
  let body := strip is_space s in
  let parsed :=
    match body with
    | String "-" ds => option_map Z.opp (digits_value ds false 0)
    | String "+" ds => digits_value ds false 0
    | _ => digits_value body false 0
    end in
  match parsed with
  | Some z => Ok z
  | None => Raise ValueError
  end.



(** [re.sub(r'[^\w]+', '-', x)]: [in_run] tells whether the previous
    character was already part of the run being replaced. *)
Fixpoint sub_nonword_runs (s : string) (in_run : bool) : string :=
  match s with
  | EmptyString => EmptyString
  | String c s' =>
      if is_word c then String c (sub_nonword_runs s' false)
      else if in_run then sub_nonword_runs s' true
           else String "-" (sub_nonword_runs s' true)
  end.

(** The local [slugify] defined when django is not importable:
    [re.sub(r'[^\w]+', '-', x).strip('-').lower()].  On an ASCII string it
    is computed here; on any other string the word class of the regular
    expression and [lower()] follow the Unicode tables of the
    interpreter, for which [slugify_unicode] stands. *)
Definition slugify_fallback (slugify_unicode : string -> string) (x : string)
  : string :=
  if is_ascii x
  then lower_ascii (strip (fun c => Ascii.eqb c "-") (sub_nonword_runs x false))
  else slugify_unicode x.

End Str.

(** [int(v)] *)
Definition py_int (v : val) : result Z :=
  match v with
  | VInt z => Ok z
  | VBool b => Ok (if b then 1 else 0)
  | VFloat q => Ok (Z.quot (Qnum q) (Zpos (Qden q)))
  | VStr s => Str.int_of_string s
  | _ => Raise TypeError
  end.

(** ** get_lldp_neighbors_detail

    [unquote] comes from [urllib.parse] and [slugify] from django when it
    is installed (the local fallback is [Str.slugify_fallback]); [lower]
    is the method [str.lower] of the interpreter, which follows the
    Unicode tables.  The three are parameters of the method. *)

Section LldpDetail.
Variables unquote slugify lower : string -> string.



(** [''.join(x.lower() for x in caps)] *)
Definition join_lower (caps : val) : result string :=
  xs <- iter caps ;;
  foldM (fun acc x =>
           match x with
           | VStr c => Ok (acc ++ lower c)%string
           | _ => Raise AttributeError
           end)
        xs EmptyString.

(** The entry built for one neighbour of [decoded_intf]. *)
Definition lldp_entry (decoded_intf : string) (nbr_data : val) : result val :=
  ni <- get_default nbr_data "neighbor_info" (VDict []) ;;
  avail <- get_default ni "chassis_capability_available" (VList []) ;;
  caps_avail <- join_lower avail ;;
  enabled <- get_default ni "chassis_capability_enabled" (VList []) ;;
  caps_enabled <- join_lower enabled ;;
  chassis_id <- get_default nbr_data "chassis_id" (VStr EmptyString) ;;
  chassis_name <- get_default ni "chassis_name" (VStr EmptyString) ;;
  port_id <- get_default nbr_data "port_id" (VStr EmptyString) ;;
  port_description <- get_default ni "port_description" (VStr EmptyString) ;;
  chassis_description <- get_default ni "chassis_description" (VStr EmptyString) ;;
  Ok (VDict (dict_of
    [ (KStr "parent_interface", VStr decoded_intf);
      (KStr "remote_chassis_id", chassis_id);
      (KStr "remote_system_name", chassis_name);
      (KStr "remote_port", port_id);
      (KStr "remote_port_description", port_description);
      (KStr "remote_system_description", chassis_description);
      (KStr "remote_system_capab", VStr caps_avail);
      (KStr "remote_system_enable_capab", VStr caps_enabled) ])).




End LldpDetail.

(** ** get_environment *)

(** [response = s.get(url + "system/subsystems", ...)] and the flattening
    of every subsystem's [temp_sensors] list. *)
Definition _get_temperature (s : Session) : result val :=
  response <- http_get s (base_url s ++ "system/subsystems") ;;
  if negb (resp_ok response) then Ok (VList [])
  else
    data <- json response ;;
    subsystems <- get_default data "subsystems" (VList []) ;;
    subs <- iter subsystems ;;
    temp_info_list <-
      foldM (fun acc subsystem =>
               got <- get_default subsystem "temp_sensors" VNone ;;
               let sensors := if truthy got then got else VList [] in
               match sensors with
               | VList l => Ok (acc ++ l)
               | _ => Ok acc
               end)
            subs [] ;;
    Ok (VList temp_info_list).

(** *** Floats

    A Python float is a binary64 number and [VFloat] holds its value.
    [float(n)] and the true division [n / d] give the number nearest to the
    exact result, ties going to the even significand, and raise
    [OverflowError] when an integer result is beyond the largest one. *)

(** [n / d] rounded to the nearest integer, ties to even, for [0 <= n]
    and [0 < d]. *)
Definition round_half_even (n d : Z) : Z :=
  let q := n / d in
  match 2 * (n mod d) ?= d with
  | Lt => q
  | Gt => q + 1
  | Eq => if Z.even q then q else q + 1
  end.

(** The binary64 number nearest to the rational [q]: a significand of at
    most 53 bits times a power of two that is at least [2 ^ -1074]; none
    when the rounded value reaches [2 ^ 1024]. *)
Definition nearest_double (q : Q) : option Q :=
  let n := Z.abs (Qnum q) in
  let d := Zpos (Qden q) in
  if n =? 0 then Some 0%Q
  else
    let e0 := Z.log2 n - Z.log2 d - 52 in
    let below :=
      if 0 <=? e0 then n <? d * 2 ^ e0 * 2 ^ 52
      else n * 2 ^ (- e0) <? d * 2 ^ 52 in
    let e := Z.max (if below then e0 - 1 else e0) (-1074) in
    let m := if 0 <=? e then round_half_even n (d * 2 ^ e)
             else round_half_even (n * 2 ^ (- e)) d in
    let sm := Z.sgn (Qnum q) * m in
    if 0 <=? e
    then if 2 ^ 1024 <=? m * 2 ^ e then None
         else Some (inject_Z (sm * 2 ^ e))
    else Some (Qred (Qmake sm (Z.to_pos (2 ^ (- e))))).

(** The float of an exact result. *)
Definition double_of (q : Q) : result val :=
  match nearest_double q with
  | Some d => Ok (VFloat d)
  | None => Raise OverflowError
  end.

Section Environment.
(** [float(s)] on a string is Python's own parser. *)
Variable float_of_str : string -> result val.

(** [float(v)] *)
Definition py_float (v : val) : result val :=
  match v with
  | VFloat q => Ok (VFloat q)
  | VInt z => double_of (inject_Z z)
  | VBool b => Ok (VFloat (inject_Z (if b then 1 else 0)))
  | VStr s => float_of_str s
  | _ => Raise TypeError
  end.

(** [v / 1000]: the true division of an integer or of a float by the
    integer 1000. *)
Definition div1000 (v : val) : result val :=
  match v with
  | VInt z => double_of (inject_Z z / 1000)
  | VBool b => double_of (inject_Z (if b then 1 else 0) / 1000)
  | VFloat q => double_of (q / 1000)
  | _ => Raise TypeError
  end.

Definition env_fans (fan_details : val) : result (dict val) :=
  match fan_details with
  | VDict d =>
      foldM (fun fan_dict nd =>
               let (name, details) := (nd : key * val) in
               has <- (if is_dict details then contains "status" details
                       else Ok false) ;;
               if (has : bool)
               then st <- getitem details "status" ;;
                    Ok (dict_set name (VBool (eq_str st "ok")) fan_dict)
               else Ok (dict_set name (VBool (truthy details)) fan_dict))
            d []
  | _ =>
      fans <- iter fan_details ;;
      foldM (fun fan_dict fan =>
               name <- getitem fan "name" ;;
               st <- getitem fan "status" ;;
               k <- to_key name ;;
               Ok (dict_update fan_dict [(k, VBool (eq_str st "ok"))]))
            fans []
  end.

(** The record built for one temperature sensor. *)
Definition temperature_record (sensor : val) : result val :=
  t <- getitem sensor "temperature" ;;
  t1000 <- div1000 t ;;
  temperature <- py_float t1000 ;;
  st <- getitem sensor "status" ;;
  st' <- getitem sensor "status" ;;
  Ok (VDict (dict_of
    [ (KStr "temperature", temperature);
      (KStr "is_alert", VBool (eq_str st "critical"));
      (KStr "is_critical", VBool (eq_str st' "emergency")) ])).

Definition env_temperature (temp_details : val) : result (dict val) :=
  match temp_details with
  | VDict d =>
      foldM (fun temp_dict ls =>
               let (location, sensor) := (ls : key * val) in
               r <- temperature_record sensor ;;
               Ok (dict_set location r temp_dict))
            d []
  | _ =>
      sensors <- iter temp_details ;;
      foldM (fun temp_dict sensor =>
               location <- getitem sensor "location" ;;
               r <- temperature_record sensor ;;
               k <- to_key location ;;
               Ok (dict_update temp_dict [(k, r)]))
            sensors []
  end.

Definition psu_record (status : bool) (capacity : val) : val :=
  VDict (dict_of [ (KStr "status", VBool status);
                   (KStr "capacity", capacity);
                   (KStr "output", VStr "N/A") ]).

Definition env_power (psu_details : val) : result (dict val) :=
  match psu_details with
  | VDict d =>
      foldM (fun psu_dict ns =>
               let (name, specs) := (ns : key * val) in
               sc <- (if is_dict specs
                      then st <- get_default specs "status" VNone ;;
                           ch <- get_default specs "characteristics" (VDict []) ;;
                           mp <- get_default ch "maximum_power" (VInt 0) ;;
                           capacity <- py_float mp ;;
                           Ok (eq_str st "ok", capacity)
                      else Ok (truthy specs, VFloat 0)) ;;
               Ok (dict_set name (psu_record (fst sc) (snd sc)) psu_dict))
            d []
  | _ =>
      psus <- iter psu_details ;;
      foldM (fun psu_dict psu =>
               name <- getitem psu "name" ;;
               st <- getitem psu "status" ;;
               ch <- getitem psu "characteristics" ;;
               mp <- getitem ch "maximum_power" ;;
               capacity <- py_float mp ;;
               k <- to_key name ;;
               Ok (dict_update psu_dict [(k, psu_record (eq_str st "ok") capacity)]))
            psus []
  end.

Definition mem_record (used : val) : dict val :=
  dict_of [ (KStr "available_ram", VStr "N/A"); (KStr "used_ram", used) ].

(** [(cpu_dict, mem_dict)] *)
Definition env_resources (resources_details : val) : result (dict val * dict val) :=
  match resources_details with
  | VDict d =>
      cpu <- get_default resources_details "cpu" VNone ;;
      mem <- get_default resources_details "memory" VNone ;;
      Ok (dict_of [ (KStr "%usage", cpu) ], mem_record mem)
  | _ =>
      mms <- iter resources_details ;;
      foldM (fun cm mm =>
               name <- getitem mm "name" ;;
               ru <- getitem mm "resource_utilization" ;;
               cpu <- getitem ru "cpu" ;;
               k <- to_key name ;;
               let cpu_dict :=
                 dict_update (fst cm)
                   [(k, VDict (dict_of [ (KStr "%usage", cpu) ]))] in
               ru' <- getitem mm "resource_utilization" ;;
               mem <- getitem ru' "memory" ;;
               Ok (cpu_dict, mem_record mem))
            mms ([], [])
  end.

(** The [environment] display at the end of the method. *)
Definition environment_of (fan_dict temp_dict psu_dict : dict val)
  (cm : dict val * dict val) : val :=
  VDict (dict_of
    [ (KStr "fans", VDict fan_dict);
      (KStr "temperature", VDict temp_dict);
      (KStr "power", VDict psu_dict);
      (KStr "cpu", VDict (fst cm));
      (KStr "memory", VDict (snd cm)) ]).

(** The normaliser alone, on the four structures the method fetches. *)
Definition normalize_environment (fan_details temp_details psu_details
  resources_details : val) : result val :=
  fan_dict <- env_fans fan_details ;;
  temp_dict <- env_temperature temp_details ;;
  psu_dict <- env_power psu_details ;;
  cm <- env_resources resources_details ;;
  Ok (environment_of fan_dict temp_dict psu_dict cm).

End Environment.

(** ** get_interfaces_ip *)

(** [{a[:a.rfind('/')]: {'prefix_length': int(a[a.rfind('/') + 1:])}}] as
    one item; only strings have [rfind]. *)
Definition cidr_item (address : val) : result (key * val) :=
  match address with
  | VStr a =>
      let i := Str.rfind "/" a in
      n <- Str.int_of_string (Str.slice_from a (i + 1)) ;;
      Ok (KStr (Str.slice_to a i), VDict (dict_of [ (KStr "prefix_length", VInt n) ]))
  | _ => Raise AttributeError
  end.

Definition interface_ip (s : Session) (name : key) (details : val)
  : result (dict val) :=
  interface_info <- Interface_get s name ;;
  has4 <- contains "ip4_address" details ;;
  use4 <- (if (has4 : bool)
           then a <- getitem details "ip4_address" ;;
                if is_none a then Ok false
                else a' <- getitem details "ip4_address" ;;
                     n <- len a' ;; Ok (0 <? n)
           else Ok false) ;;
  ip4_address <- (if (use4 : bool)
                  then a <- getitem details "ip4_address" ;;
                       kv <- cidr_item a ;;
                       Ok (dict_of [kv])
                  else Ok []) ;;
  ip6_address <-
    foldM (fun ip6 key =>
             has <- contains key details ;;
             use <- (if (has : bool)
                     then a <- getitem details key ;; n <- len a ;; Ok (0 <? n)
                     else Ok false) ;;
             if (use : bool)
             then a <- getitem details key ;;
                  addresses <- keys a ;;
                  foldM (fun ip6 address =>
                           kv <- cidr_item (key_val address) ;;
                           Ok (dict_set (fst kv) (snd kv) ip6))
                        addresses ip6
             else Ok ip6)
          ["ip6_address_link_local"] [] ;;
  ip6_address <-
    match ip6_addresses interface_info with
    | Some objs =>
        if 0 <? Zlen objs
        then foldM (fun ip6 address =>
                      kv <- cidr_item (VStr address) ;;
                      Ok (dict_set (fst kv) (snd kv) ip6))
                   objs ip6_address
        else Ok ip6_address
    | None => Ok ip6_address
    end ;;
  let l1 := if 0 <? Zlen ip4_address
            then dict_set (KStr "ipv4") (VDict ip4_address) []
            else [] in
  let l2 := if 0 <? Zlen ip6_address
            then dict_set (KStr "ipv6") (VDict ip6_address) l1
            else l1 in
  Ok l2.

(** One iteration of [for name, details in interface_list.items()]. *)
Definition interfaces_ip_step (s : Session) (interface_ip_dictionary : dict val)
  (nd : key * val) : result (dict val) :=
  let (name, details) := nd in
  interface_ip_list <- interface_ip s name details ;;
  if 0 <? Zlen interface_ip_list
  then Ok (dict_set name (VDict interface_ip_list) interface_ip_dictionary)
  else Ok interface_ip_dictionary.

Definition get_interfaces_ip (s : Session) : result val :=
  interface_list <- Interface_get_facts s ;;
  its <- items interface_list ;;
  interface_ip_dictionary <- foldM (interfaces_ip_step s) its [] ;;
  Ok (VDict interface_ip_dictionary).

(** ** get_mac_address_table *)

(** The record appended for one element of the filtered [mac_list]. *)
Definition mac_entry (mac : dict MacObj) : result val :=
  mac_key <- seq_index (dict_keys mac) 0 ;;
  mac_attributes <- (match mac_key with
                     | KStr k => Ok (Str.split "," k)
                     | _ => Raise AttributeError
                     end) ;;
  mac_type <- seq_index mac_attributes 0 ;;
  mac_address <- seq_index mac_attributes 1 ;;
  mac_obj <- (match dict_get mac_key mac with
              | Some o => Ok o
              | None => Raise KeyError
              end) ;;
  mac_obj_get mac_obj ;;;
  vlan <- py_int (vlan_obj_id (_parent_vlan mac_obj)) ;;
  port <- getitem (_original_attributes mac_obj) "port" ;;
  ports <- keys port ;;
  interface <- seq_index ports 0 ;;
  Ok (VDict (dict_of
    [ (KStr "mac", VStr mac_address);
      (KStr "interface", key_val interface);
      (KStr "vlan", VInt vlan);
      (KStr "static", VBool (String.eqb mac_type "static"));
      (KStr "active", VBool true);
      (KStr "moves", VNone);
      (KStr "last_move", VNone) ])).

(** [list(filter(lambda mac_entry: len(mac_entry) > 0, mac_list))] *)
Definition nonempty_macs (mac_list : list (dict MacObj)) : list (dict MacObj) :=
  filter (fun mac_entry => 0 <? Zlen mac_entry) mac_list.

Definition mac_entries_of (mac_list : list (dict MacObj)) : result (list val) :=
  mapM mac_entry (nonempty_macs mac_list).

(** [for vlan in vlan_list: mac_list.append(Mac.get_all(session, vlan_list[vlan]))] *)
Definition fetch_mac_list (s : Session) (vlan_list : dict VlanObj)
  : result (list (dict MacObj)) :=
  mapM (fun vlan =>
          match dict_get vlan vlan_list with
          | Some v => Mac_get_all s v
          | None => Raise KeyError
          end)
       (dict_keys vlan_list).

Definition get_mac_address_table (s : Session) : result val :=
  vlan_list <- Vlan_get_all s ;;
  mac_list <- fetch_mac_list s vlan_list ;;
  mac_entries <- mac_entries_of mac_list ;;
  Ok (VList mac_entries).

(** ** get_vlans *)

(** The skeleton [{int(vlan_id): {"name": ..., "interfaces": []}}]. *)
Definition vlan_skeleton (vlan_list : val) : result (dict val) :=
  ids <- iter vlan_list ;;
  foldM (fun vlan_json vlan_id =>
           v <- subscript vlan_list vlan_id ;;
           name <- getitem v "name" ;;
           n <- py_int vlan_id ;;
           Ok (dict_set (KInt n)
                 (VDict (dict_of [ (KStr "name", name);
                                   (KStr "interfaces", VList []) ]))
                 vlan_json))
        ids [].

(** ['/' in key] *)
Definition is_physical (k : key) : result bool :=
  match k with
  | KStr name => Ok (Str.has_char "/" name)
  | _ => Raise TypeError
  end.

(** [{key: value for key, value in interface_list.items() if '/' in key}] *)
Definition physical_interfaces (its : dict val) : result (dict val) :=
  foldM (fun acc kv =>
           p <- is_physical (fst kv) ;;
           if (p : bool) then Ok (dict_set (fst kv) (snd kv) acc) else Ok acc)
        its [].

(** [field in facts and facts[field] and (len(facts[field]) > 0)] *)
Definition vlan_field_set (interface_facts : val) (field : string) : result bool :=
  has <- contains field interface_facts ;;
  if (has : bool)
  then v <- getitem interface_facts field ;;
       if truthy v
       then v' <- getitem interface_facts field ;;
            n <- len v' ;;
            Ok (0 <? n)
       else Ok false
  else Ok false.

(** The local variable [key] after the [if]/[elif]. *)
Definition membership_key (interface_facts : val) : result string :=
  trunks <- vlan_field_set interface_facts "applied_vlan_trunks" ;;
  if (trunks : bool) then Ok "applied_vlan_trunks"
  else
    tag <- vlan_field_set interface_facts "applied_vlan_tag" ;;
    if (tag : bool) then Ok "applied_vlan_tag" else Ok EmptyString.

(** [vlan_json[id]['interfaces'].append(interface)] *)
Definition add_member (interface : val) (vlan_json : dict val) (id : Z)
  : result (dict val) :=
  match dict_get (KInt id) vlan_json with
  | None => Raise KeyError
  | Some rec =>
      ifs <- getitem rec "interfaces" ;;
      ifs' <- append ifs interface ;;
      rec' <- setitem rec "interfaces" ifs' ;;
      Ok (dict_set (KInt id) rec' vlan_json)
  end.

(** [vlan_ids = [int(key) for key in src]] and the loop appending
    [interface] to each of these VLANs. *)
Definition add_members (interface : val) (src : val) (vlan_json : dict val)
  : result (dict val) :=
  ks <- iter src ;;
  vlan_ids <- mapM py_int ks ;;
  foldM (add_member interface) vlan_ids vlan_json.

(** One iteration of [for interface in physical_interface_list]. *)
Definition scan_interface (interface_list : val) (vlan_json : dict val)
  (interface : key) : result (dict val) :=
  interface_facts <- subscript interface_list (key_val interface) ;;
  key <- membership_key interface_facts ;;
  if negb (String.eqb key EmptyString)
  then src <- getitem interface_facts key ;;
       add_members (key_val interface) src vlan_json
  else Ok vlan_json.

Definition vlans_of (vlan_list interface_list : val) : result val :=
  vlan_json <- vlan_skeleton vlan_list ;;
  its <- items interface_list ;;
  physical_interface_list <- physical_interfaces its ;;
  vlan_json <- foldM (scan_interface interface_list)
                     (dict_keys physical_interface_list) vlan_json ;;
  Ok (VDict vlan_json).

Definition get_vlans (s : Session) : result val :=
  vlan_list <- Vlan_get_facts s ;;
  vlan_json <- vlan_skeleton vlan_list ;;
  interface_list <- Interface_get_facts s ;;
  its <- items interface_list ;;
  physical_interface_list <- physical_interfaces its ;;
  vlan_json <- foldM (scan_interface interface_list)
                     (dict_keys physical_interface_list) vlan_json ;;
  Ok (VDict vlan_json).

(** ** get_config *)

Definition fetch_config (s : Session) (path label : string) : result string :=
  resp <- http_get s (base_url s ++ path) ;;
  if negb (resp_ok resp)
  then Raise (MergeConfigException
                (label ++ " fetch failed: " ++ status_code resp ++ " " ++ text resp))
  else Ok (text resp).

Definition get_config (s : Session) (retrieve : string) : result val :=
  let among := fun opts => existsb (String.eqb retrieve) opts in
  if negb (among ["running"; "startup"; "candidate"; "all"])
  then Raise ValueError
  else
    running_config <- (if among ["running"; "all"]
                       then fetch_config s "configs/running-config" "Running-config"
                       else Ok EmptyString) ;;
    startup_config <- (if among ["startup"; "all"]
                       then fetch_config s "configs/startup-config" "Startup-config"
                       else Ok EmptyString) ;;
    Ok (VDict (dict_of [ (KStr "running", VStr running_config);
                         (KStr "startup", VStr startup_config);
                         (KStr "candidate", VStr EmptyString) ])).

(** ** The driver object: __init__, open, close, is_alive *)

Module Lifecycle.

(** What these methods raise: the builtin [ConnectionError] (from the
    SDK), napalm's [ConnectionException], or one of the exceptions of the
    data model. *)
Inductive raised : Type :=
| ConnectionError (msg : string)
| ConnectionException (msg : string)
| Builtin (e : exn).

(** [Session(hostname, version)] *)
Record SessionObj : Type := {
  sess_hostname : string;
  sess_version : val
}.

Record driver : Type := {
  hostname : string;
  username : string;
  password : string;
  version : val;
  timeout : val;
  optional_args : val;
  verify_ssl : val;
  platform : string;
  profile : list string;
  session : option SessionObj;
  isAlive : bool;
  candidate_config : string;
  base_url : string;
  session_info : option (SessionObj * string);   (* {"s": ..., "url": ...} *)
  insecure_warning_disabled : bool               (* urllib3.disable_warnings(...) *)
}.

(** [d.pop(k, default)]: the value and the dictionary after the call.
    [list.pop] takes at most one argument; other values have no [pop]. *)
Definition pop_default (v : val) (k : string) (default : val) : result (val * val) :=
  match v with
  | VDict d =>
      Ok (match dict_get (KStr k) d with Some x => x | None => default end,
          VDict (filter (fun kv => negb (key_eqb (KStr k) (fst kv))) d))
  | VList _ => Raise TypeError
  | _ => Raise AttributeError
  end.

Section Init.
(** [str(v)] for a value that is not a string is Python's own. *)
Variable str_other : val -> string.

(** ["{0}".format(v)] *)
Definition format_val (v : val) : string :=
  match v with
  | VStr t => t
  | _ => str_other v
  end.

Definition __init__ (hostname username password : string)
  (version timeout optional_args : val) : result driver :=
  vo <- (if is_none version
         then pop_default optional_args "version" (VStr "1")
         else Ok (version, optional_args)) ;;
  let version := fst vo in
  let optional_args := snd vo in
  verify_ssl <- get_default optional_args "verify_ssl" (VBool true) ;;
  Ok {| hostname := hostname;
        username := username;
        password := password;
        version := version;
        timeout := timeout;
        optional_args := optional_args;
        verify_ssl := verify_ssl;
        platform := "aoscx";
        profile := ["aoscx"];
        session := None;
        isAlive := false;
        candidate_config := EmptyString;
        base_url := "https://" ++ hostname ++ "/rest/v" ++ format_val version ++ "/";
        session_info := None;
        insecure_warning_disabled := negb (truthy verify_ssl) |}.
End Init.

Definition set_session (d : driver) (sess : SessionObj) : driver :=
  {| hostname := hostname d; username := username d; password := password d;
     version := version d; timeout := timeout d;
     optional_args := optional_args d; verify_ssl := verify_ssl d;
     platform := platform d; profile := profile d;
     session := Some sess;
     isAlive := isAlive d; candidate_config := candidate_config d;
     base_url := base_url d; session_info := session_info d;
     insecure_warning_disabled := insecure_warning_disabled d |}.

Definition set_isAlive (d : driver) (b : bool) : driver :=
  {| hostname := hostname d; username := username d; password := password d;
     version := version d; timeout := timeout d;
     optional_args := optional_args d; verify_ssl := verify_ssl d;
     platform := platform d; profile := profile d;
     session := session d;
     isAlive := b; candidate_config := candidate_config d;
     base_url := base_url d; session_info := session_info d;
     insecure_warning_disabled := insecure_warning_disabled d |}.

Definition set_session_info (d : driver) (info : SessionObj * string) : driver :=
  {| hostname := hostname d; username := username d; password := password d;
     version := version d; timeout := timeout d;
     optional_args := optional_args d; verify_ssl := verify_ssl d;
     platform := platform d; profile := profile d;
     session := session d;
     isAlive := isAlive d; candidate_config := candidate_config d;
     base_url := base_url d; session_info := Some info;
     insecure_warning_disabled := insecure_warning_disabled d |}.

(** The SDK calls of [open] and [close]: [None] when the call returns. *)
Record Sdk : Type := {
  session_open : SessionObj -> string -> string -> option raised;
  session_logout : SessionObj -> string -> option raised
}.

(** [open]: the driver after the call and what was raised, if anything.
    Only [ConnectionError] is caught, and turned into a
    [ConnectionException] with the same text. *)
Definition open (sdk : Sdk) (d : driver) : driver * option raised :=
  let sess := {| sess_hostname := hostname d; sess_version := version d |} in
  let d := set_session d sess in
  match session_open sdk sess (username d) (password d) with
  | None =>
      let d := set_isAlive d true in
      (set_session_info d (sess, base_url d), None)
  | Some (ConnectionError msg) => (d, Some (ConnectionException msg))
  | Some e => (d, Some e)
  end.

(** [close]: [self.session.s] needs a session object. *)
Definition close (sdk : Sdk) (d : driver) : driver * option raised :=
  match session d with
  | None => (d, Some (Builtin AttributeError))
  | Some sess =>
      match session_logout sdk sess (base_url d) with
      | None => (set_isAlive d false, None)
      | Some e => (d, Some e)
      end
  end.

Definition is_alive (d : driver) : val :=
  VDict (dict_of [ (KStr "is_alive", VBool (isAlive d)) ]).

(** The calls a user can make on a driver, and the drivers reachable from
    a freshly constructed one. *)
Inductive call : Type := CallOpen | CallClose.

Definition step (sdk : Sdk) (d : driver) (c : call) : driver :=
  match c with
  | CallOpen => fst (open sdk d)
  | CallClose => fst (close sdk d)
  end.

(** The SDK may answer differently at each call. *)
Fixpoint run (d : driver) (calls : list (call * Sdk)) : driver :=
  match calls with
  | [] => d
  | (c, sdk) :: calls' => run (step sdk d c) calls'
  end.

End Lifecycle.

(** ** Example sessions *)

(** A session on which every SDK call raises. *)
Definition unreachable (msg : string) : Session :=
  {| base_url := "https://switch/rest/v10.04/";
     time_now := 0;
     Device_get := Raise (TransportError msg);
     Device_get_subsystems := Raise (TransportError msg);
     Interface_get_all := Raise (TransportError msg);
     Interface_get_facts := Raise (TransportError msg);
     Interface_get := fun _ => Raise (TransportError msg);
     LLDPNeighbor_get_facts := Raise (TransportError msg);
     Vlan_get_all := Raise (TransportError msg);
     Vlan_get_facts := Raise (TransportError msg);
     Mac_get_all := fun _ => Raise (TransportError msg);
     http_get := fun _ => Raise (TransportError msg) |}.

Definition with_device (s : Session) (sw : Device) (subsystems il : val) : Session :=
  {| base_url := base_url s;
     time_now := time_now s;
     Device_get := Ok sw;
     Device_get_subsystems := Ok subsystems;
     Interface_get_all := Ok il;
     Interface_get_facts := Interface_get_facts s;
     Interface_get := Interface_get s;
     LLDPNeighbor_get_facts := LLDPNeighbor_get_facts s;
     Vlan_get_all := Vlan_get_all s;
     Vlan_get_facts := Vlan_get_facts s;
     Mac_get_all := Mac_get_all s;
     http_get := http_get s |}.

Definition with_lldp (s : Session) (raw_lldp : result val) : Session :=
  {| base_url := base_url s;
     time_now := time_now s;
     Device_get := Device_get s;
     Device_get_subsystems := Device_get_subsystems s;
     Interface_get_all := Interface_get_all s;
     Interface_get_facts := Interface_get_facts s;
     Interface_get := Interface_get s;
     LLDPNeighbor_get_facts := raw_lldp;
     Vlan_get_all := Vlan_get_all s;
     Vlan_get_facts := Vlan_get_facts s;
     Mac_get_all := Mac_get_all s;
     http_get := http_get s |}.

Definition with_macs (s : Session) (vlan_list : dict VlanObj)
  (macs : VlanObj -> result (dict MacObj)) : Session :=
  {| base_url := base_url s;
     time_now := time_now s;
     Device_get := Device_get s;
     Device_get_subsystems := Device_get_subsystems s;
     Interface_get_all := Interface_get_all s;
     Interface_get_facts := Interface_get_facts s;
     Interface_get := Interface_get s;
     LLDPNeighbor_get_facts := LLDPNeighbor_get_facts s;
     Vlan_get_all := Ok vlan_list;
     Vlan_get_facts := Vlan_get_facts s;
     Mac_get_all := macs;
     http_get := http_get s |}.

(** A 6300-like switch: the management module reports nothing, the
    chassis carries the product information, the fans and the PSUs. *)
Definition example_device : Device :=
  {| boot_time := 100;
     mgmt_intf_status := VDict [(KStr "hostname", VStr "sw1")];
     software_info := VDict [(KStr "build_id", VStr "FL.10.09")] |}.

Definition example_subsystems : val :=
  VDict
    [ (KStr "management_module,1/1",
       VDict [ (KStr "product_info",
                VDict [ (KStr "serial_number", VStr EmptyString);
                        (KStr "product_name", VStr EmptyString) ]);
               (KStr "fans", VDict []);
               (KStr "power_supplies", VDict []);
               (KStr "resource_utilization",
                VDict [ (KStr "cpu", VInt 5); (KStr "memory", VInt 30) ]) ]);
      (KStr "chassis,1",
       VDict [ (KStr "product_info",
                VDict [ (KStr "serial_number", VStr "SG01");
                        (KStr "product_name", VStr "6300M") ]);
               (KStr "fans",
                VDict [ (KStr "1/1/1", VDict [ (KStr "status", VStr "ok") ]) ]);
               (KStr "power_supplies",
                VDict [ (KStr "1/1", VDict [ (KStr "status", VStr "ok") ]) ]);
               (KStr "resource_utilization", VDict []) ]) ].

Definition example_session : Session :=
  with_device (unreachable "timeout") example_device example_subsystems
    (VDict [ (KStr "1/1/1", VNone) ]).

(** ** Specification vocabulary *)

(** A sized value with at least one element. *)
Definition is_nonempty (v : val) : bool :=
  match len v with Ok n => 0 <? n | Raise _ => false end.

(** A sized value with no element. *)
Definition is_empty (v : val) : bool :=
  match len v with Ok n => n =? 0 | Raise _ => false end.

Definition mm_key : string := "management_module,1/1".
Definition chassis_key : string := "chassis,1".

(** The priority rule of the subsystem lookups, for a sub-field [cand] of
    the candidates and the outcome [r] of the lookup: the management
    module wins when its sub-field is non-empty, the chassis is used when
    the management module's is empty and its own is not, and no value is
    returned when both are empty. *)
Definition first_nonempty_candidate (cand : string -> result val) (r : result val)
  : Prop :=
  (forall v, cand mm_key = Ok v -> is_nonempty v = true -> r = Ok v) /\
  (forall v0 v, cand mm_key = Ok v0 -> is_empty v0 = true ->
                cand chassis_key = Ok v -> is_nonempty v = true -> r = Ok v) /\
  (forall v0 v1, cand mm_key = Ok v0 -> is_empty v0 = true ->
                 cand chassis_key = Ok v1 -> is_empty v1 = true ->
                 is_ok r = false).

(** The same rule for [get_facts]: the tested sub-field is the serial
    number, the value taken is the whole product information, from which
    the facts are built. *)
Definition facts_from_first_serial (s : Session) (sw : Device) (subs il : val)
  : Prop :=
  let pinfo := subsystem_field subs "product_info" in
  let serial := subsystem_serial subs in
  (forall sn pi, serial mm_key = Ok sn -> is_nonempty sn = true ->
                 pinfo mm_key = Ok pi ->
                 get_facts s = get_facts_build s sw il pi) /\
  (forall sn0 sn pi, serial mm_key = Ok sn0 -> is_empty sn0 = true ->
                     serial chassis_key = Ok sn -> is_nonempty sn = true ->
                     pinfo chassis_key = Ok pi ->
                     get_facts s = get_facts_build s sw il pi) /\
  (forall sn0 sn1, serial mm_key = Ok sn0 -> is_empty sn0 = true ->
                   serial chassis_key = Ok sn1 -> is_empty sn1 = true ->
                   is_ok (get_facts s) = false).

(** The per-interface keys the docstring of [get_interfaces] lists. *)
Definition documented_interface_keys : list key :=
  [ KStr "is_up"; KStr "is_enabled"; KStr "description"; KStr "speed";
    KStr "mtu"; KStr "mac_address" ].

(** The keys of the records [get_interfaces] builds. *)
Definition interface_record_keys : list key :=
  [ KStr "is_up"; KStr "is_enabled"; KStr "description"; KStr "last_flapped";
    KStr "speed"; KStr "mtu"; KStr "mac_address" ].

(** The outcome of [if k not in src: out = 'N/A' else: out = src[k]]. *)
Definition or_not_available (src : val) (k : string) (out : val) : Prop :=
  (contains k src = Ok false /\ out = VStr "N/A") \/
  (contains k src = Ok true /\ getitem src k = Ok out).

(** The description published for a source record. *)
Definition description_of (d : dict val) : val :=
  match dict_get (KStr "description") d with
  | None | Some VNone => VStr EmptyString
  | Some x => x
  end.

Definition with_interface_facts (s : Session) (il : val) : Session :=
  {| base_url := base_url s;
     time_now := time_now s;
     Device_get := Device_get s;
     Device_get_subsystems := Device_get_subsystems s;
     Interface_get_all := Interface_get_all s;
     Interface_get_facts := Ok il;
     Interface_get := Interface_get s;
     LLDPNeighbor_get_facts := LLDPNeighbor_get_facts s;
     Vlan_get_all := Vlan_get_all s;
     Vlan_get_facts := Vlan_get_facts s;
     Mac_get_all := Mac_get_all s;
     http_get := http_get s |}.

(** A routed port with full hardware information and a loopback
    without any. *)
Definition example_interfaces : val :=
  VDict
    [ (KStr "1/1/1",
       VDict [ (KStr "description", VStr "uplink");
               (KStr "hw_intf_info",
                VDict [ (KStr "max_speed", VInt 1000);
                        (KStr "mac_addr", VStr "aa:bb:cc:dd:ee:ff") ]);
               (KStr "mtu", VInt 1500);
               (KStr "link_state", VStr "up");
               (KStr "admin_state", VStr "up");
               (KStr "statistics",
                VDict [ (KStr "tx_bytes", VInt 7); (KStr "rx_dropped", VInt 3) ]) ]);
      (KStr "loopback0",
       VDict [ (KStr "description", VNone);
               (KStr "hw_intf_info", VDict []);
               (KStr "link_state", VStr "UP");
               (KStr "admin_state", VStr "down");
               (KStr "statistics", VDict []) ]) ].

Definition example_interface_session : Session :=
  with_interface_facts (unreachable "timeout") example_interfaces.

(** The outcome of [out = 0] followed by [if k in src: out = src[k]]. *)
Definition or_zero (src : val) (k : string) (out : val) : Prop :=
  (contains k src = Ok false /\ out = VInt 0) \/
  (contains k src = Ok true /\ getitem src k = Ok out).

(** The twelve counters of the docstring of [get_interfaces_counters]. *)
Definition counter_names : list string :=
  [ "tx_errors"; "rx_errors"; "tx_discards"; "rx_discards";
    "tx_octets"; "rx_octets"; "tx_unicast_packets"; "rx_unicast_packets";
    "tx_multicast_packets"; "rx_multicast_packets";
    "tx_broadcast_packets"; "rx_broadcast_packets" ].

(** What the specification says of the record [e] published for the
    MAC entries [mac] of one VLAN: the three constant fields, and the
    compound key [type,address] of the entry split at its comma. *)
Definition mac_record_spec (mac : dict MacObj) (e : val) : Prop :=
  getitem e "active" = Ok (VBool true) /\
  getitem e "moves" = Ok VNone /\
  getitem e "last_move" = Ok VNone /\
  forall ty addr obj rest,
    mac = (KStr (ty ++ "," ++ addr), obj) :: rest ->
    Str.has_char "," ty = false -> Str.has_char "," addr = false ->
    getitem e "static" = Ok (VBool (String.eqb ty "static")) /\
    getitem e "mac" = Ok (VStr addr).

(** The per-VLAN result sets that have at least one entry. *)
Definition with_entries (mac_list : list (dict MacObj)) : list (dict MacObj) :=
  filter (fun m => match m with [] => false | _ :: _ => true end) mac_list.

Definition example_vlans : dict VlanObj :=
  [ (KInt 1, {| vlan_obj_id := VInt 1 |});
    (KInt 10, {| vlan_obj_id := VInt 10 |});
    (KInt 20, {| vlan_obj_id := VStr "20" |}) ].

Definition example_mac_obj (vlan : val) (port : string) : MacObj :=
  {| mac_obj_get := Ok tt;
     _parent_vlan := {| vlan_obj_id := vlan |};
     _original_attributes :=
       VDict [ (KStr "port", VDict [ (KStr port, VStr "/rest/v10.04/system/interfaces") ]) ] |}.

(** VLAN 1 has learnt nothing, VLAN 10 has one static entry, VLAN 20 two
    dynamic ones. *)
Definition example_macs (v : VlanObj) : result (dict MacObj) :=
  match vlan_obj_id v with
  | VInt 10 =>
      Ok [ (KStr "static,aa:bb:cc:dd:ee:ff", example_mac_obj (VInt 10) "1/1/1") ]
  | VStr _ =>
      Ok [ (KStr "dynamic,00:11:22:33:44:55", example_mac_obj (VStr "20") "1/1/2");
           (KStr "dynamic,00:11:22:33:44:66", example_mac_obj (VStr "20") "1/1/3") ]
  | _ => Ok []
  end.

Definition example_mac_session : Session :=
  with_macs (unreachable "timeout") example_vlans example_macs.

(** A key that names a physical interface: a string containing ['/']. *)
Definition physical_name (k : key) : bool :=
  match k with
  | KStr name => Str.has_char "/" name
  | _ => false
  end.

Definition is_str_key (k : key) : bool :=
  match k with KStr _ => true | _ => false end.

(** A field of the interface facts that is missing, null or empty. *)
Definition absent_or_empty (facts : dict val) (field : string) : bool :=
  match dict_get (KStr field) facts with
  | None => true
  | Some v => negb (truthy v)
  end.

(** The membership rule of [get_vlans] for one physical interface whose
    facts are [facts]: [applied_vlan_trunks] when present and
    non-empty, else [applied_vlan_tag] when present and non-empty, else
    nothing. *)
Definition membership_rule (interface : key) (facts : dict val)
  (scan : dict val -> result (dict val)) : Prop :=
  (forall trunks, dict_get (KStr "applied_vlan_trunks") facts = Some trunks ->
     is_nonempty trunks = true ->
     forall vlan_json, scan vlan_json
                       = add_members (key_val interface) trunks vlan_json) /\
  (forall tag, absent_or_empty facts "applied_vlan_trunks" = true ->
     dict_get (KStr "applied_vlan_tag") facts = Some tag ->
     is_nonempty tag = true ->
     forall vlan_json, scan vlan_json
                       = add_members (key_val interface) tag vlan_json) /\
  (absent_or_empty facts "applied_vlan_trunks" = true ->
   absent_or_empty facts "applied_vlan_tag" = true ->
   forall vlan_json, scan vlan_json = Ok vlan_json).

(** VLANs 10 "default" and 20 "data", as [Vlan.get_facts] returns them. *)
Definition example_vlan_facts : val :=
  VDict [ (KStr "10", VDict [ (KStr "name", VStr "default") ]);
          (KStr "20", VDict [ (KStr "name", VStr "data") ]) ].

(** Port 1/1/1 tagged in VLAN 10, and the SVI of VLAN 20. *)
Definition example_vlan_interfaces (uri : val) : val :=
  VDict [ (KStr "1/1/1", VDict [ (KStr "applied_vlan_tag",
                                  VDict [ (KStr "10", uri) ]) ]);
          (KStr "vlan20", VDict [ (KStr "applied_vlan_tag",
                                   VDict [ (KStr "20", uri) ]) ]) ].

Definition example_vlan_session : Session :=
  {| base_url := "https://switch/rest/v10.04/";
     time_now := 0;
     Device_get := Raise (TransportError "timeout");
     Device_get_subsystems := Raise (TransportError "timeout");
     Interface_get_all := Raise (TransportError "timeout");
     Interface_get_facts := Ok (example_vlan_interfaces VNone);
     Interface_get := fun _ => Raise (TransportError "timeout");
     LLDPNeighbor_get_facts := Raise (TransportError "timeout");
     Vlan_get_all := Raise (TransportError "timeout");
     Vlan_get_facts := Ok example_vlan_facts;
     Mac_get_all := fun _ => Raise (TransportError "timeout");
     http_get := fun _ => Raise (TransportError "timeout") |}.




(** The "sequence" shape of a keyed mapping: the records in order, each
    carrying its key in the field [field]. *)
Definition sequence_shape (field : string) (d : dict val) : val :=
  VList (map (fun kv => match snd kv with
                        | VDict rec =>
                            VDict (dict_set (KStr field) (key_val (fst kv)) rec)
                        | v => v
                        end) d).

(** The per-module shape of one aggregate resource-utilisation record. *)
Definition module_shape (name : string) (resources : dict val) : val :=
  VList [ VDict [ (KStr "name", VStr name);
                  (KStr "resource_utilization", VDict resources) ] ].

(** A keyed record that has the fields the sequence branch subscripts. *)
Definition has_status (kv : key * val) : bool :=
  is_str_key (fst kv) &&
  match snd kv with
  | VDict rec => dict_has (KStr "status") rec
  | _ => false
  end.

Definition has_power_fields (kv : key * val) : bool :=
  has_status kv &&
  match snd kv with
  | VDict rec =>
      match dict_get (KStr "characteristics") rec with
      | Some (VDict ch) => dict_has (KStr "maximum_power") ch
      | _ => false
      end
  | _ => false
  end.

Definition example_fans : dict val :=
  [ (KStr "1/1/1", VDict [ (KStr "status", VStr "ok") ]);
    (KStr "1/1/2", VDict [ (KStr "status", VStr "fault") ]) ].

Definition example_temperatures : dict val :=
  [ (KStr "1/1-PHY-01-08", VDict [ (KStr "temperature", VInt 25000);
                                   (KStr "status", VStr "normal") ]) ].

Definition example_power : dict val :=
  [ (KStr "1/1", VDict [ (KStr "status", VStr "ok");
                         (KStr "characteristics",
                          VDict [ (KStr "maximum_power", VInt 250) ]) ]) ].

(** What [_get_resource_utilization] returns on a real switch. *)
Definition example_resources : dict val :=
  [ (KStr "cpu", VInt 5); (KStr "memory", VInt 30) ].

(** What every call on a driver keeps, [d0] being the driver as constructed. *)
Definition driver_invariant (d0 d : Lifecycle.driver) : Prop :=
  Lifecycle.base_url d = Lifecycle.base_url d0 /\
  Lifecycle.hostname d = Lifecycle.hostname d0 /\
  Lifecycle.version d = Lifecycle.version d0 /\
  (forall sess, Lifecycle.session d = Some sess ->
     sess = {| Lifecycle.sess_hostname := Lifecycle.hostname d0;
               Lifecycle.sess_version := Lifecycle.version d0 |}) /\
  (Lifecycle.isAlive d = true ->
     Lifecycle.session d <> None /\
     Lifecycle.session_info d
     = Some ({| Lifecycle.sess_hostname := Lifecycle.hostname d0;
                Lifecycle.sess_version := Lifecycle.version d0 |},
             Lifecycle.base_url d0)).

(** An SDK that answers, and one whose switch refuses the connection. *)
Definition sdk_ok : Lifecycle.Sdk :=
  {| Lifecycle.session_open := fun _ _ _ => None;
     Lifecycle.session_logout := fun _ _ => None |}.

Definition sdk_refused : Lifecycle.Sdk :=
  {| Lifecycle.session_open :=
       fun _ _ _ => Some (Lifecycle.ConnectionError "connection refused");
     Lifecycle.session_logout :=
       fun _ _ => Some (Lifecycle.ConnectionError "connection refused") |}.

Definition example_optional_args : val :=
  VDict [ (KStr "version", VStr "10.09"); (KStr "verify_ssl", VBool false) ].

(** The outcome of [if k not in src: out = default else: out = src[k]]. *)
Definition or_default (src : val) (k : string) (default out : val) : Prop :=
  (contains k src = Ok false /\ out = default) \/
  (contains k src = Ok true /\ getitem src k = Ok out).

(** The keys of the record [get_facts] returns. *)
Definition fact_keys : list key :=
  [ KStr "uptime"; KStr "vendor"; KStr "os_version"; KStr "serial_number";
    KStr "model"; KStr "hostname"; KStr "fqdn"; KStr "interface_list" ].

(** The fully qualified name built from a host name and a domain name. *)
Definition fqdn_rule (hostname domain_name fqdn : val) : Prop :=
  ((is_none domain_name = true \/ is_empty domain_name = true) /\
   fqdn = hostname) \/
  (is_nonempty domain_name = true /\
   exists h dn, hostname = VStr h /\ domain_name = VStr dn /\
                fqdn = VStr ((h ++ ".") ++ dn)).

(** A switch with a domain name and no host name. *)
Definition example_domain_session : Session :=
  with_device (unreachable "timeout")
    {| boot_time := 100;
       mgmt_intf_status := VDict [ (KStr "domain_name", VStr "lab.example") ];
       software_info := VDict [ (KStr "build_id", VStr "FL.10.09") ] |}
    example_subsystems (VDict []).

(** The sensors one subsystem contributes to [_get_temperature]. *)
Definition sensors_of (subsystem : val) : list val :=
  match subsystem with
  | VDict d =>
      match dict_get (KStr "temp_sensors") d with
      | Some (VList l) => l
      | _ => []
      end
  | _ => []
  end.

Definition with_http (s : Session) (http : string -> result Response) : Session :=
  {| base_url := base_url s;
     time_now := time_now s;
     Device_get := Device_get s;
     Device_get_subsystems := Device_get_subsystems s;
     Interface_get_all := Interface_get_all s;
     Interface_get_facts := Interface_get_facts s;
     Interface_get := Interface_get s;
     LLDPNeighbor_get_facts := LLDPNeighbor_get_facts s;
     Vlan_get_all := Vlan_get_all s;
     Vlan_get_facts := Vlan_get_facts s;
     Mac_get_all := Mac_get_all s;
     http_get := http |}.

(** Two subsystems with one sensor each, one without sensors. *)
Definition example_temperature_response : Response :=
  {| resp_ok := true;
     status_code := "200";
     text := EmptyString;
     json := Ok (VDict
       [ (KStr "subsystems",
          VList [ VDict [ (KStr "temp_sensors",
                           VList [ VDict [ (KStr "location", VStr "1/1-PHY");
                                           (KStr "temperature", VInt 25000);
                                           (KStr "status", VStr "normal") ] ]) ];
                  VDict [ (KStr "temp_sensors", VNone) ];
                  VDict [ (KStr "temp_sensors",
                           VList [ VDict [ (KStr "location", VStr "1/1-CPU");
                                           (KStr "temperature", VInt 61500);
                                           (KStr "status", VStr "critical") ] ]) ] ]) ]) |}.

Definition example_temperature_session : Session :=
  with_http example_session (fun _ => Ok example_temperature_response).

(** A switch that answers 503 with a body that is not JSON. *)
Definition example_failing_http_session : Session :=
  with_http example_session
    (fun _ => Ok {| resp_ok := false; status_code := "503";
                    text := "Service Unavailable";
                    json := Raise ValueError |}).

(** An address map as [get_interfaces_ip] publishes it: bare addresses
    mapped to [{'prefix_length': n}]. *)
Definition address_map (addrs : dict val) : Prop :=
  forall a pl, In (a, pl) addrs ->
    exists astr n, a = KStr astr /\
                   pl = VDict [ (KStr "prefix_length", VInt n) ].

(** The entry of one interface: [ipv4] and/or [ipv6], each a non-empty
    address map. *)
Definition ip_entry (v : val) : Prop :=
  exists l, v = VDict l /\ l <> [] /\
    forall k x, In (k, x) l ->
      (k = KStr "ipv4" \/ k = KStr "ipv6") /\
      exists addrs, x = VDict addrs /\ addrs <> [] /\ address_map addrs.

(** A routed port with both families, a port without addresses and a
    loopback with a link-local address only. *)
Definition example_ip_interfaces : val :=
  VDict [ (KStr "1/1/1", VDict [ (KStr "ip4_address", VStr "10.0.0.1/24") ]);
          (KStr "1/1/2", VDict [ (KStr "ip4_address", VNone) ]);
          (KStr "loopback0",
           VDict [ (KStr "ip6_address_link_local",
                    VDict [ (KStr "fe80::1/64", VStr "uri") ]) ]) ].

Definition example_ip_session : Session :=
  {| base_url := "https://switch/rest/v10.04/";
     time_now := 0;
     Device_get := Raise (TransportError "timeout");
     Device_get_subsystems := Raise (TransportError "timeout");
     Interface_get_all := Raise (TransportError "timeout");
     Interface_get_facts := Ok example_ip_interfaces;
     Interface_get :=
       fun name =>
         Ok {| ip6_addresses :=
                 if key_eqb name (KStr "1/1/1") then Some ["2001:db8::1/64"]
                 else None |};
     LLDPNeighbor_get_facts := Raise (TransportError "timeout");
     Vlan_get_all := Raise (TransportError "timeout");
     Vlan_get_facts := Raise (TransportError "timeout");
     Mac_get_all := fun _ => Raise (TransportError "timeout");
     http_get := fun _ => Raise (TransportError "timeout") |}.

(** An entry of [get_lldp_neighbors], and a list of such entries. *)
Definition brief_entry (e : val) : Prop :=
  exists h p, e = VDict [ (KStr "hostname", h); (KStr "port", p) ].

Definition brief_list (v : val) : Prop :=
  exists entries, v = VList entries /\ Forall brief_entry entries.

(** Port 1/1/1 has heard one neighbour, port 1/1/2 none. *)
Definition example_lldp_brief : val :=
  VDict [ (KStr "1%2F1%2F1",
           VDict [ (KStr "00:11:22:33:44:55,1/1/24",
                    VDict [ (KStr "port_id", VStr "1/1/24");
                            (KStr "neighbor_info",
                             VDict [ (KStr "chassis_name", VStr "core1") ]) ]) ]);
          (KStr "1%2F1%2F2", VDict []) ].

(** [''.join(x.lower() for x in l)] on strings. *)
Fixpoint lower_concat (lower : string -> string) (l : list string) : string :=
  match l with
  | [] => EmptyString
  | c :: l' => (lower c ++ lower_concat lower l')%string
  end.

(** A field of a neighbour record, or the empty string. *)
Definition field_or_empty (d : dict val) (k : string) : val :=
  match dict_get (KStr k) d with
  | Some v => v
  | None => VStr EmptyString
  end.

(** The [neighbor_info] of a neighbour: a dictionary, empty when the key
    is missing. *)
Definition neighbor_info_of (nbr : dict val) : option (dict val) :=
  match dict_get (KStr "neighbor_info") nbr with
  | None => Some []
  | Some (VDict ni) => Some ni
  | Some _ => None
  end.

(** A capability field: a list of strings, empty when the key is
    missing. *)
Definition capabilities_of (ni : dict val) (k : string) : option (list string) :=
  match dict_get (KStr k) ni with
  | None => Some []
  | Some (VList l) =>
      if forallb (fun x => match x with VStr _ => true | _ => false end) l
      then Some (map (fun x => match x with VStr c => c | _ => EmptyString end) l)
      else None
  | Some _ => None
  end.

(** The values of [retrieve] that [get_config] accepts. *)
Definition retrieve_options : list string :=
  ["running"; "startup"; "candidate"; "all"].

(** A switch that serves its running configuration and refuses the
    startup one. *)
Definition example_config_session : Session :=
  with_http (unreachable "timeout")
    (fun url =>
       if String.eqb url "https://switch/rest/v10.04/configs/running-config"
       then Ok {| resp_ok := true; status_code := "200";
                  text := "hostname sw1"; json := Raise ValueError |}
       else Ok {| resp_ok := false; status_code := "403";
                  text := "Forbidden"; json := Raise ValueError |}).

(** A record of the VLAN table: a name and a list of members. *)
Definition vlan_record (v : val) : Prop :=
  exists name ifs,
    v = VDict [ (KStr "name", name); (KStr "interfaces", VList ifs) ].

(** The members listed for a VLAN id in a VLAN table. *)
Definition members_of (table : dict val) (id : Z) : list val :=
  match dict_get (KInt id) table with
  | Some (VDict rec) =>
      match dict_get (KStr "interfaces") rec with
      | Some (VList l) => l
      | _ => []
      end
  | _ => []
  end.

(** The VLAN ids an interface with these facts is scanned into: the
    keys of the membership field chosen by the [if]/[elif], as integers;
    none when neither field is usable. *)
Definition vlan_source (interface_facts : val) : result (list Z) :=
  key <- membership_key interface_facts ;;
  if negb (String.eqb key EmptyString)
  then src <- getitem interface_facts key ;;
       ks <- iter src ;;
       mapM py_int ks
  else Ok [].

(** A trunk port carrying VLANs 10 and 20, an access port in VLAN 20 and
    a port whose VLAN 30 is not in the VLAN list. *)
Definition example_trunk_interfaces : dict val :=
  [ (KStr "1/1/1", VDict [ (KStr "applied_vlan_trunks",
                            VDict [ (KStr "10", VNone); (KStr "20", VNone) ]);
                           (KStr "applied_vlan_tag",
                            VDict [ (KStr "1", VNone) ]) ]);
    (KStr "1/1/2", VDict [ (KStr "applied_vlan_tag",
                            VDict [ (KStr "20", VNone) ]) ]) ].

Definition example_trunk_session : Session :=
  {| base_url := "https://switch/rest/v10.04/";
     time_now := 0;
     Device_get := Raise (TransportError "timeout");
     Device_get_subsystems := Raise (TransportError "timeout");
     Interface_get_all := Raise (TransportError "timeout");
     Interface_get_facts := Ok (VDict example_trunk_interfaces);
     Interface_get := fun _ => Raise (TransportError "timeout");
     LLDPNeighbor_get_facts := Raise (TransportError "timeout");
     Vlan_get_all := Raise (TransportError "timeout");
     Vlan_get_facts := Ok example_vlan_facts;
     Mac_get_all := fun _ => Raise (TransportError "timeout");
     http_get := fun _ => Raise (TransportError "timeout") |}.

Definition example_unknown_vlan_session : Session :=
  {| base_url := "https://switch/rest/v10.04/";
     time_now := 0;
     Device_get := Raise (TransportError "timeout");
     Device_get_subsystems := Raise (TransportError "timeout");
     Interface_get_all := Raise (TransportError "timeout");
     Interface_get_facts :=
       Ok (VDict [ (KStr "1/1/3",
                    VDict [ (KStr "applied_vlan_tag",
                             VDict [ (KStr "30", VNone) ]) ]) ]);
     Interface_get := fun _ => Raise (TransportError "timeout");
     LLDPNeighbor_get_facts := Raise (TransportError "timeout");
     Vlan_get_all := Raise (TransportError "timeout");
     Vlan_get_facts := Ok example_vlan_facts;
     Mac_get_all := fun _ => Raise (TransportError "timeout");
     http_get := fun _ => Raise (TransportError "timeout") |}.

(** What the scan keeps of the skeleton [sk]: the keys, the names, and
    the shape of the records. *)
Definition table_kept (sk table : dict val) : Prop :=
  dict_keys table = dict_keys sk /\
  (forall k, option_map (fun v => getitem v "name") (dict_get k table)
             = option_map (fun v => getitem v "name") (dict_get k sk)) /\
  (forall k v, In (k, v) table -> (exists n, k = KInt n) /\ vlan_record v).

(** Where a record of the MAC table comes from: the first item of the
    result set, after its [get()] succeeded; [vlan] is the integer of the
    parent VLAN's id and [interface] the first key of the [port]
    attribute. *)
Definition mac_location_spec (mac : dict MacObj) (e : val) : Prop :=
  exists k obj rest n pd p ps,
    mac = (k, obj) :: rest /\
    mac_obj_get obj = Ok tt /\
    py_int (vlan_obj_id (_parent_vlan obj)) = Ok n /\
    getitem (_original_attributes obj) "port" = Ok (VDict pd) /\
    dict_keys pd = p :: ps /\
    getitem e "vlan" = Ok (VInt n) /\
    getitem e "interface" = Ok (key_val p) /\
    keys e = Ok [ KStr "mac"; KStr "interface"; KStr "vlan"; KStr "static";
                  KStr "active"; KStr "moves"; KStr "last_move" ].

(** VLAN 10 has learnt an entry whose key has no comma. *)
Definition example_bad_macs (v : VlanObj) : result (dict MacObj) :=
  match vlan_obj_id v with
  | VInt 10 => Ok [ (KStr "aa:bb:cc:dd:ee:ff", example_mac_obj (VInt 10) "1/1/1") ]
  | _ => Ok []
  end.

Definition example_bad_mac_session : Session :=
  with_macs (unreachable "timeout") example_vlans example_bad_macs.

(** The record of one power supply: a boolean status, a capacity that
    went through [float()], and the constant output. *)
Definition power_record (float_of_str : string -> result val) (v : val) : Prop :=
  exists status mp capacity,
    py_float float_of_str mp = Ok capacity /\
    v = VDict [ (KStr "status", VBool status);
                (KStr "capacity", capacity);
                (KStr "output", VStr "N/A") ].

Definition example_modules : val :=
  VList [ VDict [ (KStr "name", VStr "1/1");
                  (KStr "resource_utilization",
                   VDict [ (KStr "cpu", VInt 7); (KStr "memory", VInt 21) ]) ];
          VDict [ (KStr "name", VStr "1/2");
                  (KStr "resource_utilization",
                   VDict [ (KStr "cpu", VInt 9); (KStr "memory", VInt 34) ]) ] ].

(** A routed VLAN interface reported without hardware information. *)
Definition example_svi_interfaces : dict val :=
  [ (KStr "vlan20",
     VDict [ (KStr "description", VStr "users");
             (KStr "link_state", VStr "up");
             (KStr "admin_state", VStr "up") ]) ].

Definition example_svi_session : Session :=
  with_interface_facts (unreachable "timeout") (VDict example_svi_interfaces).

(** The three fields [get_interfaces] reads of every interface without
    testing for them. *)
Definition has_required_fields (d : dict val) : bool :=
  dict_has (KStr "hw_intf_info") d && dict_has (KStr "link_state") d
  && dict_has (KStr "admin_state") d.

(** Vocabulary for slugs. *)
Fixpoint string_forall (p : ascii -> bool) (s : string) : bool :=
  match s with
  | EmptyString => true
  | String c s' => p c && string_forall p s'
  end.

Definition first_char (s : string) : option ascii :=
  match s with
  | EmptyString => None
  | String c _ => Some c
  end.

Fixpoint last_char (s : string) : option ascii :=
  match s with
  | EmptyString => None
  | String c s' => match last_char s' with
                   | None => Some c
                   | Some l => Some l
                   end
  end.

Definition is_dash (c : ascii) : bool := Ascii.eqb c "-".

(** A character of the slug of an ASCII string: a digit, a lower-case
    letter, an underscore or a dash. *)
Definition slug_char (c : ascii) : bool :=
  Str.is_digit c || Str.is_lower c || Ascii.eqb c "_" || is_dash c.

(** The sensor read for the location [k] in the temperature details
    [td]: an item of the mapping, or an element of the sequence whose
    [location] is [k]. *)
Definition sensor_at (td : val) (k : key) (sensor : val) : Prop :=
  match td with
  | VDict d => exists k', In (k', sensor) d /\ key_eqb k' k = true
  | _ =>
      exists sensors,
        iter td = Ok sensors /\ In sensor sensors /\
        exists loc k', getitem sensor "location" = Ok loc /\
                       to_key loc = Ok k' /\ key_eqb k' k = true
  end.

(** A temperature divided by 1000: the float nearest to the exact
    quotient. *)
Definition thousandth (t : val) : option Q :=
  match t with
  | VInt z => nearest_double (inject_Z z / 1000)
  | VBool b => nearest_double (inject_Z (if b then 1 else 0) / 1000)
  | VFloat q => nearest_double (q / 1000)
  | _ => None
  end.

(** The record published for one sensor. *)
Definition sensor_record (sensor v : val) : Prop :=
  exists t st temp,
    getitem sensor "temperature" = Ok t /\
    getitem sensor "status" = Ok st /\
    thousandth t = Some temp /\
    v = VDict [ (KStr "temperature", VFloat temp);
                (KStr "is_alert", VBool (eq_str st "critical"));
                (KStr "is_critical", VBool (eq_str st "emergency")) ].

(** Two sensors, the second one in alert. *)
Definition example_sensors : val :=
  VList [ VDict [ (KStr "location", VStr "1/1-PHY");
                  (KStr "temperature", VInt 47001);
                  (KStr "status", VStr "normal") ];
          VDict [ (KStr "location", VStr "1/2-PHY");
                  (KStr "temperature", VInt 25000);
                  (KStr "status", VStr "critical") ] ].

(** A switch that answers every request with an internal error. *)
Definition example_refusing_session : Session :=
  with_http (unreachable "timeout")
    (fun _ => Ok {| resp_ok := false; status_code := "500";
                    text := "Internal error"; json := Raise ValueError |}).

(** The value of [field] in [facts] when it is present and non-empty. *)
Definition present_nonempty (facts : dict val) (field : string) : option val :=
  match dict_get (KStr field) facts with
  | Some v => if is_nonempty v then Some v else None
  | None => None
  end.

(** The membership source of an interface with facts [facts]: the trunk
    list when present and non-empty, else the tag field when present and
    non-empty, else none. *)
Definition membership_source (facts : dict val) : option val :=
  match present_nonempty facts "applied_vlan_trunks" with
  | Some trunks => Some trunks
  | None => present_nonempty facts "applied_vlan_tag"
  end.

(** The VLAN ids of a membership source: its keys, as integers. *)
Definition vlan_ids_of (src : val) : result (list Z) :=
  ks <- iter src ;;
  mapM py_int ks.




(** * Theorems *)

(** ** The error monad *)

Lemma bind_ok {A B : Type} (m : result A) (k : A -> result B) (b : B) :
  bind m k = Ok b -> exists a, m = Ok a /\ k a = Ok b.
Proof.
  destruct m as [a | e]; simpl; intros H; [eauto | discriminate].
Qed.

Lemma bind_raise_l {A B : Type} (m : result A) (k : A -> result B) (e : exn) :
  m = Raise e -> bind m k = Raise e.
Proof. intros ->. reflexivity. Qed.

(** Inversion of a successful run: splits [H : bind m k = Ok b]. *)
Ltac bind_inv H :=
  let a := fresh "a" in
  let Ha := fresh "E" in
  apply bind_ok in H; destruct H as [a [Ha H]].

Lemma foldM_app {A S : Type} (body : S -> A -> result S) (xs ys : list A) (acc : S) :
  foldM body (xs ++ ys) acc = (acc' <- foldM body xs acc ;; foldM body ys acc').
Proof.
  revert acc; induction xs as [| x xs IH]; intros acc; simpl.
  - reflexivity.
  - destruct (body acc x); simpl; auto.
Qed.

(** An invariant of a loop holds of its result. *)
Lemma foldM_invariant {A S : Type} (P : S -> Prop) (body : S -> A -> result S)
  (xs : list A) :
  (forall acc x acc', In x xs -> P acc -> body acc x = Ok acc' -> P acc') ->
  forall acc r, P acc -> foldM body xs acc = Ok r -> P r.
Proof.
  induction xs as [| x xs IH]; simpl; intros Hstep acc r Hacc Hr.
  - now inversion Hr; subst.
  - bind_inv Hr.
    apply (IH (fun a y a' Hy => Hstep a y a' (or_intror Hy)) a r); auto.
    apply (Hstep acc x a); auto.
Qed.

Lemma mapM_length {A B : Type} (f : A -> result B) (xs : list A) (ys : list B) :
  mapM f xs = Ok ys -> List.length ys = List.length xs.
Proof.
  revert ys; induction xs as [| x xs IH]; simpl; intros ys H.
  - now inversion H.
  - bind_inv H. bind_inv H. inversion H; subst. simpl. f_equal. now apply IH.
Qed.

Lemma mapM_Forall2 {A B : Type} (f : A -> result B) (xs : list A) (ys : list B) :
  mapM f xs = Ok ys -> Forall2 (fun x y => f x = Ok y) xs ys.
Proof.
  revert ys; induction xs as [| x xs IH]; simpl; intros ys H.
  - inversion H. constructor.
  - bind_inv H. bind_inv H. inversion H; subst. constructor; auto.
Qed.

Lemma mapM_ext {A B : Type} (f g : A -> result B) (xs : list A) :
  (forall x, In x xs -> f x = g x) -> mapM f xs = mapM g xs.
Proof.
  induction xs as [| x xs IH]; simpl; intros H; [reflexivity |].
  rewrite (H x (or_introl eq_refl)), IH; auto.
Qed.

(** ** Keys and dictionaries *)

Lemma key_eqb_refl (k : key) : key_eqb k k = true.
Proof.
  destruct k; simpl; auto using String.eqb_refl, Z.eqb_refl.
  apply Qeq_bool_iff. reflexivity.
Qed.

Lemma key_eqb_sym (a b : key) : key_eqb a b = key_eqb b a.
Proof.
  destruct a, b; simpl; auto using String.eqb_sym, Z.eqb_sym.
  destruct (Qeq_bool q q0) eqn:E1, (Qeq_bool q0 q) eqn:E2; auto.
  - apply Qeq_bool_iff in E1. symmetry in E1. apply Qeq_bool_iff in E1. congruence.
  - apply Qeq_bool_iff in E2. symmetry in E2. apply Qeq_bool_iff in E2. congruence.
Qed.

Lemma key_eqb_trans (a b c : key) :
  key_eqb a b = true -> key_eqb b c = true -> key_eqb a c = true.
Proof.
  destruct a, b, c; simpl; try discriminate; auto.
  - intros H1 H2. apply String.eqb_eq in H1, H2. subst. apply String.eqb_refl.
  - intros H1 H2. apply Z.eqb_eq in H1, H2. subst. apply Z.eqb_refl.
  - intros H1 H2. apply Qeq_bool_iff in H1, H2. apply Qeq_bool_iff.
    now rewrite H1.
Qed.

(** Equal keys look up alike. *)
Lemma key_eqb_congr (a b c : key) :
  key_eqb a b = true -> key_eqb a c = key_eqb b c.
Proof.
  intros Hab. destruct (key_eqb b c) eqn:Hbc.
  - eapply key_eqb_trans; eauto.
  - destruct (key_eqb a c) eqn:Hac; auto.
    rewrite key_eqb_sym in Hab.
    rewrite <- Hbc. symmetry. eapply key_eqb_trans; eauto.
Qed.

Lemma key_eqb_str (s : string) (k : key) :
  key_eqb (KStr s) k = true -> k = KStr s.
Proof.
  destruct k; simpl; try discriminate.
  intros H. apply String.eqb_eq in H. now subst.
Qed.

Lemma key_eqb_int (z : Z) (k : key) :
  key_eqb (KInt z) k = true -> k = KInt z.
Proof.
  destruct k; simpl; try discriminate.
  intros H. apply Z.eqb_eq in H. now subst.
Qed.

Section DictFacts.
Variable V : Type.
Implicit Types (d : dict V) (k : key) (v : V).

Lemma dict_get_congr k k' d :
  key_eqb k k' = true -> dict_get k d = dict_get k' d.
Proof.
  intros H. induction d as [| [k0 v0] d IH]; simpl; auto.
  rewrite (key_eqb_congr _ _ k0 H), IH. reflexivity.
Qed.

Lemma dict_get_set_same k v d : dict_get k (dict_set k v d) = Some v.
Proof.
  induction d as [| [k0 v0] d IH]; simpl.
  - now rewrite key_eqb_refl.
  - destruct (key_eqb k k0) eqn:E; simpl; rewrite E; auto.
Qed.

Lemma dict_get_set_other k k' v d :
  key_eqb k k' = false -> dict_get k (dict_set k' v d) = dict_get k d.
Proof.
  intros H. induction d as [| [k0 v0] d IH]; simpl.
  - now rewrite H.
  - destruct (key_eqb k' k0) eqn:E; simpl.
    + destruct (key_eqb k k0) eqn:E0; auto.
      rewrite key_eqb_sym in E.
      rewrite (key_eqb_trans _ _ _ E0 E) in H. discriminate.
    + destruct (key_eqb k k0); auto.
Qed.

(** [d[k] = v] either overwrites the value of an equal key or adds the
    item; every other item is kept. *)
Lemma dict_set_In k v d k1 v1 :
  In (k1, v1) (dict_set k v d) ->
  (key_eqb k k1 = true /\ v1 = v) \/ In (k1, v1) d.
Proof.
  induction d as [| [k0 v0] d IH]; simpl.
  - intros [H | []]. inversion H; subst. left. split; auto using key_eqb_refl.
  - destruct (key_eqb k k0) eqn:E; simpl.
    + intros [H | H]; [inversion H; subst; left; auto | right; auto].
    + intros [H | H]; [right; auto |].
      destruct (IH H) as [? | ?]; auto.
Qed.

Lemma dict_set_length_ge d k v :
  (List.length d <= List.length (dict_set k v d))%nat.
Proof.
  induction d as [| [k0 v0] d IH]; simpl; [lia |].
  destruct (key_eqb k k0); simpl; lia.
Qed.
End DictFacts.

(** ** Subsystem candidates (get_facts, fans, power supplies, resources) *)

Lemma is_nonempty_len (v : val) :
  is_nonempty v = true -> exists n, len v = Ok n /\ (0 <? n) = true.
Proof.
  unfold is_nonempty. destruct (len v) as [n | e]; [eauto | discriminate].
Qed.

Lemma is_empty_len (v : val) :
  is_empty v = true -> exists n, len v = Ok n /\ (0 <? n) = false.
Proof.
  unfold is_empty. destruct (len v) as [n | e]; [| discriminate].
  intros H. apply Z.eqb_eq in H. subst. eauto.
Qed.

(** The candidate loop on the two keys of the driver. *)
Lemma first_candidate_cases (tested taken : string -> result val) :
  (forall t, tested mm_key = Ok t -> is_nonempty t = true ->
     first_candidate tested taken subsystem_keys
     = (v <- taken mm_key ;; Ok (Some v))) /\
  (forall t0 t, tested mm_key = Ok t0 -> is_empty t0 = true ->
     tested chassis_key = Ok t -> is_nonempty t = true ->
     first_candidate tested taken subsystem_keys
     = (v <- taken chassis_key ;; Ok (Some v))) /\
  (forall t0 t1, tested mm_key = Ok t0 -> is_empty t0 = true ->
     tested chassis_key = Ok t1 -> is_empty t1 = true ->
     first_candidate tested taken subsystem_keys = Ok None).
Proof.
  unfold subsystem_keys, mm_key, chassis_key. repeat split.
  - intros t Ht Hn. destruct (is_nonempty_len _ Hn) as [n [Hl Hp]].
    simpl. rewrite Ht. simpl. rewrite Hl. simpl. now rewrite Hp.
  - intros t0 t Ht0 He Ht Hn.
    destruct (is_empty_len _ He) as [n0 [Hl0 Hp0]].
    destruct (is_nonempty_len _ Hn) as [n [Hl Hp]].
    simpl. rewrite Ht0. simpl. rewrite Hl0. simpl. rewrite Hp0.
    rewrite Ht. simpl. rewrite Hl. simpl. now rewrite Hp.
  - intros t0 t1 Ht0 He0 Ht1 He1.
    destruct (is_empty_len _ He0) as [n0 [Hl0 Hp0]].
    destruct (is_empty_len _ He1) as [n1 [Hl1 Hp1]].
    simpl. rewrite Ht0. simpl. rewrite Hl0. simpl. rewrite Hp0.
    rewrite Ht1. simpl. rewrite Hl1. simpl. now rewrite Hp1.
Qed.

Lemma subsystem_lookup_priority (s : Session) (sw : Device) (subs : val)
  (field : string) :
  Device_get s = Ok sw -> Device_get_subsystems s = Ok subs ->
  first_nonempty_candidate (subsystem_field subs field) (subsystem_lookup s field).
Proof.
  intros Hd Hs.
  destruct (first_candidate_cases (subsystem_field subs field)
              (subsystem_field subs field)) as [H1 [H2 H3]].
  unfold first_nonempty_candidate, subsystem_lookup.
  rewrite Hd, Hs. cbn [bind]. repeat split.
  - intros v Hv Hn. rewrite (H1 v Hv Hn), Hv. reflexivity.
  - intros v0 v Hv0 He Hv Hn. rewrite (H2 v0 v Hv0 He Hv Hn), Hv. reflexivity.
  - intros v0 v1 Hv0 He0 Hv1 He1. rewrite (H3 v0 v1 Hv0 He0 Hv1 He1). reflexivity.
Qed.

(** Without product information no facts are built. *)
Lemma get_facts_build_empty (s : Session) (sw : Device) (il : val) :
  is_ok (get_facts_build s sw il (VDict [])) = false.
Proof.
  unfold get_facts_build.
  repeat match goal with
         | |- is_ok (bind ?m _) = false => destruct m; simpl; auto
         end.
Qed.

Lemma get_facts_priority (s : Session) (sw : Device) (subs il : val) :
  Device_get s = Ok sw -> Device_get_subsystems s = Ok subs ->
  Interface_get_all s = Ok il ->
  facts_from_first_serial s sw subs il.
Proof.
  intros Hd Hs Hi.
  destruct (first_candidate_cases (subsystem_serial subs)
              (subsystem_field subs "product_info")) as [H1 [H2 H3]].
  unfold facts_from_first_serial, get_facts.
  rewrite Hd, Hs, Hi. cbn [bind]. repeat split.
  - intros sn pi Hsn Hn Hpi. rewrite (H1 sn Hsn Hn), Hpi. reflexivity.
  - intros sn0 sn pi Hsn0 He Hsn Hn Hpi.
    rewrite (H2 sn0 sn Hsn0 He Hsn Hn), Hpi. reflexivity.
  - intros sn0 sn1 Hsn0 He0 Hsn1 He1.
    rewrite (H3 sn0 sn1 Hsn0 He0 Hsn1 He1). cbn [bind].
    apply get_facts_build_empty.
Qed.

(** C1. Every subsystem-scoped lookup (the product information of
    [get_facts], the fans, the power supplies, the resource utilisation)
    tries the management-module slot first and the chassis second, takes
    its result from the first of the two whose sub-field (serial number,
    fans, PSUs, resource-utilisation map) is non-empty, and returns no
    value (it raises) when neither is. *)
Theorem subsystem_lookups_first_nonempty (s : Session) (sw : Device)
  (subs il : val) :
  Device_get s = Ok sw -> Device_get_subsystems s = Ok subs ->
  Interface_get_all s = Ok il ->
  subsystem_keys = [mm_key; chassis_key] /\
  facts_from_first_serial s sw subs il /\
  first_nonempty_candidate (subsystem_field subs "fans") (_get_fan_info s) /\
  first_nonempty_candidate (subsystem_field subs "power_supplies")
    (_get_power_supplies s) /\
  first_nonempty_candidate (subsystem_field subs "resource_utilization")
    (_get_resource_utilization s).
Proof.
  intros Hd Hs Hi. split; [reflexivity |].
  split; [now apply get_facts_priority |].
  unfold _get_fan_info, _get_power_supplies, _get_resource_utilization.
  repeat split; eapply subsystem_lookup_priority; eauto.
Qed.

Lemma subsystem_lookups_first_nonempty_witness :
  get_facts example_session
  = Ok (VDict [ (KStr "uptime", VInt (-100)); (KStr "vendor", VStr "Aruba");
                (KStr "os_version", VStr "FL.10.09");
                (KStr "serial_number", VStr "SG01");
                (KStr "model", VStr "6300M");
                (KStr "hostname", VStr "sw1"); (KStr "fqdn", VStr "sw1");
                (KStr "interface_list", VList [VStr "1/1/1"]) ]) /\
  _get_fan_info example_session
  = Ok (VDict [ (KStr "1/1/1", VDict [ (KStr "status", VStr "ok") ]) ]) /\
  _get_resource_utilization example_session
  = Ok (VDict [ (KStr "cpu", VInt 5); (KStr "memory", VInt 30) ]) /\
  is_ok (_get_power_supplies
           (with_device example_session example_device
              (VDict [ (KStr "management_module,1/1",
                        VDict [ (KStr "power_supplies", VList []) ]);
                       (KStr "chassis,1",
                        VDict [ (KStr "power_supplies", VDict []) ]) ])
              VNone)) = false.
Proof.
  destruct (subsystem_lookups_first_nonempty example_session _ _ _
              eq_refl eq_refl eq_refl) as [_ [[_ [Hf _]] [[_ [Hfan _]] [_ [Hres _]]]]].
  split; [| split; [| split]].
  - rewrite (Hf (VStr EmptyString) (VStr "SG01")
               (VDict [ (KStr "serial_number", VStr "SG01");
                        (KStr "product_name", VStr "6300M") ])
               eq_refl eq_refl eq_refl eq_refl eq_refl).
    reflexivity.
  - apply (Hfan (VDict [])); reflexivity.
  - apply Hres; reflexivity.
  - destruct (subsystem_lookups_first_nonempty
                (with_device example_session example_device
                   (VDict [ (KStr "management_module,1/1",
                             VDict [ (KStr "power_supplies", VList []) ]);
                            (KStr "chassis,1",
                             VDict [ (KStr "power_supplies", VDict []) ]) ])
                   VNone)
                _ _ _ eq_refl eq_refl eq_refl) as [_ [_ [_ [[_ [_ Hpsu]] _]]]].
    apply (Hpsu (VList []) (VDict [])); reflexivity.
Defined.

(** ** get_interfaces *)

(** The [if 'description' not in ... or ... is None] statement. *)
Lemma description_default (details details' : val) (has_descr descr_none : bool) :
  contains "description" details = Ok has_descr ->
  (if negb has_descr then Ok true
   else d <- getitem details "description" ;; Ok (is_none d)) = Ok descr_none ->
  (if descr_none then setitem details "description" (VStr EmptyString)
   else Ok details) = Ok details' ->
  exists d d',
    details = VDict d /\ details' = VDict d' /\
    dict_get (KStr "description") d' = Some (description_of d) /\
    forall k, key_eqb k (KStr "description") = false ->
              dict_get k d' = dict_get k d.
Proof.
  intros Hc Hn Hs.
  destruct details as [| b | z | q | t | l | d]; simpl in Hc; try discriminate.
  - inversion Hc; subst. destruct (substring_of "description" t); simpl in *;
      [discriminate | inversion Hn; subst; discriminate].
  - inversion Hc; subst. destruct (existsb _ l); simpl in *;
      [discriminate | inversion Hn; subst; discriminate].
  - exists d. inversion Hc; subst; clear Hc.
    unfold dict_has, description_of in *. simpl in Hn.
    destruct (dict_get (KStr "description") d) as [x |] eqn:Ed; simpl in Hn.
    + inversion Hn; subst; clear Hn.
      destruct x; simpl in Hs; inversion Hs; subst;
        eexists; (split; [reflexivity |]); (split; [reflexivity |]);
        try (split; [exact Ed | reflexivity]).
      split; [apply dict_get_set_same |].
      intros k Hk. now apply dict_get_set_other.
    + inversion Hn; subst; clear Hn. simpl in Hs. inversion Hs; subst.
      eexists; (split; [reflexivity |]); (split; [reflexivity |]).
      split; [apply dict_get_set_same |].
      intros k Hk. now apply dict_get_set_other.
Qed.

Lemma getitem_dict (d : dict val) (k : string) (v : val) :
  getitem (VDict d) k = Ok v <-> dict_get (KStr k) d = Some v.
Proof.
  simpl. destruct (dict_get (KStr k) d); split; intros H;
    inversion H; subst; auto.
Qed.

(** The [if k not in src: ... else: ...] statements. *)
Lemma or_not_available_intro (src : val) (k : string) (has : bool) (out : val) :
  contains k src = Ok has ->
  (if negb has then Ok (VStr "N/A") else getitem src k) = Ok out ->
  or_not_available src k out.
Proof.
  intros Hc Ho. destruct has; simpl in Ho.
  - right. auto.
  - left. inversion Ho. auto.
Qed.

(** What one iteration of the loop publishes, in terms of the source
    record of the interface. *)
Lemma get_interfaces_entry_inv (il interface : val) (name : key) (entry : val) :
  get_interfaces_entry il interface = Ok (name, entry) ->
  exists d hw ls adm speed mtu mac,
    subscript il interface = Ok (VDict d) /\
    to_key interface = Ok name /\
    dict_get (KStr "hw_intf_info") d = Some hw /\
    dict_get (KStr "link_state") d = Some ls /\
    dict_get (KStr "admin_state") d = Some adm /\
    or_not_available hw "max_speed" speed /\
    or_not_available (VDict d) "mtu" mtu /\
    or_not_available hw "mac_addr" mac /\
    entry = VDict [ (KStr "is_up", VBool (eq_str ls "up"));
                    (KStr "is_enabled", VBool (eq_str adm "up"));
                    (KStr "description", description_of d);
                    (KStr "last_flapped", VFloat (-1 # 1));
                    (KStr "speed", speed);
                    (KStr "mtu", mtu);
                    (KStr "mac_address", mac) ].
Proof.
  unfold get_interfaces_entry. intros H.
  bind_inv H. rename a into details, E into Hsub.
  bind_inv H. rename a into has_descr, E into Hc.
  bind_inv H. rename a into descr_none, E into Hn.
  bind_inv H. rename a into details', E into Hs.
  destruct (description_default _ _ _ _ Hc Hn Hs) as [d [d' [-> [-> [Hdescr Hkeep]]]]].
  bind_inv H. rename a into hw, E into Hhw.
  bind_inv H. rename a into has_speed, E into Hcs.
  bind_inv H. rename a into speed, E into Hspeed.
  bind_inv H. rename a into has_mtu, E into Hcm.
  bind_inv H. rename a into mtu, E into Hmtu.
  bind_inv H. rename a into hw2, E into Hhw2.
  bind_inv H. rename a into has_mac, E into Hca.
  bind_inv H. rename a into mac, E into Hmac.
  bind_inv H. rename a into nm, E into Hkey.
  bind_inv H. rename a into ls, E into Hls.
  bind_inv H. rename a into adm, E into Hadm.
  bind_inv H. rename a into descr, E into Hd.
  inversion H; subst; clear H.
  apply getitem_dict in Hhw, Hhw2, Hls, Hadm, Hd.
  rewrite Hkeep in Hhw, Hhw2, Hls, Hadm by reflexivity.
  assert (hw2 = hw) by congruence; subst hw2.
  assert (descr = description_of d) by congruence; subst descr.
  exists d, hw, ls, adm, speed, mtu, mac.
  repeat (split; [assumption || reflexivity |]).
  assert (Hhw' : getitem (VDict d') "hw_intf_info" = Ok hw)
    by (apply getitem_dict; rewrite Hkeep by reflexivity; assumption).
  rewrite Hhw' in Hspeed, Hmac. cbn [bind] in Hspeed, Hmac.
  split; [eapply or_not_available_intro; eauto |].
  split; [| split; [eapply or_not_available_intro; eauto | reflexivity]].
  assert (Hm : dict_get (KStr "mtu") d' = dict_get (KStr "mtu") d)
    by (apply Hkeep; reflexivity).
  simpl in Hcm. unfold dict_has in Hcm. rewrite Hm in Hcm.
  unfold or_not_available. simpl. unfold dict_has.
  destruct (dict_get (KStr "mtu") d) as [x |] eqn:Ex;
    inversion Hcm; subst; simpl in Hmtu.
  - right. rewrite Hm in Hmtu. auto.
  - left. inversion Hmtu. auto.
Qed.

Lemma to_key_str_inv (v : val) (k : key) (name : string) :
  to_key v = Ok k -> key_eqb k (KStr name) = true -> v = VStr name.
Proof.
  destruct v as [| b | z | q | t | l | d]; simpl; intros H; inversion H; subst;
    simpl; try discriminate.
  - destruct (Qeq_bool q (inject_Z (Qfloor q))); discriminate.
  - intros Hs. apply String.eqb_eq in Hs. now subst.
Qed.

(** Every item of the result was published by one iteration. *)
Lemma interfaces_of_In (il : val) (r : dict val) (name : key) (entry : val) :
  interfaces_of il = Ok (VDict r) -> In (name, entry) r ->
  exists interface name',
    get_interfaces_entry il interface = Ok (name', entry) /\
    key_eqb name' name = true.
Proof.
  unfold interfaces_of. intros H Hin.
  bind_inv H. rename a into names.
  bind_inv H. rename a into acc. inversion H; subst; clear H.
  revert name entry Hin.
  eapply (foldM_invariant
            (fun acc => forall name entry, In (name, entry) acc ->
               exists interface name',
                 get_interfaces_entry il interface = Ok (name', entry) /\
                 key_eqb name' name = true)); [| | exact E0].
  - intros acc x acc' _ IH Hb name entry Hin.
    bind_inv Hb. destruct a as [k v]. inversion Hb; subst; clear Hb.
    simpl in Hin. apply dict_set_In in Hin.
    destruct Hin as [[Hk ->] | Hin]; eauto.
  - intros name entry [].
Qed.

Lemma get_interfaces_fetch (s : Session) (il : val) :
  Interface_get_facts s = Ok il -> get_interfaces s = interfaces_of il.
Proof. unfold get_interfaces. intros ->. reflexivity. Qed.

(** C2 (as stated).  The record of interface 1/1/1 has a seventh key,
    [last_flapped], which is not one of the six documented keys. *)
Lemma get_interfaces_six_keys_counterexample :
  exists r rec,
    get_interfaces example_interface_session = Ok (VDict r) /\
    dict_get (KStr "1/1/1") r = Some (VDict rec) /\
    dict_has (KStr "last_flapped") rec = true /\
    ~ In (KStr "last_flapped") documented_interface_keys.
Proof.
  eexists. eexists. split; [reflexivity |].
  split; [reflexivity |]. split; [reflexivity |].
  unfold documented_interface_keys. simpl.
  intros H. repeat (destruct H as [H | H]; [discriminate |]). exact H.
Qed.

(** C2 (amended).  Every record returned by [get_interfaces] has exactly
    seven keys, the six documented ones and [last_flapped]; [is_up] is
    the boolean [link_state == "up"] and [is_enabled] the boolean
    [admin_state == "up"] of the interface's source record. *)
Theorem get_interfaces_record_keys (s : Session) (il : val) (r : dict val)
  (name : key) (entry : val) :
  Interface_get_facts s = Ok il ->
  get_interfaces s = Ok (VDict r) ->
  In (name, entry) r ->
  exists interface details link_state admin_state rec,
    subscript il interface = Ok details /\
    (exists name', to_key interface = Ok name' /\ key_eqb name' name = true) /\
    getitem details "link_state" = Ok link_state /\
    getitem details "admin_state" = Ok admin_state /\
    entry = VDict rec /\
    dict_keys rec = interface_record_keys /\
    (forall k, In k documented_interface_keys -> In k (dict_keys rec)) /\
    dict_get (KStr "is_up") rec = Some (VBool (eq_str link_state "up")) /\
    dict_get (KStr "is_enabled") rec = Some (VBool (eq_str admin_state "up")).
Proof.
  intros Hf Hr Hin. rewrite (get_interfaces_fetch _ _ Hf) in Hr.
  destruct (interfaces_of_In _ _ _ _ Hr Hin) as [interface [name' [He Hk]]].
  destruct (get_interfaces_entry_inv _ _ _ _ He)
    as [d [hw [ls [adm [speed [mtu [mac
         [Hsub [Hkey [Hhw [Hls [Hadm [_ [_ [_ ->]]]]]]]]]]]]]]].
  exists interface, (VDict d), ls, adm. eexists.
  split; [exact Hsub |]. split; [eauto |].
  split; [now apply getitem_dict |]. split; [now apply getitem_dict |].
  split; [reflexivity |]. split; [reflexivity |].
  split; [| split; reflexivity].
  unfold documented_interface_keys. simpl. intros k Hk'.
  repeat (destruct Hk' as [<- | Hk']; [tauto |]). destruct Hk'.
Qed.

Lemma get_interfaces_record_keys_witness :
  exists rec,
    dict_keys rec = interface_record_keys /\
    dict_get (KStr "is_up") rec = Some (VBool false) /\
    dict_get (KStr "is_enabled") rec = Some (VBool false).
Proof.
  destruct (get_interfaces_record_keys example_interface_session
              example_interfaces _ (KStr "loopback0") _
              eq_refl eq_refl (or_intror (or_introl eq_refl)))
    as [interface [details [ls [adm [rec [_ [_ [_ [_ [He [Hk [_ [Hup Hen]]]]]]]]]]]]].
  exists rec. inversion He; subst rec. repeat split; reflexivity.
Defined.

(** C3. In every record returned by [get_interfaces]: an absent or null
    source [description] gives the empty string; a missing [max_speed]
    or [mac_addr] in the hardware information, or a missing [mtu], gives
    the string "N/A"; [last_flapped] is -1.0. *)
Theorem get_interfaces_defaults (s : Session) (il : val) (r : dict val)
  (name : key) (entry : val) :
  Interface_get_facts s = Ok il ->
  get_interfaces s = Ok (VDict r) ->
  In (name, entry) r ->
  exists interface details hw,
    subscript il interface = Ok details /\
    (exists name', to_key interface = Ok name' /\ key_eqb name' name = true) /\
    getitem details "hw_intf_info" = Ok hw /\
    (contains "description" details = Ok false \/
     getitem details "description" = Ok VNone ->
     getitem entry "description" = Ok (VStr EmptyString)) /\
    (contains "max_speed" hw = Ok false ->
     getitem entry "speed" = Ok (VStr "N/A")) /\
    (contains "mtu" details = Ok false ->
     getitem entry "mtu" = Ok (VStr "N/A")) /\
    (contains "mac_addr" hw = Ok false ->
     getitem entry "mac_address" = Ok (VStr "N/A")) /\
    getitem entry "last_flapped" = Ok (VFloat (-1 # 1)).
Proof.
  intros Hf Hr Hin. rewrite (get_interfaces_fetch _ _ Hf) in Hr.
  destruct (interfaces_of_In _ _ _ _ Hr Hin) as [interface [name' [He Hk]]].
  destruct (get_interfaces_entry_inv _ _ _ _ He)
    as [d [hw [ls [adm [speed [mtu [mac
         [Hsub [Hkey [Hhw [Hls [Hadm [Hs [Hm [Ha ->]]]]]]]]]]]]]]].
  exists interface, (VDict d), hw.
  split; [exact Hsub |]. split; [eauto |].
  split; [now apply getitem_dict |].
  split; [| split; [| split; [| split; [| reflexivity]]]].
  - intros Hd. simpl. f_equal. unfold description_of.
    destruct Hd as [Hd | Hd].
    + simpl in Hd. unfold dict_has in Hd.
      destruct (dict_get (KStr "description") d); [discriminate | reflexivity].
    + apply getitem_dict in Hd. now rewrite Hd.
  - intros Hc. destruct Hs as [[_ ->] | [Hc' _]]; [reflexivity | congruence].
  - intros Hc. destruct Hm as [[_ ->] | [Hc' _]]; [reflexivity | congruence].
  - intros Hc. destruct Ha as [[_ ->] | [Hc' _]]; [reflexivity | congruence].
Qed.

Lemma get_interfaces_defaults_witness :
  exists r entry,
    get_interfaces example_interface_session = Ok (VDict r) /\
    In (KStr "loopback0", entry) r /\
    getitem entry "description" = Ok (VStr EmptyString) /\
    getitem entry "speed" = Ok (VStr "N/A") /\
    getitem entry "mtu" = Ok (VStr "N/A") /\
    getitem entry "mac_address" = Ok (VStr "N/A") /\
    getitem entry "last_flapped" = Ok (VFloat (-1 # 1)).
Proof.
  destruct (get_interfaces_defaults example_interface_session
              example_interfaces _ (KStr "loopback0") _
              eq_refl eq_refl (or_intror (or_introl eq_refl)))
    as [interface [details [hw [Hsub [[name' [Hk Hn]] [Hhw
         [Hd [Hs [Hm [Ha Hl]]]]]]]]]].
  apply (to_key_str_inv _ _ _ Hk) in Hn. subst interface.
  simpl in Hsub. inversion Hsub; subst details; clear Hsub.
  simpl in Hhw. inversion Hhw; subst hw; clear Hhw.
  eexists. eexists. split; [reflexivity |].
  split; [right; left; reflexivity |].
  split; [apply Hd; right; reflexivity |].
  split; [apply Hs; reflexivity |].
  split; [apply Hm; reflexivity |].
  split; [apply Ha; reflexivity | exact Hl].
Defined.

(** ** get_interfaces_counters *)

Lemma key_eqb_str_neq (a b : string) :
  a <> b -> key_eqb (KStr a) (KStr b) = false.
Proof. intros H. simpl. now apply String.eqb_neq. Qed.

Lemma dict_keys_set_present {V : Type} (k : key) (v : V) (d : dict V) :
  dict_has k d = true -> dict_keys (dict_set k v d) = dict_keys d.
Proof.
  unfold dict_has, dict_keys. induction d as [| [k0 v0] d IH]; simpl.
  - discriminate.
  - destruct (key_eqb k k0) eqn:E; simpl; [reflexivity |].
    intros H. now rewrite IH.
Qed.

Lemma dict_has_set {V : Type} (k k' : key) (v : V) (d : dict V) :
  dict_has k d = true -> dict_has k (dict_set k' v d) = true.
Proof.
  unfold dict_has. destruct (key_eqb k k') eqn:E.
  - intros _. rewrite (dict_get_congr _ _ _ _ E), dict_get_set_same. reflexivity.
  - now rewrite dict_get_set_other.
Qed.

(** The chain of [if src in statistics: intf_counter[dst] = ...]
    statements over any table with distinct outputs: each output is the
    statistic when present and is left alone otherwise. *)
Lemma copy_statistics_inv (details stats : val) (table : list (string * string)) :
  getitem details "statistics" = Ok stats ->
  NoDup (map snd table) ->
  forall init out,
    foldM (copy_statistic details) table init = Ok out ->
    (forall src dst, In (src, dst) table ->
       (contains src stats = Ok false /\
        dict_get (KStr dst) out = dict_get (KStr dst) init) \/
       (contains src stats = Ok true /\
        exists v, getitem stats src = Ok v /\ dict_get (KStr dst) out = Some v)) /\
    (forall k, ~ In k (map snd table) ->
       dict_get (KStr k) out = dict_get (KStr k) init) /\
    ((forall dst, In dst (map snd table) -> dict_has (KStr dst) init = true) ->
     dict_keys out = dict_keys init).
Proof.
  intros Hst. induction table as [| [src dst] table IH]; intros Hnd init out H.
  - simpl in H. inversion H; subst. repeat split; auto. intros ? ? [].
  - simpl in H. rewrite Hst in H. cbn [bind] in H.
    inversion Hnd as [| ? ? Hnotin Hnd']; subst.
    bind_inv H. rename a into acc1, E into Hstep.
    bind_inv Hstep. rename a into has, E into Hc.
    destruct (IH Hnd' acc1 out H) as [IHt [IHo IHk]].
    assert (Hacc1 : forall k, k <> dst ->
              dict_get (KStr k) acc1 = dict_get (KStr k) init).
    { intros k Hk. destruct has.
      - bind_inv Hstep. inversion Hstep; subst.
        apply dict_get_set_other. now apply key_eqb_str_neq.
      - now inversion Hstep; subst. }
    split; [| split].
    + intros src' dst' [Heq | Hin].
      * inversion Heq; subst src' dst'; clear Heq.
        rewrite (IHo dst Hnotin).
        destruct has.
        -- right. split; [exact Hc |].
           bind_inv Hstep. inversion Hstep; subst.
           exists a. split; [exact E | apply dict_get_set_same].
        -- left. inversion Hstep; subst. auto.
      * assert (Hne : dst' <> dst).
        { intros ->. apply Hnotin. apply (in_map snd) in Hin. exact Hin. }
        destruct (IHt src' dst' Hin) as [[Ha Hg] | [Ha Hg]].
        -- left. split; [exact Ha |]. rewrite Hg. now apply Hacc1.
        -- right. auto.
    + intros k Hk. simpl in Hk.
      rewrite IHo by tauto. apply Hacc1. intros ->. tauto.
    + intros Hall.
      assert (Hk1 : dict_keys acc1 = dict_keys init).
      { destruct has.
        - bind_inv Hstep. inversion Hstep; subst.
          apply dict_keys_set_present. apply Hall. now left.
        - now inversion Hstep; subst. }
      rewrite <- Hk1. apply IHk. intros dst' Hin'.
      assert (Hh : dict_has (KStr dst') init = true) by (apply Hall; now right).
      destruct has.
      * bind_inv Hstep. inversion Hstep; subst. now apply dict_has_set.
      * now inversion Hstep; subst.
Qed.

Lemma counter_sources_distinct : NoDup (map snd counter_sources).
Proof.
  simpl. repeat (constructor; [simpl; intros H;
    repeat (destruct H as [H | H]; [discriminate |]); exact H |]).
  constructor.
Qed.

Lemma counter_sources_zero (src dst : string) :
  In (src, dst) counter_sources ->
  dict_get (KStr dst) zero_counters = Some (VInt 0).
Proof.
  unfold counter_sources. simpl. intros H.
  repeat (destruct H as [H | H]; [inversion H; subst; reflexivity |]).
  destruct H.
Qed.

(** The counters built for one interface. *)
Lemma interface_counters_inv (details : val) (counters : dict val) :
  interface_counters details = Ok counters ->
  exists stats,
    getitem details "statistics" = Ok stats /\
    dict_keys counters = map KStr counter_names /\
    forall src dst, In (src, dst) counter_sources ->
      exists v, dict_get (KStr dst) counters = Some v /\ or_zero stats src v.
Proof.
  unfold interface_counters. intros H.
  destruct (getitem details "statistics") as [stats | e] eqn:Hst;
    [| simpl in H; rewrite Hst in H; discriminate].
  exists stats. split; [reflexivity |].
  destruct (copy_statistics_inv details stats counter_sources Hst
              counter_sources_distinct zero_counters counters H)
    as [Ht [_ Hk]].
  split.
  - rewrite Hk; [reflexivity |].
    simpl. intros dst Hd.
    repeat (destruct Hd as [<- | Hd]; [reflexivity |]). destruct Hd.
  - intros src dst Hin. unfold or_zero.
    destruct (Ht src dst Hin) as [[Ha Hg] | [Ha [v [Hv Hg]]]].
    + exists (VInt 0). rewrite Hg, (counter_sources_zero _ _ Hin). auto.
    + exists v. auto.
Qed.

Lemma counters_of_In (il : val) (r : dict val) (name : key) (entry : val) :
  counters_of il = Ok (VDict r) -> In (name, entry) r ->
  exists interface details counters name',
    subscript il interface = Ok details /\
    interface_counters details = Ok counters /\
    to_key interface = Ok name' /\ key_eqb name' name = true /\
    entry = VDict counters.
Proof.
  unfold counters_of. intros H Hin.
  bind_inv H. rename a into names.
  bind_inv H. rename a into acc. inversion H; subst; clear H.
  revert name entry Hin.
  eapply (foldM_invariant
            (fun acc => forall name entry, In (name, entry) acc ->
               exists interface details counters name',
                 subscript il interface = Ok details /\
                 interface_counters details = Ok counters /\
                 to_key interface = Ok name' /\ key_eqb name' name = true /\
                 entry = VDict counters)); [| | exact E0].
  - intros acc x acc' _ IH Hb name entry Hin.
    bind_inv Hb. bind_inv Hb. bind_inv Hb. inversion Hb; subst; clear Hb.
    simpl in Hin. apply dict_set_In in Hin.
    destruct Hin as [[Hk ->] | Hin]; eauto 10.
  - intros name entry [].
Qed.



(** ** get_mac_address_table *)

Lemma seq_index_0 {A : Type} (x : A) (l : list A) : seq_index (x :: l) 0 = Ok x.
Proof.
  assert (H : (Zlen (x :: l) <=? 0) = false)
    by (apply Z.leb_gt; unfold Zlen; simpl List.length; lia).
  unfold seq_index. change (0 <? 0) with false. cbv iota.
  rewrite H. reflexivity.
Qed.

Lemma seq_index_1 {A : Type} (x y : A) (l : list A) :
  seq_index (x :: y :: l) 1 = Ok y.
Proof.
  assert (H : (Zlen (x :: y :: l) <=? 1) = false)
    by (apply Z.leb_gt; unfold Zlen; simpl List.length; lia).
  unfold seq_index. change (1 <? 0) with false. cbv iota.
  rewrite H. reflexivity.
Qed.

Lemma seq_index_nil {A : Type} (i : Z) : seq_index (@nil A) i = Raise IndexError.
Proof.
  unfold seq_index.
  destruct (_ || _); [reflexivity |].
  destruct (Z.to_nat _); reflexivity.
Qed.

Lemma split_no_sep (sep : ascii) (s : string) :
  Str.has_char sep s = false -> Str.split sep s = [s].
Proof.
  induction s as [| c s IH]; simpl; [reflexivity |].
  intros H. apply orb_false_iff in H. destruct H as [Hc Hs].
  rewrite Hc, (IH Hs). reflexivity.
Qed.

Lemma split_at_sep (sep : ascii) (a b : string) :
  Str.has_char sep a = false ->
  Str.split sep (a ++ String sep b) = a :: Str.split sep b.
Proof.
  induction a as [| c a IH]; simpl.
  - intros _. now rewrite Ascii.eqb_refl.
  - intros H. apply orb_false_iff in H. destruct H as [Hc Ha].
    rewrite Hc, (IH Ha). reflexivity.
Qed.

(** The code's filter keeps the result sets that have entries. *)
Lemma nonempty_macs_with_entries (ml : list (dict MacObj)) :
  nonempty_macs ml = with_entries ml.
Proof.
  unfold nonempty_macs, with_entries. apply filter_ext.
  intros [| x m]; [reflexivity |].
  unfold Zlen. apply Z.ltb_lt. simpl List.length. lia.
Qed.

(** Only the first item of a result set is read. *)
Lemma mac_entry_first (k : key) (obj : MacObj) (rest : dict MacObj) :
  mac_entry ((k, obj) :: rest) = mac_entry [(k, obj)].
Proof.
  unfold mac_entry. simpl dict_keys. rewrite !seq_index_0. cbn [bind].
  simpl dict_get. rewrite key_eqb_refl. reflexivity.
Qed.

(** The record of a result set, from its first item. *)
Lemma mac_entry_inv (mac : dict MacObj) (e : val) :
  mac_entry mac = Ok e ->
  exists mac_key obj rest mac_type mac_address rec,
    mac = (KStr mac_key, obj) :: rest /\
    seq_index (Str.split "," mac_key) 0 = Ok mac_type /\
    seq_index (Str.split "," mac_key) 1 = Ok mac_address /\
    e = VDict rec /\
    dict_get (KStr "mac") rec = Some (VStr mac_address) /\
    dict_get (KStr "static") rec = Some (VBool (String.eqb mac_type "static")) /\
    dict_get (KStr "active") rec = Some (VBool true) /\
    dict_get (KStr "moves") rec = Some VNone /\
    dict_get (KStr "last_move") rec = Some VNone.
Proof.
  intros H. destruct mac as [| [k obj] rest].
  - unfold mac_entry in H. simpl dict_keys in H.
    rewrite seq_index_nil in H. discriminate.
  - rewrite mac_entry_first in H. unfold mac_entry in H.
    simpl dict_keys in H. rewrite seq_index_0 in H. cbn [bind] in H.
    destruct k as [mac_key | | |]; try discriminate.
    cbn [bind] in H.
    bind_inv H. rename a into mac_type, E into Hty.
    bind_inv H. rename a into mac_address, E into Haddr.
    bind_inv H. bind_inv H. bind_inv H. bind_inv H. bind_inv H. bind_inv H.
    inversion H; subst; clear H.
    exists mac_key, obj, rest, mac_type, mac_address. eexists.
    split; [reflexivity |]. split; [exact Hty |]. split; [exact Haddr |].
    split; [reflexivity |]. repeat split; reflexivity.
Qed.

Lemma mac_entry_spec (mac : dict MacObj) (e : val) :
  mac_entry mac = Ok e -> mac_record_spec mac e.
Proof.
  intros H.
  destruct (mac_entry_inv _ _ H)
    as [mac_key [obj [rest [mac_type [mac_address [rec
         [Hm [Hty [Haddr [-> [Hmac [Hst [Ha [Hmv Hlm]]]]]]]]]]]]]].
  unfold mac_record_spec. simpl. rewrite Ha, Hmv, Hlm, Hst, Hmac.
  repeat (split; [reflexivity |]).
  intros ty addr obj' rest' Heq Hct Hca.
  rewrite Hm in Heq. inversion Heq; subst mac_key obj' rest'; clear Heq.
  rewrite (split_at_sep _ _ _ Hct), (split_no_sep _ _ Hca) in Hty, Haddr.
  rewrite seq_index_0 in Hty. rewrite seq_index_1 in Haddr.
  inversion Hty; inversion Haddr; subst. split; reflexivity.
Qed.

Lemma get_mac_address_table_inv (s : Session) (vl : dict VlanObj) (es : list val) :
  Vlan_get_all s = Ok vl ->
  get_mac_address_table s = Ok (VList es) ->
  exists ml,
    fetch_mac_list s vl = Ok ml /\
    Forall2 (fun mac e => mac_entry mac = Ok e) (with_entries ml) es.
Proof.
  unfold get_mac_address_table. intros Hv H. rewrite Hv in H. cbn [bind] in H.
  bind_inv H. rename a into ml. bind_inv H. inversion H; subst; clear H.
  exists ml. split; [assumption |].
  rewrite <- nonempty_macs_with_entries. now apply mapM_Forall2.
Qed.

Lemma Forall2_impl {A B : Type} (P Q : A -> B -> Prop) (xs : list A) (ys : list B) :
  (forall x y, P x y -> Q x y) -> Forall2 P xs ys -> Forall2 Q xs ys.
Proof. intros H F. induction F; constructor; auto. Qed.

(** C9. [get_mac_address_table] publishes records only for the per-VLAN
    result sets that have entries; in every record [active] is [True]
    and [moves] and [last_move] are [None]; when the compound key read
    is [type,address], [static] is [type == "static"] and [mac] is the
    address. *)
Theorem mac_table_records (s : Session) (vl : dict VlanObj) (es : list val) :
  Vlan_get_all s = Ok vl ->
  get_mac_address_table s = Ok (VList es) ->
  exists ml,
    fetch_mac_list s vl = Ok ml /\
    Forall2 mac_record_spec (with_entries ml) es.
Proof.
  intros Hv H.
  destruct (get_mac_address_table_inv _ _ _ Hv H) as [ml [Hml F]].
  exists ml. split; [exact Hml |].
  eapply Forall2_impl; [| exact F]. apply mac_entry_spec.
Qed.

Lemma mac_table_records_witness :
  exists e1 e2,
    get_mac_address_table example_mac_session = Ok (VList [e1; e2]) /\
    getitem e1 "static" = Ok (VBool true) /\
    getitem e1 "mac" = Ok (VStr "aa:bb:cc:dd:ee:ff") /\
    getitem e1 "active" = Ok (VBool true) /\
    getitem e1 "moves" = Ok VNone /\
    getitem e1 "last_move" = Ok VNone /\
    getitem e2 "static" = Ok (VBool false).
Proof.
  destruct (mac_table_records example_mac_session example_vlans _
              eq_refl eq_refl) as [ml [Hml F]].
  vm_compute in Hml. inversion Hml; subst ml; clear Hml.
  unfold with_entries in F. simpl filter in F.
  inversion F as [| m1 e1 ms1 es1 H1 F1]; subst.
  inversion F1 as [| m2 e2 ms2 es2 H2 F2]; subst.
  destruct H1 as [Ha [Hmv [Hlm Hk]]].
  destruct (Hk "static" "aa:bb:cc:dd:ee:ff" _ _ eq_refl eq_refl eq_refl)
    as [Hst Hmac].
  destruct H2 as [_ [_ [_ Hk2]]].
  destruct (Hk2 "dynamic" "00:11:22:33:44:55" _ _ eq_refl eq_refl eq_refl)
    as [Hst2 _].
  eexists. eexists. split; [reflexivity |].
  repeat split; assumption.
Defined.

(** C10. For every VLAN whose MAC mapping is non-empty the table has
    exactly one record, built from the first item of that mapping alone:
    the records are in one-to-one correspondence, in order, with the
    non-empty mappings, and the items after the first are never read. *)
Theorem mac_table_first_entry_only (s : Session) (vl : dict VlanObj)
  (es : list val) :
  Vlan_get_all s = Ok vl ->
  get_mac_address_table s = Ok (VList es) ->
  exists ml,
    Forall2 (fun vlan mac => exists v, dict_get vlan vl = Some v /\
                                       Mac_get_all s v = Ok mac)
            (dict_keys vl) ml /\
    List.length es = List.length (with_entries ml) /\
    Forall2 (fun mac e => exists k obj rest,
               mac = (k, obj) :: rest /\ mac_entry [(k, obj)] = Ok e)
            (with_entries ml) es.
Proof.
  intros Hv H.
  destruct (get_mac_address_table_inv _ _ _ Hv H) as [ml [Hml F]].
  exists ml. split; [| split].
  - unfold fetch_mac_list in Hml. apply mapM_Forall2 in Hml.
    eapply Forall2_impl; [| exact Hml]. simpl. intros vlan mac Hx.
    destruct (dict_get vlan vl) as [v |]; [eauto | discriminate].
  - symmetry. eapply Forall2_length; eauto.
  - eapply Forall2_impl; [| exact F]. simpl. intros mac e He.
    destruct mac as [| [k obj] rest].
    + unfold mac_entry in He. simpl dict_keys in He.
      rewrite seq_index_nil in He. discriminate.
    + rewrite mac_entry_first in He. eauto.
Qed.

Lemma mac_table_first_entry_only_witness :
  exists ml e1 e2,
    get_mac_address_table example_mac_session = Ok (VList [e1; e2]) /\
    List.length (with_entries ml) = 2%nat /\
    getitem e1 "vlan" = Ok (VInt 10) /\
    getitem e2 "vlan" = Ok (VInt 20) /\
    getitem e2 "mac" = Ok (VStr "00:11:22:33:44:55") /\
    getitem e2 "interface" = Ok (VStr "1/1/2").
Proof.
  destruct (mac_table_first_entry_only example_mac_session example_vlans _
              eq_refl eq_refl) as [ml [Hml [Hlen F]]].
  exists ml. eexists. eexists. split; [reflexivity |].
  split; [symmetry; exact Hlen |].
  repeat split; reflexivity.
Defined.

(** ** get_vlans *)

Lemma is_nonempty_truthy (v : val) : is_nonempty v = true -> truthy v = true.
Proof.
  destruct v as [| b | z | q | t | l | d]; simpl; try discriminate.
  - destruct t; [discriminate | reflexivity].
  - destruct l; [discriminate | reflexivity].
  - destruct d; [discriminate | reflexivity].
Qed.

Lemma vlan_field_set_nonempty (f : dict val) (field : string) (v : val) :
  dict_get (KStr field) f = Some v -> is_nonempty v = true ->
  vlan_field_set (VDict f) field = Ok true.
Proof.
  intros Hg Hn. unfold vlan_field_set. simpl. unfold dict_has. rewrite Hg.
  cbn [bind]. rewrite (is_nonempty_truthy _ Hn).
  destruct (is_nonempty_len _ Hn) as [n [Hl Hp]]. rewrite Hl. cbn [bind].
  now rewrite Hp.
Qed.

Lemma vlan_field_set_absent (f : dict val) (field : string) :
  absent_or_empty f field = true ->
  vlan_field_set (VDict f) field = Ok false.
Proof.
  unfold absent_or_empty, vlan_field_set. simpl. unfold dict_has.
  destruct (dict_get (KStr field) f) as [v |]; [| reflexivity].
  intros H. apply negb_true_iff in H. cbn [bind]. now rewrite H.
Qed.

(** The [if]/[elif] of the scan, resolved. *)
Lemma scan_interface_rule (il : val) (interface : key) (f : dict val) :
  subscript il (key_val interface) = Ok (VDict f) ->
  membership_rule interface f (fun vj => scan_interface il vj interface).
Proof.
  intros Hsub. unfold membership_rule, scan_interface, membership_key.
  rewrite Hsub. cbn [bind]. repeat split.
  - intros trunks Hg Hn vj.
    rewrite (vlan_field_set_nonempty _ _ _ Hg Hn). cbn [bind].
    simpl. now rewrite Hg.
  - intros tag Ha Hg Hn vj.
    rewrite (vlan_field_set_absent _ _ Ha). cbn [bind].
    rewrite (vlan_field_set_nonempty _ _ _ Hg Hn). cbn [bind].
    simpl. now rewrite Hg.
  - intros Ha Hb vj.
    rewrite (vlan_field_set_absent _ _ Ha). cbn [bind].
    rewrite (vlan_field_set_absent _ _ Hb). reflexivity.
Qed.

Lemma is_physical_str (k : key) :
  is_str_key k = true -> is_physical k = Ok (physical_name k).
Proof. destruct k; simpl; intros H; [reflexivity | | |]; discriminate. Qed.

(** The comprehension never sees the non-physical items. *)
Lemma physical_interfaces_filter (its : dict val) :
  forallb (fun kv => is_str_key (fst kv)) its = true ->
  physical_interfaces its
  = physical_interfaces (filter (fun kv => physical_name (fst kv)) its).
Proof.
  unfold physical_interfaces. generalize (@nil (key * val)) as acc.
  induction its as [| [k v] its IH]; intros acc Hs; [reflexivity |].
  simpl in Hs. apply andb_true_iff in Hs. destruct Hs as [Hk Hs].
  simpl. rewrite (is_physical_str _ Hk). cbn [bind].
  destruct (physical_name k) eqn:Hp.
  - simpl. rewrite (is_physical_str _ Hk). cbn [bind]. rewrite Hp. now apply IH.
  - now apply IH.
Qed.

Lemma physical_interfaces_keys (its r : dict val) :
  physical_interfaces its = Ok r ->
  forall k, In k (dict_keys r) -> physical_name k = true.
Proof.
  unfold physical_interfaces. intros H.
  assert (Hinv : forall k v, In (k, v) r -> physical_name k = true).
  { eapply (foldM_invariant
              (fun acc => forall k v, In (k, v) acc -> physical_name k = true));
      [| | exact H].
    - intros acc [k0 v0] acc' _ IH Hb k v Hin. simpl in Hb.
      bind_inv Hb.
      destruct a; inversion Hb; subst; clear Hb; [| eauto].
      apply dict_set_In in Hin. destruct Hin as [[Hk _] | Hin]; [| eauto].
      destruct k0; simpl in E; inversion E as [Hp]; try discriminate.
      apply key_eqb_str in Hk. subst k. simpl. now rewrite Hp.
    - intros k v []. }
  intros k Hk. unfold dict_keys in Hk. apply in_map_iff in Hk.
  destruct Hk as [[k' v] [<- Hin]]. eauto.
Qed.

Lemma dict_get_filter_physical (its : dict val) (k : key) :
  physical_name k = true ->
  dict_get k (filter (fun kv => physical_name (fst kv)) its) = dict_get k its.
Proof.
  intros Hp. induction its as [| [k0 v0] its IH]; [reflexivity |].
  simpl. destruct (key_eqb k k0) eqn:E.
  - assert (k0 = k).
    { destruct k; simpl in Hp; try discriminate. now apply key_eqb_str in E. }
    subst k0. rewrite Hp. simpl. now rewrite E.
  - destruct (physical_name k0); simpl; [rewrite E |]; exact IH.
Qed.

Lemma to_key_key_val_str (k : key) :
  is_str_key k = true -> to_key (key_val k) = Ok k.
Proof. destruct k; simpl; intros H; [reflexivity | | |]; discriminate. Qed.

Lemma physical_name_str (k : key) : physical_name k = true -> is_str_key k = true.
Proof. destruct k; simpl; auto. Qed.

Lemma foldM_ext {A S : Type} (f g : S -> A -> result S) (xs : list A) (acc : S) :
  (forall a x, In x xs -> f a x = g a x) -> foldM f xs acc = foldM g xs acc.
Proof.
  revert acc. induction xs as [| x xs IH]; intros acc H; [reflexivity |].
  simpl. rewrite (H acc x (or_introl eq_refl)).
  destruct (g acc x); simpl; [| reflexivity].
  apply IH. intros a' y Hy. apply H. now right.
Qed.

(** Only the physical interfaces are scanned. *)
Lemma vlans_of_physical_only (vl : val) (its : dict val) :
  forallb (fun kv => is_str_key (fst kv)) its = true ->
  vlans_of vl (VDict its)
  = vlans_of vl (VDict (filter (fun kv => physical_name (fst kv)) its)).
Proof.
  intros Hs. unfold vlans_of.
  destruct (vlan_skeleton vl) as [vj | e]; [| reflexivity]. cbn [bind].
  simpl items. cbn [bind].
  rewrite <- (physical_interfaces_filter _ Hs).
  destruct (physical_interfaces its) as [phys | e] eqn:Hp; [| reflexivity].
  cbn [bind]. f_equal.
  apply foldM_ext. intros a k Hk.
  assert (Hk' := physical_interfaces_keys _ _ Hp k Hk).
  unfold scan_interface. simpl subscript.
  rewrite (to_key_key_val_str _ (physical_name_str _ Hk')). cbn [bind].
  now rewrite (dict_get_filter_physical _ _ Hk').
Qed.

Lemma get_vlans_fetch (s : Session) (vl il : val) :
  Vlan_get_facts s = Ok vl -> Interface_get_facts s = Ok il ->
  get_vlans s = vlans_of vl il.
Proof.
  intros Hv Hi. unfold get_vlans, vlans_of. rewrite Hv, Hi. cbn [bind].
  destruct (vlan_skeleton vl); reflexivity.
Qed.

(** ** get_lldp_neighbors_detail *)

Lemma dict_get_set {V : Type} (k k' : key) (v : V) (d : dict V) :
  dict_get k (dict_set k' v d)
  = if key_eqb k k' then Some v else dict_get k d.
Proof.
  destruct (key_eqb k k') eqn:E.
  - now rewrite (dict_get_congr _ _ _ _ E), dict_get_set_same.
  - now apply dict_get_set_other.
Qed.

Section LldpDetailFacts.
Variables unquote slugify lower : string -> string.




End LldpDetailFacts.


(** ** Errors of the transport *)



















(** ** get_environment: the two shapes of its inputs *)

(** C4 (defect).  The same fans, sensors, power supplies and resource
    utilisation are normalised once from their mapping shape and once from
    their sequence shape.  The fans, temperature, power and memory
    sections agree; the cpu sections do not: the mapping branch publishes
    [{'%usage': 5}] where the sequence branch, like the docstring, has one
    dictionary per module id. *)
Theorem environment_cpu_differs_between_shapes
  (float_of_str : string -> result val) :
  exists env_m env_s cpu_m cpu_s,
    normalize_environment float_of_str (VDict example_fans)
      (VDict example_temperatures) (VDict example_power)
      (VDict example_resources) = Ok env_m /\
    normalize_environment float_of_str (sequence_shape "name" example_fans)
      (sequence_shape "location" example_temperatures)
      (sequence_shape "name" example_power)
      (module_shape "management_module,1/1" example_resources) = Ok env_s /\
    getitem env_m "fans" = getitem env_s "fans" /\
    getitem env_m "temperature" = getitem env_s "temperature" /\
    getitem env_m "power" = getitem env_s "power" /\
    getitem env_m "memory" = getitem env_s "memory" /\
    getitem env_m "cpu" = Ok cpu_m /\
    getitem env_s "cpu" = Ok cpu_s /\
    cpu_m = VDict [ (KStr "%usage", VInt 5) ] /\
    cpu_s = VDict [ (KStr "management_module,1/1",
                     VDict [ (KStr "%usage", VInt 5) ]) ] /\
    cpu_m <> cpu_s.
Proof.
  do 4 eexists.
  split; [reflexivity |]. split; [reflexivity |].
  repeat (split; [reflexivity |]).
  discriminate.
Qed.

(** Outside the cpu section the two shapes do agree, on records that have
    the fields the sequence branches subscript. *)

Lemma dict_has_get {V : Type} (k : key) (d : dict V) :
  dict_has k d = true -> exists v, dict_get k d = Some v.
Proof. unfold dict_has. destruct (dict_get k d); [eauto | discriminate]. Qed.

Lemma getitem_set_same (rec : dict val) (k : string) (x : val) :
  getitem (VDict (dict_set (KStr k) x rec)) k = Ok x.
Proof. simpl. now rewrite dict_get_set_same. Qed.

Lemma getitem_set_other (rec : dict val) (k k' : string) (x : val) :
  k <> k' ->
  getitem (VDict (dict_set (KStr k') x rec)) k = getitem (VDict rec) k.
Proof.
  intros H. simpl. rewrite dict_get_set_other; [reflexivity |].
  now apply key_eqb_str_neq.
Qed.

Lemma env_fans_shapes (d : dict val) :
  forallb has_status d = true ->
  env_fans (sequence_shape "name" d) = env_fans (VDict d).
Proof.
  intros Hwf. unfold env_fans, sequence_shape. cbn [iter bind].
  match goal with
  | |- foldM ?f (map ?h d) [] = foldM ?g d [] =>
      enough (H : forall acc, foldM f (map h d) acc = foldM g d acc) by apply H
  end.
  induction d as [| [k v] d IH]; intros acc; [reflexivity |].
  simpl in Hwf. apply andb_true_iff in Hwf. destruct Hwf as [Hkv Hwf].
  unfold has_status in Hkv. simpl in Hkv.
  apply andb_true_iff in Hkv. destruct Hkv as [Hk Hst].
  destruct k as [n | | |]; try discriminate.
  destruct v as [| | | | | | rec]; try discriminate.
  destruct (dict_has_get _ _ Hst) as [st Hg].
  cbn [map foldM fst snd key_val].
  rewrite getitem_set_same. cbn [bind].
  rewrite getitem_set_other by discriminate.
  cbn [is_dict contains getitem]. rewrite Hst, Hg. cbn [bind to_key].
  apply IH. exact Hwf.
Qed.

Lemma temperature_record_location (float_of_str : string -> result val)
  (rec : dict val) (x : val) :
  temperature_record float_of_str (VDict (dict_set (KStr "location") x rec))
  = temperature_record float_of_str (VDict rec).
Proof.
  unfold temperature_record.
  rewrite !getitem_set_other by discriminate. reflexivity.
Qed.

Lemma env_temperature_shapes (float_of_str : string -> result val)
  (d : dict val) :
  forallb (fun kv => is_str_key (fst kv)) d = true ->
  env_temperature float_of_str (sequence_shape "location" d)
  = env_temperature float_of_str (VDict d).
Proof.
  intros Hwf. unfold env_temperature, sequence_shape. cbn [iter bind].
  match goal with
  | |- foldM ?f (map ?h d) [] = foldM ?g d [] =>
      enough (H : forall acc, foldM f (map h d) acc = foldM g d acc) by apply H
  end.
  induction d as [| [k v] d IH]; intros acc; [reflexivity |].
  simpl in Hwf. apply andb_true_iff in Hwf. destruct Hwf as [Hk Hwf].
  destruct k as [n | | |]; try discriminate.
  cbn [map foldM fst snd key_val].
  destruct v as [| b | z | q | t | l | rec];
    try (cbn [getitem temperature_record bind]; reflexivity).
  rewrite getitem_set_same. cbn [bind].
  rewrite temperature_record_location.
  destruct (temperature_record float_of_str (VDict rec)) as [r | e];
    [| reflexivity].
  cbn [bind to_key]. apply IH. exact Hwf.
Qed.

Lemma env_power_shapes (float_of_str : string -> result val) (d : dict val) :
  forallb has_power_fields d = true ->
  env_power float_of_str (sequence_shape "name" d)
  = env_power float_of_str (VDict d).
Proof.
  intros Hwf. unfold env_power, sequence_shape. cbn [iter bind].
  match goal with
  | |- foldM ?f (map ?h d) [] = foldM ?g d [] =>
      enough (H : forall acc, foldM f (map h d) acc = foldM g d acc) by apply H
  end.
  induction d as [| [k v] d IH]; intros acc; [reflexivity |].
  simpl in Hwf. apply andb_true_iff in Hwf. destruct Hwf as [Hkv Hwf].
  unfold has_power_fields, has_status in Hkv. simpl in Hkv.
  apply andb_true_iff in Hkv. destruct Hkv as [Hkv Hch].
  apply andb_true_iff in Hkv. destruct Hkv as [Hk Hst].
  destruct k as [n | | |]; try discriminate.
  destruct v as [| | | | | | rec]; try discriminate.
  destruct (dict_has_get _ _ Hst) as [st Hg].
  destruct (dict_get (KStr "characteristics") rec) as [[| | | | | | ch] |] eqn:Hc;
    try discriminate.
  destruct (dict_has_get _ _ Hch) as [mp Hmp].
  cbn [map foldM fst snd key_val].
  rewrite getitem_set_same. cbn [bind].
  rewrite !getitem_set_other by discriminate.
  cbn [is_dict getitem get_default]. rewrite Hg, Hc. cbn [bind getitem get_default].
  rewrite Hmp. cbn [bind].
  destruct (py_float float_of_str mp) as [capacity | e]; [| reflexivity].
  cbn [bind to_key fst snd]. apply IH. exact Hwf.
Qed.

(** The resource branch: same memory record, differently shaped cpu. *)
Lemma env_resources_shapes (name : string) (res : dict val) (cpu mem : val) :
  dict_get (KStr "cpu") res = Some cpu ->
  dict_get (KStr "memory") res = Some mem ->
  env_resources (VDict res)
  = Ok ([ (KStr "%usage", cpu) ], mem_record mem) /\
  env_resources (module_shape name res)
  = Ok ([ (KStr name, VDict [ (KStr "%usage", cpu) ]) ], mem_record mem).
Proof.
  intros Hc Hm. unfold env_resources, module_shape. split.
  - cbn [get_default]. rewrite Hc. cbn [bind get_default]. rewrite Hm.
    reflexivity.
  - cbn [iter bind foldM].
    change (getitem (VDict [(KStr "name", VStr name);
                            (KStr "resource_utilization", VDict res)]) "name")
      with (Ok (VStr name)).
    change (getitem (VDict [(KStr "name", VStr name);
                            (KStr "resource_utilization", VDict res)])
              "resource_utilization")
      with (Ok (VDict res)).
    cbn [bind getitem]. rewrite Hc. cbn [bind to_key]. rewrite Hm. reflexivity.
Qed.

(** On every well-formed input the two shapes give the same fans,
    temperature, power and memory sections and different cpu sections. *)
Lemma environment_shapes (float_of_str : string -> result val)
  (fans temps psus res : dict val) (name : string) (cpu mem : val) (env_m : val) :
  forallb has_status fans = true ->
  forallb (fun kv => is_str_key (fst kv)) temps = true ->
  forallb has_power_fields psus = true ->
  dict_get (KStr "cpu") res = Some cpu ->
  dict_get (KStr "memory") res = Some mem ->
  normalize_environment float_of_str (VDict fans) (VDict temps) (VDict psus)
    (VDict res) = Ok env_m ->
  exists env_s,
    normalize_environment float_of_str (sequence_shape "name" fans)
      (sequence_shape "location" temps) (sequence_shape "name" psus)
      (module_shape name res) = Ok env_s /\
    getitem env_m "fans" = getitem env_s "fans" /\
    getitem env_m "temperature" = getitem env_s "temperature" /\
    getitem env_m "power" = getitem env_s "power" /\
    getitem env_m "memory" = getitem env_s "memory" /\
    getitem env_m "cpu" = Ok (VDict [ (KStr "%usage", cpu) ]) /\
    getitem env_s "cpu"
    = Ok (VDict [ (KStr name, VDict [ (KStr "%usage", cpu) ]) ]).
Proof.
  intros Hf Ht Hp Hc Hm. unfold normalize_environment.
  rewrite (env_fans_shapes _ Hf), (env_temperature_shapes _ _ Ht),
    (env_power_shapes _ _ Hp).
  destruct (env_resources_shapes name res cpu mem Hc Hm) as [-> ->].
  destruct (env_fans (VDict fans)) as [fd |]; [| discriminate].
  destruct (env_temperature float_of_str (VDict temps)) as [td |];
    [| discriminate].
  destruct (env_power float_of_str (VDict psus)) as [pd |]; [| discriminate].
  cbn [bind]. intros H. inversion H; subst; clear H.
  eexists. split; [reflexivity |]. repeat split; reflexivity.
Qed.

(** ** The driver object *)

(** X1. [optional_args] must be a dictionary: with the default [None],
    or any other value, the constructor raises, whatever the other
    arguments. *)
Theorem init_needs_optional_args (str_other : val -> string)
  (hostname username password : string) (version timeout optional_args : val) :
  is_dict optional_args = false ->
  Lifecycle.__init__ str_other hostname username password version timeout
    optional_args
  = Raise (match optional_args with
           | VList _ => if is_none version then TypeError else AttributeError
           | _ => AttributeError
           end).
Proof.
  intros H. unfold Lifecycle.__init__.
  destruct optional_args; try discriminate; destruct (is_none version);
    reflexivity.
Qed.

Lemma init_needs_optional_args_witness :
  Lifecycle.__init__ (fun _ => "?") "switch" "admin" "secret" VNone (VInt 60) VNone
  = Raise AttributeError.
Proof.
  exact (init_needs_optional_args (fun _ => "?") "switch" "admin" "secret"
           VNone (VInt 60) VNone eq_refl).
Defined.

Lemma dict_get_filter_out {V : Type} (k : key) (d : dict V) :
  dict_get k (filter (fun kv => negb (key_eqb k (fst kv))) d) = None.
Proof.
  induction d as [| [k0 v0] d IH]; [reflexivity |].
  simpl. destruct (key_eqb k k0) eqn:E; simpl; [exact IH |].
  now rewrite E.
Qed.

Lemma dict_get_filter_other {V : Type} (k k' : key) (d : dict V) :
  key_eqb k k' = false ->
  dict_get k (filter (fun kv => negb (key_eqb k' (fst kv))) d) = dict_get k d.
Proof.
  intros H. induction d as [| [k0 v0] d IH]; [reflexivity |].
  simpl. destruct (key_eqb k' k0) eqn:E; simpl.
  - destruct (key_eqb k k0) eqn:E0; [| exact IH].
    rewrite key_eqb_sym in E.
    rewrite (key_eqb_trans _ _ _ E0 E) in H. discriminate.
  - now rewrite IH.
Qed.

(** X2. How the constructor resolves the REST version.  An explicit
    [version] is kept and [optional_args] is stored untouched; without
    it the version is popped from [optional_args] (default "1"), so the
    stored [optional_args] no longer has the key while its other keys
    are kept; the base URL is built from the resolved version. *)
Theorem init_version_resolution (str_other : val -> string)
  (hostname username password : string) (version timeout : val)
  (oa : dict val) (d : Lifecycle.driver) :
  Lifecycle.__init__ str_other hostname username password version timeout
    (VDict oa) = Ok d ->
  (is_none version = false ->
   Lifecycle.version d = version /\ Lifecycle.optional_args d = VDict oa) /\
  (is_none version = true ->
   Lifecycle.version d
   = match dict_get (KStr "version") oa with Some v => v | None => VStr "1" end /\
   exists oa', Lifecycle.optional_args d = VDict oa' /\
               dict_get (KStr "version") oa' = None /\
               forall k, key_eqb k (KStr "version") = false ->
                         dict_get k oa' = dict_get k oa) /\
  Lifecycle.base_url d
  = ("https://" ++ hostname ++ "/rest/v"
     ++ Lifecycle.format_val str_other (Lifecycle.version d) ++ "/")%string /\
  Lifecycle.verify_ssl d
  = match dict_get (KStr "verify_ssl") oa with Some v => v | None => VBool true end.
Proof.
  unfold Lifecycle.__init__, Lifecycle.pop_default. intros H.
  destruct (is_none version) eqn:Hv.
  - remember (filter (fun kv => negb (key_eqb (KStr "version") (fst kv))) oa)
      as oa' eqn:Hoa.
    assert (Hnone : dict_get (KStr "version") oa' = None)
      by (subst oa'; apply dict_get_filter_out).
    assert (Hkeep : forall k, key_eqb k (KStr "version") = false ->
                              dict_get k oa' = dict_get k oa)
      by (intros k Hk; subst oa'; now apply dict_get_filter_other).
    clear Hoa. cbn [bind fst snd get_default] in H.
    rewrite (Hkeep (KStr "verify_ssl") eq_refl) in H.
    destruct (dict_get (KStr "verify_ssl") oa) as [vs |];
      cbn [bind] in H; injection H as <-;
      cbn [Lifecycle.version Lifecycle.optional_args Lifecycle.base_url
           Lifecycle.verify_ssl];
      (split; [discriminate |]); (split; [| split; reflexivity]);
      intros _; (split; [reflexivity |]); exists oa'; auto.
  - cbn [bind fst snd get_default] in H.
    destruct (dict_get (KStr "verify_ssl") oa) as [vs |];
      cbn [bind] in H; injection H as <-;
      cbn [Lifecycle.version Lifecycle.optional_args Lifecycle.base_url
           Lifecycle.verify_ssl];
      (split; [intros _; split; reflexivity |]);
      (split; [discriminate | split; reflexivity]).
Qed.

Lemma init_version_resolution_witness :
  exists d,
    Lifecycle.__init__ (fun _ => "?") "switch" "admin" "secret" VNone (VInt 60)
      (VDict [ (KStr "version", VStr "10.09"); (KStr "verify_ssl", VBool false) ])
    = Ok d /\
    Lifecycle.base_url d = "https://switch/rest/v10.09/" /\
    Lifecycle.optional_args d = VDict [ (KStr "verify_ssl", VBool false) ].
Proof.
  eexists. split; [reflexivity |].
  destruct (init_version_resolution (fun _ => "?") "switch" "admin" "secret"
              VNone (VInt 60)
              [ (KStr "version", VStr "10.09"); (KStr "verify_ssl", VBool false) ]
              _ eq_refl) as [_ [_ [Hurl _]]].
  split; [exact Hurl | reflexivity].
Defined.

Lemma run_app (d : Lifecycle.driver) (xs ys : list (Lifecycle.call * Lifecycle.Sdk)) :
  Lifecycle.run d (xs ++ ys) = Lifecycle.run (Lifecycle.run d xs) ys.
Proof.
  revert d. induction xs as [| [c sdk] xs IH]; intros d; [reflexivity |].
  simpl. apply IH.
Qed.

Lemma init_fresh (str_other : val -> string) (hostname username password : string)
  (version timeout optional_args : val) (d : Lifecycle.driver) :
  Lifecycle.__init__ str_other hostname username password version timeout
    optional_args = Ok d ->
  Lifecycle.session d = None /\ Lifecycle.isAlive d = false /\
  Lifecycle.session_info d = None.
Proof.
  unfold Lifecycle.__init__. intros H.
  bind_inv H. bind_inv H. injection H as <-. repeat split.
Qed.

Lemma step_invariant (sdk : Lifecycle.Sdk) (d0 d : Lifecycle.driver)
  (c : Lifecycle.call) :
  driver_invariant d0 d -> driver_invariant d0 (Lifecycle.step sdk d c).
Proof.
  intros Hinv. pose proof Hinv as [Hu [Hh [Hv [Hs Ha]]]]. destruct c; simpl.
  - unfold Lifecycle.open. cbn [Lifecycle.set_session Lifecycle.username
      Lifecycle.password].
    rewrite Hh, Hv.
    destruct (Lifecycle.session_open sdk _ _ _) as [[msg | msg | e] |];
      cbn [fst]; unfold driver_invariant;
      cbn [Lifecycle.set_session Lifecycle.set_isAlive Lifecycle.set_session_info
           Lifecycle.base_url Lifecycle.hostname Lifecycle.version
           Lifecycle.session Lifecycle.isAlive Lifecycle.session_info];
      rewrite ?Hu;
      (split; [reflexivity |]); (split; [exact Hh |]); (split; [exact Hv |]);
      (split; [intros sess Hsess; now injection Hsess as <- |]);
      intros Hal; (split; [discriminate |]);
      try reflexivity; destruct (Ha Hal) as [_ Hi]; exact Hi.
  - unfold Lifecycle.close.
    destruct (Lifecycle.session d) as [sess |] eqn:Hsess; cbn [fst].
    + destruct (Lifecycle.session_logout sdk sess _) as [e |]; cbn [fst].
      * exact Hinv.
      * unfold driver_invariant.
        cbn [Lifecycle.set_isAlive Lifecycle.base_url Lifecycle.hostname
             Lifecycle.version Lifecycle.session Lifecycle.isAlive
             Lifecycle.session_info].
        (split; [exact Hu |]); (split; [exact Hh |]); (split; [exact Hv |]).
        split; [rewrite Hsess; exact Hs | discriminate].
    + exact Hinv.
Qed.

(** X3. From construction on, whatever sequence of [open] and [close]
    calls is made and however the SDK answers each of them: the base URL,
    host and version never change, the session object is the one built
    from them, and a driver that reports itself alive has a session and
    the session information that [get_environment] needs. *)
Theorem driver_invariant_kept (str_other : val -> string)
  (hostname username password : string) (version timeout optional_args : val)
  (d0 : Lifecycle.driver) (calls : list (Lifecycle.call * Lifecycle.Sdk)) :
  Lifecycle.__init__ str_other hostname username password version timeout
    optional_args = Ok d0 ->
  driver_invariant d0 (Lifecycle.run d0 calls).
Proof.
  intros Hinit. destruct (init_fresh _ _ _ _ _ _ _ _ Hinit) as [Hs [Ha Hi]].
  assert (H0 : driver_invariant d0 d0).
  { unfold driver_invariant. rewrite Hs, Ha. repeat split; discriminate. }
  clear Hinit Hs Ha Hi. revert H0. generalize d0 at 2 4 as d.
  induction calls as [| [c sdk] calls IH]; intros d Hd; [exact Hd |].
  simpl. apply IH. now apply step_invariant.
Qed.

(** X4. [close] on a driver that was never opened raises
    [AttributeError] (there is no session object to read [.s] from) and
    leaves the driver as it was, reporting itself not alive. *)
Theorem close_before_open (str_other : val -> string) (sdk : Lifecycle.Sdk)
  (hostname username password : string) (version timeout optional_args : val)
  (d : Lifecycle.driver) :
  Lifecycle.__init__ str_other hostname username password version timeout
    optional_args = Ok d ->
  Lifecycle.close sdk d = (d, Some (Lifecycle.Builtin AttributeError)) /\
  Lifecycle.is_alive d = VDict [ (KStr "is_alive", VBool false) ].
Proof.
  intros Hinit. destruct (init_fresh _ _ _ _ _ _ _ _ Hinit) as [Hs [Ha _]].
  unfold Lifecycle.close, Lifecycle.is_alive. now rewrite Hs, Ha.
Qed.

(** X5. [open] always installs a new session object.  When the SDK
    returns, the driver reports itself alive; when it raises
    [ConnectionError], a [ConnectionException] with the same text is
    raised; any other exception passes through; in both failure cases the
    alive flag is left as it was, so a driver that was alive still
    reports itself alive. *)
Theorem open_outcomes (sdk : Lifecycle.Sdk) (d : Lifecycle.driver) :
  let sess := {| Lifecycle.sess_hostname := Lifecycle.hostname d;
                 Lifecycle.sess_version := Lifecycle.version d |} in
  let d' := fst (Lifecycle.open sdk d) in
  let raised := snd (Lifecycle.open sdk d) in
  Lifecycle.session d' = Some sess /\
  match Lifecycle.session_open sdk sess (Lifecycle.username d)
          (Lifecycle.password d) with
  | None =>
      raised = None /\
      Lifecycle.is_alive d' = VDict [ (KStr "is_alive", VBool true) ]
  | Some e =>
      raised = Some (match e with
                     | Lifecycle.ConnectionError msg =>
                         Lifecycle.ConnectionException msg
                     | _ => e
                     end) /\
      Lifecycle.is_alive d' = Lifecycle.is_alive d
  end.
Proof.
  unfold Lifecycle.open.
  cbn [Lifecycle.set_session Lifecycle.username Lifecycle.password].
  destruct (Lifecycle.session_open sdk _ _ _) as [[msg | msg | e] |];
    cbn [fst snd]; repeat split.
Qed.

Lemma driver_invariant_kept_witness :
  exists d0 d,
    Lifecycle.__init__ (fun _ => "?") "switch" "admin" "secret" VNone (VInt 60)
      example_optional_args = Ok d0 /\
    d = Lifecycle.run d0 [ (Lifecycle.CallOpen, sdk_ok);
                           (Lifecycle.CallOpen, sdk_refused) ] /\
    Lifecycle.isAlive d = true /\
    Lifecycle.base_url d = "https://switch/rest/v10.09/" /\
    Lifecycle.session_info d
    = Some ({| Lifecycle.sess_hostname := "switch";
               Lifecycle.sess_version := VStr "10.09" |},
            "https://switch/rest/v10.09/").
Proof.
  eexists. eexists. split; [reflexivity |]. split; [reflexivity |].
  split; [reflexivity |].
  destruct (driver_invariant_kept (fun _ => "?") "switch" "admin" "secret"
              VNone (VInt 60) example_optional_args _
              [ (Lifecycle.CallOpen, sdk_ok); (Lifecycle.CallOpen, sdk_refused) ]
              eq_refl) as [Hu [_ [_ [_ Ha]]]].
  split; [exact Hu |]. exact (proj2 (Ha eq_refl)).
Defined.

Lemma close_before_open_witness :
  exists d,
    Lifecycle.__init__ (fun _ => "?") "switch" "admin" "secret" (VStr "10.04")
      (VInt 60) (VDict []) = Ok d /\
    Lifecycle.close sdk_ok d = (d, Some (Lifecycle.Builtin AttributeError)).
Proof.
  eexists. split; [reflexivity |].
  exact (proj1 (close_before_open (fun _ => "?") sdk_ok "switch" "admin" "secret"
                  (VStr "10.04") (VInt 60) (VDict []) _ eq_refl)).
Defined.

(** ** get_facts: the record *)

Lemma or_default_intro (src : val) (k : string) (default out : val) (has : bool) :
  contains k src = Ok has ->
  (if negb has then Ok default else getitem src k) = Ok out ->
  or_default src k default out.
Proof.
  intros Hc Ho. destruct has; simpl in Ho.
  - right. auto.
  - left. inversion Ho. auto.
Qed.

Lemma len_nonneg (v : val) (n : Z) : len v = Ok n -> 0 <= n.
Proof.
  destruct v; simpl; intros H; inversion H; unfold Zlen; lia.
Qed.

(** Everything [get_facts] publishes, in terms of what it read. *)
Lemma get_facts_build_inv (s : Session) (sw : Device) (il pi r : val) :
  get_facts_build s sw il pi = Ok r ->
  exists hostname domain_name fqdn build_id serial_number product_name d,
    or_default (mgmt_intf_status sw) "hostname" (VStr "ArubaCX") hostname /\
    or_default (mgmt_intf_status sw) "domain_name" (VStr EmptyString) domain_name /\
    fqdn_rule hostname domain_name fqdn /\
    getitem (software_info sw) "build_id" = Ok build_id /\
    getitem pi "serial_number" = Ok serial_number /\
    getitem pi "product_name" = Ok product_name /\
    il = VDict d /\
    r = VDict [ (KStr "uptime", VInt (time_now s - boot_time sw));
                (KStr "vendor", VStr "Aruba");
                (KStr "os_version", build_id);
                (KStr "serial_number", serial_number);
                (KStr "model", product_name);
                (KStr "hostname", hostname);
                (KStr "fqdn", fqdn);
                (KStr "interface_list", VList (map key_val (dict_keys d))) ].
Proof.
  unfold get_facts_build. intros H.
  bind_inv H. rename a into has_host, E into Hch.
  bind_inv H. rename a into hostname, E into Hh.
  bind_inv H. rename a into has_dom, E into Hcd.
  bind_inv H. rename a into domain_name, E into Hd.
  bind_inv H. rename a into use_dom, E into Hu.
  bind_inv H. rename a into fqdn, E into Hf.
  bind_inv H. rename a into build_id, E into Hb.
  bind_inv H. rename a into serial_number, E into Hs.
  bind_inv H. rename a into product_name, E into Hp.
  bind_inv H. rename a into ks, E into Hk.
  injection H as <-.
  destruct il as [| | | | | | d]; try discriminate. injection Hk as <-.
  exists hostname, domain_name, fqdn, build_id, serial_number, product_name, d.
  split; [eapply or_default_intro; eauto |].
  split; [eapply or_default_intro; eauto |].
  split; [| repeat split; assumption].
  unfold fqdn_rule. destruct (is_none domain_name) eqn:Hn.
  - injection Hu as <-. injection Hf as <-. left. auto.
  - bind_inv Hu. injection Hu as <-. rename a into n.
    destruct (0 <? n) eqn:Hpos.
    + right. split; [unfold is_nonempty; now rewrite E |].
      bind_inv Hf.
      destruct hostname as [| | | | h | |]; try discriminate.
      injection E0 as <-.
      destruct domain_name as [| | | | dn | |]; try discriminate.
      injection Hf as <-. eauto.
    + injection Hf as <-. left. split; [| reflexivity]. right.
      unfold is_empty. rewrite E. apply Z.eqb_eq.
      apply Z.ltb_ge in Hpos. pose proof (len_nonneg _ _ E). lia.
Qed.

Lemma get_facts_inv (s : Session) (sw : Device) (r : val) :
  Device_get s = Ok sw -> get_facts s = Ok r ->
  exists il pi, Interface_get_all s = Ok il /\ get_facts_build s sw il pi = Ok r.
Proof.
  unfold get_facts. intros Hd H. rewrite Hd in H. cbn [bind] in H.
  bind_inv H. bind_inv H. bind_inv H. eauto.
Qed.

(** X6. Whenever [get_facts] returns, the record has exactly the eight
    documented keys; [vendor] is "Aruba", [uptime] is the current time
    minus the boot time (it is not clamped: a boot time in the future
    gives a negative uptime), [os_version] is the build id, and
    [interface_list] is the list of the names [Interface.get_all]
    returned, in its order. *)
Theorem get_facts_record (s : Session) (sw : Device) (r : val) :
  Device_get s = Ok sw ->
  get_facts s = Ok r ->
  exists items d,
    r = VDict items /\
    dict_keys items = fact_keys /\
    dict_get (KStr "vendor") items = Some (VStr "Aruba") /\
    dict_get (KStr "uptime") items = Some (VInt (time_now s - boot_time sw)) /\
    (time_now s < boot_time sw ->
     exists u, dict_get (KStr "uptime") items = Some (VInt u) /\ u < 0) /\
    Interface_get_all s = Ok (VDict d) /\
    dict_get (KStr "interface_list") items
    = Some (VList (map key_val (dict_keys d))) /\
    (exists build_id,
       getitem (software_info sw) "build_id" = Ok build_id /\
       dict_get (KStr "os_version") items = Some build_id).
Proof.
  intros Hd H. destruct (get_facts_inv _ _ _ Hd H) as [il [pi [Hil Hb]]].
  destruct (get_facts_build_inv _ _ _ _ _ Hb)
    as [hn [dn [fq [bid [sn [pn [d [_ [_ [_ [Hbid [_ [_ [-> ->]]]]]]]]]]]]]].
  eexists. exists d. split; [reflexivity |].
  repeat (split; [reflexivity || assumption |]).
  split; [| split; [assumption | split; [reflexivity | eauto]]].
  intros Hlt. eexists. split; [reflexivity | lia].
Qed.

Lemma get_facts_record_witness :
  exists items,
    get_facts example_session = Ok (VDict items) /\
    dict_keys items = fact_keys /\
    dict_get (KStr "uptime") items = Some (VInt (-100)) /\
    dict_get (KStr "interface_list") items = Some (VList [VStr "1/1/1"]).
Proof.
  destruct (get_facts_record example_session example_device _ eq_refl eq_refl)
    as [items [d [Hr [Hk [_ [Hup [_ [Hil [Hl _]]]]]]]]].
  injection Hr as <-. injection Hil as <-.
  eexists. split; [reflexivity |]. split; [exact Hk |].
  split; [exact Hup | exact Hl].
Defined.

(** X7. The host name published by [get_facts] is the management
    interface's [hostname], or "ArubaCX" when it has none; the fully
    qualified name is the host name alone when the domain name is
    absent, [None] or empty, and host name, dot, domain name
    otherwise. *)
Theorem get_facts_hostname_fqdn (s : Session) (sw : Device) (r : val) :
  Device_get s = Ok sw ->
  get_facts s = Ok r ->
  exists hostname domain_name fqdn,
    getitem r "hostname" = Ok hostname /\
    getitem r "fqdn" = Ok fqdn /\
    or_default (mgmt_intf_status sw) "hostname" (VStr "ArubaCX") hostname /\
    or_default (mgmt_intf_status sw) "domain_name" (VStr EmptyString) domain_name /\
    fqdn_rule hostname domain_name fqdn.
Proof.
  intros Hd H. destruct (get_facts_inv _ _ _ Hd H) as [il [pi [Hil Hb]]].
  destruct (get_facts_build_inv _ _ _ _ _ Hb)
    as [hn [dn [fq [bid [sn [pn [d [Hh [Hdn [Hf [_ [_ [_ [_ ->]]]]]]]]]]]]]].
  exists hn, dn, fq. repeat split; assumption || reflexivity.
Qed.

Lemma get_facts_hostname_fqdn_witness :
  exists r,
    get_facts example_domain_session = Ok r /\
    getitem r "hostname" = Ok (VStr "ArubaCX") /\
    getitem r "fqdn" = Ok (VStr "ArubaCX.lab.example").
Proof.
  destruct (get_facts_hostname_fqdn example_domain_session _ _ eq_refl eq_refl)
    as [hn [dn [fq [Hh [Hf [[[_ ->] | [Hc _]] [[[Hc' _] | [_ Hd]] Hrule]]]]]]];
    try discriminate.
  injection Hd as <-.
  destruct Hrule as [[[Hn | Hn] _] | [_ [h [d [Hhn [Hdn ->]]]]]];
    try discriminate.
  injection Hhn as <-. injection Hdn as <-.
  eexists. split; [reflexivity |]. split; [exact Hh | exact Hf].
Defined.

Lemma bind_Ok_l {A B : Type} (a : A) (k : A -> result B) : bind (Ok a) k = k a.
Proof. reflexivity. Qed.

(** [_get_temperature]: the loop over the subsystems. *)
Lemma temperature_sensors_flat (subs acc : list val) :
  Forall (fun sub => is_dict sub = true) subs ->
  foldM (fun acc subsystem =>
           got <- get_default subsystem "temp_sensors" VNone ;;
           let sensors := if truthy got then got else VList [] in
           match sensors with
           | VList l => Ok (acc ++ l)
           | _ => Ok acc
           end)
        subs acc
  = Ok (acc ++ flat_map sensors_of subs).
Proof.
  intros Hall. revert acc.
  induction Hall as [| sub subs Hd _ IH]; intros acc.
  - simpl. now rewrite app_nil_r.
  - destruct sub as [| | | | | | d]; try discriminate.
    cbn [foldM get_default flat_map sensors_of].
    destruct (dict_get (KStr "temp_sensors") d) as [[| b | z | q | t | l | d'] |];
      cbn [bind truthy].
    + rewrite IH, <- ?app_assoc. reflexivity.
    + destruct b; cbn [bind]; rewrite IH, <- ?app_assoc; reflexivity.
    + destruct (negb (z =? 0)); cbn [bind]; rewrite IH, <- ?app_assoc;
        reflexivity.
    + destruct (negb (Qeq_bool q 0)); cbn [bind]; rewrite IH, <- ?app_assoc;
        reflexivity.
    + destruct (negb (String.eqb t EmptyString)); cbn [bind];
        rewrite IH, <- ?app_assoc; reflexivity.
    + destruct l; cbn [bind]; rewrite IH, <- ?app_assoc; reflexivity.
    + destruct d'; cbn [bind]; rewrite IH, <- ?app_assoc; reflexivity.
    + rewrite IH, <- ?app_assoc. reflexivity.
Qed.

(** X9. [_get_temperature] answers a response whose [ok] flag is false
    with the empty list, without reading the body; whenever it returns,
    it returns a list (so [get_environment] always reads its sensors by
    their [location] field); on a body [{"subsystems": [...]}] of dictionaries
    the list is the concatenation, in order, of the [temp_sensors]
    lists, a subsystem whose [temp_sensors] is missing, null or not a
    list contributing nothing. *)
Theorem get_temperature_result (s : Session) (resp : Response) :
  http_get s (base_url s ++ "system/subsystems") = Ok resp ->
  (resp_ok resp = false -> _get_temperature s = Ok (VList [])) /\
  (forall v, _get_temperature s = Ok v -> exists l, v = VList l) /\
  (forall data subs,
     resp_ok resp = true -> json resp = Ok (VDict data) ->
     dict_get (KStr "subsystems") data = Some (VList subs) ->
     Forall (fun sub => is_dict sub = true) subs ->
     _get_temperature s = Ok (VList (flat_map sensors_of subs))).
Proof.
  intros Hh. unfold _get_temperature. rewrite Hh, bind_Ok_l. repeat split.
  - intros ->. reflexivity.
  - intros v H. destruct (resp_ok resp); cbn [negb] in H.
    + bind_inv H. bind_inv H. bind_inv H. bind_inv H. injection H as <-. eauto.
    + injection H as <-. eauto.
  - intros data subs -> Hj Hs Hall. cbn [negb]. rewrite Hj, bind_Ok_l.
    unfold get_default at 1. rewrite Hs, bind_Ok_l. unfold iter at 1.
    pose proof (temperature_sensors_flat subs [] Hall) as Hflat.
    cbv zeta in Hflat. rewrite bind_Ok_l, Hflat. reflexivity.
Qed.

Lemma get_temperature_result_witness :
  _get_temperature example_failing_http_session = Ok (VList []) /\
  exists a b, _get_temperature example_temperature_session = Ok (VList [a; b]) /\
              getitem a "location" = Ok (VStr "1/1-PHY") /\
              getitem b "location" = Ok (VStr "1/1-CPU").
Proof.
  split.
  - exact (proj1 (get_temperature_result example_failing_http_session _ eq_refl)
             eq_refl).
  - destruct (get_temperature_result example_temperature_session _ eq_refl)
      as [_ [_ H]].
    eexists. eexists.
    split; [apply (H _ _ eq_refl eq_refl eq_refl); repeat constructor |].
    split; reflexivity.
Defined.

(** ** get_interfaces_ip *)

Lemma rfind_from_absent (c : ascii) (s : string) (i last : Z) :
  Str.has_char c s = false -> Str.rfind_from c s i last = last.
Proof.
  revert i last. induction s as [| a s IH]; intros i last H; [reflexivity |].
  simpl in H. apply orb_false_iff in H. destruct H as [Ha Hs].
  simpl. rewrite Ha. now apply IH.
Qed.

Lemma rfind_from_last (c : ascii) (a b : string) (i last : Z) :
  Str.has_char c b = false ->
  Str.rfind_from c (a ++ String c b) i last = i + Z.of_nat (String.length a).
Proof.
  intros Hb. revert i last.
  induction a as [| x a IH]; intros i last.
  - simpl. rewrite Ascii.eqb_refl, (rfind_from_absent _ _ _ _ Hb). lia.
  - simpl String.append. simpl Str.rfind_from. rewrite IH.
    simpl String.length. lia.
Qed.

Lemma string_length_append (a b : string) :
  String.length (a ++ b) = (String.length a + String.length b)%nat.
Proof. induction a as [| x a IH]; simpl; [reflexivity | now rewrite IH]. Qed.

Lemma substring_prefix (a s : string) :
  String.substring 0 (String.length a) (a ++ s) = a.
Proof.
  induction a as [| x a IH]; simpl.
  - destruct s; reflexivity.
  - now rewrite IH.
Qed.

Lemma substring_all (s : string) : String.substring 0 (String.length s) s = s.
Proof. induction s as [| x s IH]; simpl; [reflexivity | now rewrite IH]. Qed.

Lemma substring_skip (a s : string) (m : nat) :
  String.substring (String.length a) m (a ++ s) = String.substring 0 m s.
Proof. induction a as [| x a IH]; simpl; [reflexivity | exact IH]. Qed.

Lemma slice_to_last (c : ascii) (a b : string) :
  Str.slice_to (a ++ String c b) (Z.of_nat (String.length a)) = a.
Proof.
  unfold Str.slice_to, Str.clamp. rewrite string_length_append.
  simpl String.length.
  replace (Z.of_nat (String.length a) <? 0) with false
    by (symmetry; apply Z.ltb_ge; lia).
  rewrite Z.min_r, Z.max_r, Nat2Z.id by lia.
  apply substring_prefix.
Qed.

Lemma slice_from_last (c : ascii) (a b : string) :
  Str.slice_from (a ++ String c b) (Z.of_nat (String.length a) + 1) = b.
Proof.
  unfold Str.slice_from, Str.clamp. rewrite string_length_append.
  simpl String.length.
  replace (Z.of_nat (String.length a) + 1 <? 0) with false
    by (symmetry; apply Z.ltb_ge; lia).
  replace (Z.of_nat (String.length a) + 1) with (Z.of_nat (S (String.length a)))
    by lia.
  rewrite Z.min_r, Z.max_r, Nat2Z.id by lia.
  replace (String.length a + S (String.length b) - S (String.length a))%nat
    with (String.length b) by lia.
  change (S (String.length a)) with (String.length (String c a)).
  transitivity (String.substring (String.length (a ++ String c EmptyString))
                  (String.length b) ((a ++ String c EmptyString) ++ b)).
  - f_equal.
    + rewrite string_length_append. simpl. lia.
    + clear. induction a as [| x a IH]; simpl; [reflexivity | now rewrite IH].
  - rewrite substring_skip. apply substring_all.
Qed.

(** X10. An address is split at its last '/': whatever stands before it
    is the key, and what follows is parsed as the prefix length, so
    "10.0.0.1/24" gives "10.0.0.1" with prefix length 24; a suffix that
    is not a numeral makes [int] raise [ValueError].  The suffix is taken
    ASCII and of at most 4300 characters, the numerals that every
    interpreter reads alike. *)
Theorem cidr_item_splits_at_last_slash (a p : string) :
  Str.has_char "/" p = false ->
  Str.is_ascii p = true ->
  (String.length p <= 4300)%nat ->
  cidr_item (VStr (a ++ "/" ++ p))
  = (n <- Str.int_of_string p ;;
     Ok (KStr a, VDict [ (KStr "prefix_length", VInt n) ])).
Proof.
  intros Hp _ _. unfold cidr_item, Str.rfind.
  change ("/" ++ p)%string with (String "/" p).
  rewrite (rfind_from_last _ a p 0 (-1) Hp). rewrite Z.add_0_l.
  rewrite slice_to_last, slice_from_last. reflexivity.
Qed.

Lemma cidr_item_splits_at_last_slash_witness :
  cidr_item (VStr "10.0.0.1/24")
  = Ok (KStr "10.0.0.1", VDict [ (KStr "prefix_length", VInt 24) ]) /\
  cidr_item (VStr "fe80::1/64%vlan1") = Raise ValueError.
Proof.
  split.
  - apply (cidr_item_splits_at_last_slash "10.0.0.1" "24" eq_refl eq_refl).
    simpl. lia.
  - apply (cidr_item_splits_at_last_slash "fe80::1" "64%vlan1" eq_refl eq_refl).
    simpl. lia.
Defined.

(** X11. An address without any '/' is not rejected as such: [rfind]
    gives -1, so the whole string is parsed as the prefix length and the
    key is the string without its last character.  The address is taken
    ASCII and of at most 4300 characters, the numerals that every
    interpreter reads alike. *)
Theorem cidr_item_without_slash (a : string) :
  Str.has_char "/" a = false ->
  Str.is_ascii a = true ->
  (String.length a <= 4300)%nat ->
  cidr_item (VStr a)
  = (n <- Str.int_of_string a ;;
     Ok (KStr (String.substring 0 (String.length a - 1) a),
         VDict [ (KStr "prefix_length", VInt n) ])).
Proof.
  intros Ha _ _. unfold cidr_item, Str.rfind.
  rewrite (rfind_from_absent _ _ _ _ Ha).
  assert (Hfrom : Str.slice_from a (-1 + 1) = a).
  { unfold Str.slice_from, Str.clamp. change (-1 + 1 <? 0) with false.
    change (-1 + 1) with 0. cbv iota.
    rewrite Z.min_r, Z.max_l by lia. change (Z.to_nat 0) with 0%nat.
    rewrite Nat.sub_0_r. apply substring_all. }
  assert (Hto : Str.slice_to a (-1)
                = String.substring 0 (String.length a - 1) a).
  { unfold Str.slice_to, Str.clamp. change (-1 <? 0) with true. cbv iota.
    f_equal. lia. }
  rewrite Hfrom, Hto. reflexivity.
Qed.

Lemma cidr_item_without_slash_witness :
  cidr_item (VStr "24")
  = Ok (KStr "2", VDict [ (KStr "prefix_length", VInt 24) ]) /\
  cidr_item (VStr "10.0.0.1") = Raise ValueError.
Proof.
  split.
  - apply (cidr_item_without_slash "24" eq_refl eq_refl). simpl. lia.
  - apply (cidr_item_without_slash "10.0.0.1" eq_refl eq_refl). simpl. lia.
Defined.

Lemma cidr_item_shape (v : val) (k : key) (x : val) :
  cidr_item v = Ok (k, x) ->
  exists astr n, k = KStr astr /\ x = VDict [ (KStr "prefix_length", VInt n) ].
Proof.
  unfold cidr_item. destruct v as [| | | | a | |]; try discriminate.
  intros H. bind_inv H. injection H as <- <-.
  eexists. eexists. split; reflexivity.
Qed.

Lemma dict_set_In_key {V : Type} (k : key) (v : V) (d : dict V) (k1 : key) :
  In k1 (dict_keys (dict_set k v d)) -> k1 = k \/ In k1 (dict_keys d).
Proof.
  unfold dict_keys. induction d as [| [k0 v0] d IH]; simpl.
  - intros [<- | []]. now left.
  - destruct (key_eqb k k0); simpl; [tauto |].
    intros [<- | H]; [tauto |]. destruct (IH H); tauto.
Qed.

Lemma In_dict_keys {V : Type} (k : key) (v : V) (d : dict V) :
  In (k, v) d -> In k (dict_keys d).
Proof. intros H. unfold dict_keys. now apply (in_map fst) in H. Qed.

Lemma address_map_nil : address_map [].
Proof. intros a pl []. Qed.

Lemma address_map_set (addrs : dict val) (v : val) (k : key) (x : val) :
  address_map addrs -> cidr_item v = Ok (k, x) ->
  address_map (dict_set k x addrs).
Proof.
  intros Hm Hc a pl Hin. apply dict_set_In in Hin.
  destruct (cidr_item_shape _ _ _ Hc) as [astr [n [-> ->]]].
  destruct Hin as [[Hk ->] | Hin]; [| now apply Hm].
  apply key_eqb_str in Hk. subst a. eauto.
Qed.

Lemma Zlen_pos_nonnil {A : Type} (l : list A) : (0 <? Zlen l) = true -> l <> [].
Proof. destruct l; [discriminate | discriminate]. Qed.

(** The entry built for one interface is empty or well formed. *)
Lemma interface_ip_shape (s : Session) (name : key) (details : val) (l : dict val) :
  interface_ip s name details = Ok l -> l = [] \/ ip_entry (VDict l).
Proof.
  unfold interface_ip. intros H.
  bind_inv H. bind_inv H. bind_inv H. rename a1 into use4.
  bind_inv H. rename a1 into ip4, E2 into H4.
  bind_inv H. rename a1 into ip6a, E2 into H6a.
  bind_inv H. rename a1 into ip6, E2 into H6.
  injection H as <-.
  assert (M4 : address_map ip4).
  { destruct use4.
    - bind_inv H4. bind_inv H4. destruct a2 as [k x]. injection H4 as <-.
      apply (address_map_set [] _ _ _ address_map_nil E3).
    - injection H4 as <-. apply address_map_nil. }
  assert (M6a : address_map ip6a).
  { eapply (foldM_invariant address_map); [| apply address_map_nil | exact H6a].
    intros acc key acc' _ Hacc Hb.
    bind_inv Hb. bind_inv Hb. destruct a2; [| now injection Hb as <-].
    bind_inv Hb. bind_inv Hb.
    eapply (foldM_invariant address_map); [| exact Hacc | exact Hb].
    intros acc0 address acc0' _ Hacc0 Hb0.
    bind_inv Hb0. destruct a4 as [k x]. injection Hb0 as <-.
    eapply address_map_set; eauto. }
  assert (M6 : address_map ip6).
  { destruct (ip6_addresses a) as [objs |]; [| now injection H6 as <-].
    destruct (0 <? Zlen objs); [| now injection H6 as <-].
    eapply (foldM_invariant address_map); [| exact M6a | exact H6].
    intros acc0 address acc0' _ Hacc0 Hb0.
    bind_inv Hb0. destruct a1 as [k x]. injection Hb0 as <-.
    eapply address_map_set; eauto. }
  destruct (0 <? Zlen ip4) eqn:P4; destruct (0 <? Zlen ip6) eqn:P6.
  - right. eexists. split; [reflexivity |]. split; [discriminate |].
    intros k x [Hx | [Hx | []]]; injection Hx as <- <-.
    + split; [now left |]. exists ip4. auto using Zlen_pos_nonnil.
    + split; [now right |]. exists ip6. auto using Zlen_pos_nonnil.
  - right. eexists. split; [reflexivity |]. split; [discriminate |].
    intros k x [Hx | []]; injection Hx as <- <-.
    split; [now left |]. exists ip4. auto using Zlen_pos_nonnil.
  - right. eexists. split; [reflexivity |]. split; [discriminate |].
    intros k x [Hx | []]; injection Hx as <- <-.
    split; [now right |]. exists ip6. auto using Zlen_pos_nonnil.
  - now left.
Qed.

(** X12. [get_interfaces_ip] lists only interfaces that have an address:
    every entry of the result belongs to an interface of
    [Interface.get_facts], has no key other than [ipv4] and [ipv6], and
    each of these is a non-empty map from bare addresses to
    [{'prefix_length': n}]. *)
Theorem get_interfaces_ip_entries (s : Session) (r : dict val) (name : key)
  (v : val) :
  get_interfaces_ip s = Ok (VDict r) ->
  In (name, v) r ->
  ip_entry v /\
  exists il, Interface_get_facts s = Ok (VDict il) /\ In name (dict_keys il).
Proof.
  unfold get_interfaces_ip. intros H Hin.
  bind_inv H. rename a into il. bind_inv H. rename a into its.
  bind_inv H. injection H as ->.
  destruct il as [| | | | | | d]; try discriminate. injection E0 as <-.
  assert (Hall : (forall name v, In (name, v) r -> ip_entry v) /\
                 (forall name, In name (dict_keys r) -> In name (dict_keys d))).
  { eapply (foldM_invariant
              (fun acc => (forall name v, In (name, v) acc -> ip_entry v) /\
                          (forall name, In name (dict_keys acc) ->
                                        In name (dict_keys d))));
      [| | exact E1].
    - intros acc [nm details] acc' Hx [IH1 IH2] Hb.
      unfold interfaces_ip_step in Hb. bind_inv Hb.
      rename a into l, E0 into Hip.
      destruct (0 <? Zlen l) eqn:Hl; injection Hb as <-; [| now split].
      split.
      + intros name0 v0 Hin0. apply dict_set_In in Hin0.
        destruct Hin0 as [[Hk ->] | Hin0]; [| now apply (IH1 name0)].
        destruct (interface_ip_shape _ _ _ _ Hip) as [-> | He];
          [discriminate | exact He].
      + intros name0 Hin0. apply dict_set_In_key in Hin0.
        destruct Hin0 as [-> | Hin0]; [| now apply IH2].
        now apply In_dict_keys in Hx.
    - split; [intros ? ? [] | intros ? []]. }
  destruct Hall as [H1 H2]. split; [now apply (H1 name) |].
  exists d. split; [exact E |]. apply H2. now apply In_dict_keys in Hin.
Qed.

Lemma get_interfaces_ip_entries_witness :
  exists r,
    get_interfaces_ip example_ip_session = Ok (VDict r) /\
    dict_keys r = [KStr "1/1/1"; KStr "loopback0"] /\
    (forall name v, In (name, v) r -> ip_entry v) /\
    dict_get (KStr "1/1/1") r
    = Some (VDict [ (KStr "ipv4",
                     VDict [ (KStr "10.0.0.1",
                              VDict [ (KStr "prefix_length", VInt 24) ]) ]);
                    (KStr "ipv6",
                     VDict [ (KStr "2001:db8::1",
                              VDict [ (KStr "prefix_length", VInt 64) ]) ]) ]).
Proof.
  eexists. split; [reflexivity |]. split; [reflexivity |].
  split; [| reflexivity].
  intros name v Hin.
  exact (proj1 (get_interfaces_ip_entries example_ip_session _ name v
                  eq_refl Hin)).
Defined.

(** ** LLDP neighbours *)

(** What each iteration establishes, and no later one destroys, holds of
    the result for every element. *)
Lemma foldM_each {A S : Type} (Q : A -> S -> Prop) (body : S -> A -> result S)
  (xs : list A) :
  (forall acc x acc', body acc x = Ok acc' -> Q x acc') ->
  (forall acc x acc' y, Q y acc -> body acc x = Ok acc' -> Q y acc') ->
  forall acc r, foldM body xs acc = Ok r -> forall x, In x xs -> Q x r.
Proof.
  intros Hnew Hkeep. induction xs as [| x0 xs IH]; intros acc r H x Hin.
  - destruct Hin.
  - simpl in H. bind_inv H. destruct Hin as [<- | Hin].
    + eapply (foldM_invariant (Q x0)); [| | exact H].
      * intros a0 y a0' _ Hq Hb. eapply Hkeep; eauto.
      * eapply Hnew; eauto.
    + eapply IH; eauto.
Qed.

Lemma dict_get_In {V : Type} (k : key) (d : dict V) (v : V) :
  dict_get k d = Some v -> exists k', In (k', v) d.
Proof.
  induction d as [| [k0 v0] d IH]; simpl; [discriminate |].
  destruct (key_eqb k k0).
  - intros H. injection H as <-. eauto.
  - intros H. destruct (IH H) as [k' Hk']. eauto.
Qed.

Lemma brief_list_append (lst lst' e : val) :
  brief_list lst -> brief_entry e -> append lst e = Ok lst' -> brief_list lst'.
Proof.
  intros [entries [-> Hall]] He H. simpl in H. injection H as <-.
  exists (entries ++ [e]). split; [reflexivity |].
  apply Forall_app. split; [exact Hall | now constructor].
Qed.

(** The inner loop of [get_lldp_neighbors] keeps the keys and the shape. *)
Lemma lldp_brief_inner (interface_details : val) (interface_name : key)
  (neighbors : list val) (acc r : dict val) :
  foldM (fun acc neighbor =>
           nbr <- subscript interface_details neighbor ;;
           ni <- getitem nbr "neighbor_info" ;;
           hostname <- getitem ni "chassis_name" ;;
           nbr' <- subscript interface_details neighbor ;;
           port <- getitem nbr' "port_id" ;;
           let entry := VDict (dict_of [ (KStr "hostname", hostname);
                                         (KStr "port", port) ]) in
           match dict_get interface_name acc with
           | Some lst => lst' <- append lst entry ;;
                         Ok (dict_set interface_name lst' acc)
           | None => Raise KeyError
           end)
        neighbors acc = Ok r ->
  ((forall k v, In (k, v) acc -> brief_list v) ->
   forall k v, In (k, v) r -> brief_list v) /\
  (forall k, dict_has k acc = true -> dict_has k r = true) /\
  (forall k, In k (dict_keys r) -> k = interface_name \/ In k (dict_keys acc)).
Proof.
  intros H. repeat split.
  - intros Hacc.
    eapply (foldM_invariant (fun a => forall k v, In (k, v) a -> brief_list v));
      [| exact Hacc | exact H].
    intros a x a' _ IH Hb k v Hin.
    bind_inv Hb. bind_inv Hb. bind_inv Hb. bind_inv Hb. bind_inv Hb.
    destruct (dict_get interface_name a) as [lst |] eqn:Hg; [| discriminate].
    bind_inv Hb. injection Hb as <-.
    apply dict_set_In in Hin. destruct Hin as [[_ ->] | Hin]; [| eauto].
    eapply brief_list_append; [| | exact E4].
    + destruct (dict_get_In _ _ _ Hg) as [k0 Hk0]. exact (IH k0 lst Hk0).
    + eexists. eexists. reflexivity.
  - intros k Hk0.
    eapply (foldM_invariant (fun a => dict_has k a = true));
      [| exact Hk0 | exact H].
    intros a x a' _ IH Hb.
    bind_inv Hb. bind_inv Hb. bind_inv Hb. bind_inv Hb. bind_inv Hb.
    destruct (dict_get interface_name a) as [lst |]; [| discriminate].
    bind_inv Hb. injection Hb as <-. now apply dict_has_set.
  - intros k Hk. revert k Hk.
    eapply (foldM_invariant
              (fun a => forall k, In k (dict_keys a) ->
                 k = interface_name \/ In k (dict_keys acc))); [| | exact H].
    + intros a x a' _ IH Hb k Hk.
      bind_inv Hb. bind_inv Hb. bind_inv Hb. bind_inv Hb. bind_inv Hb.
      destruct (dict_get interface_name a) as [lst |]; [| discriminate].
      bind_inv Hb. injection Hb as <-.
      apply dict_set_In_key in Hk. destruct Hk as [-> | Hk]; auto.
    + auto.
Qed.

Lemma In_key_val_str (d : dict val) (x : val) :
  forallb (fun kv => is_str_key (fst kv)) d = true ->
  In x (map key_val (dict_keys d)) ->
  exists k, In k (dict_keys d) /\ x = key_val k /\ to_key x = Ok k.
Proof.
  intros Hs Hin. apply in_map_iff in Hin. destruct Hin as [k [<- Hk]].
  exists k. repeat split; [exact Hk |].
  apply to_key_key_val_str.
  unfold dict_keys in Hk. apply in_map_iff in Hk. destruct Hk as [[k' v] [<- Hkv]].
  rewrite forallb_forall in Hs. exact (Hs _ Hkv).
Qed.

(** X13. [get_lldp_neighbors] keys its result by the interface names
    exactly as the SDK returned them (they are not URL-decoded, unlike
    in [get_lldp_neighbors_detail]): the result has the same keys as the
    input, an interface without neighbours included, and every value is
    a list of records with the two keys [hostname] and [port]. *)
Theorem get_lldp_neighbors_keys (s : Session) (d r : dict val) :
  LLDPNeighbor_get_facts s = Ok (VDict d) ->
  forallb (fun kv => is_str_key (fst kv)) d = true ->
  get_lldp_neighbors s = Ok (VDict r) ->
  (forall k v, In (k, v) r -> brief_list v) /\
  (forall k, In k (dict_keys d) -> dict_has k r = true) /\
  (forall k, In k (dict_keys r) -> In k (dict_keys d)).
Proof.
  intros Hf Hs H. unfold get_lldp_neighbors in H. rewrite Hf in H.
  cbn [bind] in H. unfold lldp_brief_of in H.
  bind_inv H. injection E as <-. bind_inv H. injection H as ->.
  rename E into H.
  split; [| split].
  - eapply (foldM_invariant (fun a => forall k v, In (k, v) a -> brief_list v));
      [| | exact H]; [| intros ? ? []].
    intros acc uri acc' _ IH Hb.
    bind_inv Hb. bind_inv Hb. bind_inv Hb.
    apply (proj1 (lldp_brief_inner _ _ _ _ _ Hb)).
    intros k v Hin. destruct (dict_has a0 acc); [eauto |].
    apply dict_set_In in Hin. destruct Hin as [[_ ->] | Hin]; [| eauto].
    exists []. split; [reflexivity | constructor].
  - intros k Hk.
    assert (Hin : In (key_val k) (map key_val (dict_keys d)))
      by now apply in_map.
    destruct (In_key_val_str _ _ Hs Hin) as [k' [_ [Hkv Hto]]].
    pose proof (foldM_each
                  (fun (uri : val) (acc : dict val) =>
                     forall k, to_key uri = Ok k -> dict_has k acc = true))
      as Each.
    refine (Each _ _ _ _ _ _ H _ Hin k _).
    + intros acc uri acc' Hb k0 Hk0.
      bind_inv Hb. bind_inv Hb. bind_inv Hb.
      rewrite Hk0 in E0. injection E0 as <-.
      apply (proj1 (proj2 (lldp_brief_inner _ _ _ _ _ Hb))).
      destruct (dict_has k0 acc) eqn:Hh; [exact Hh |].
      unfold dict_has. now rewrite dict_get_set_same.
    + intros acc uri acc' y Hq Hb k0 Hk0.
      bind_inv Hb. bind_inv Hb. bind_inv Hb.
      apply (proj1 (proj2 (lldp_brief_inner _ _ _ _ _ Hb))).
      destruct (dict_has a0 acc); [now apply Hq |].
      apply dict_has_set. now apply Hq.
    + assert (k' = k) by (destruct k, k'; simpl in Hkv; congruence).
      subst k'. exact Hto.
  - eapply (foldM_invariant
              (fun a => forall k, In k (dict_keys a) -> In k (dict_keys d)));
      [| | exact H]; [| intros ? []].
    intros acc uri acc' Hx IH Hb k Hk.
    bind_inv Hb. bind_inv Hb. bind_inv Hb.
    destruct (In_key_val_str _ _ Hs Hx) as [k0 [Hk0 [_ Hto]]].
    rewrite Hto in E0. injection E0 as <-.
    destruct (proj2 (proj2 (lldp_brief_inner _ _ _ _ _ Hb)) k Hk) as [-> | Hk'];
      [exact Hk0 |].
    destruct (dict_has k0 acc); [now apply IH |].
    apply dict_set_In_key in Hk'. destruct Hk' as [-> | Hk']; auto.
Qed.

Lemma get_lldp_neighbors_keys_witness :
  exists r,
    get_lldp_neighbors (with_lldp (unreachable "timeout") (Ok example_lldp_brief))
    = Ok (VDict r) /\
    dict_has (KStr "1%2F1%2F1") r = true /\
    dict_has (KStr "1/1/1") r = false /\
    dict_get (KStr "1%2F1%2F2") r = Some (VList []).
Proof.
  destruct (get_lldp_neighbors_keys
              (with_lldp (unreachable "timeout") (Ok example_lldp_brief))
              _ _ eq_refl eq_refl eq_refl) as [_ [Hhas _]].
  eexists. split; [reflexivity |].
  split; [apply Hhas; left; reflexivity |].
  split; reflexivity.
Defined.

Lemma string_append_assoc (a b c : string) :
  ((a ++ b) ++ c = a ++ (b ++ c))%string.
Proof. induction a as [| x a IH]; simpl; [reflexivity | now rewrite IH]. Qed.

Lemma string_append_nil_r (a : string) : (a ++ EmptyString)%string = a.
Proof. induction a as [| x a IH]; simpl; [reflexivity | now rewrite IH]. Qed.

Lemma join_lower_strings (lower : string -> string) (l : list string) :
  join_lower lower (VList (map VStr l)) = Ok (lower_concat lower l).
Proof.
  unfold join_lower. cbn [iter bind].
  enough (H : forall acc,
            foldM (fun acc x => match x with
                                | VStr c => Ok (acc ++ lower c)%string
                                | _ => Raise AttributeError
                                end) (map VStr l) acc
            = Ok (acc ++ lower_concat lower l)%string) by apply H.
  induction l as [| c l IH]; intros acc; simpl.
  - now rewrite string_append_nil_r.
  - rewrite IH, string_append_assoc. reflexivity.
Qed.

Lemma strings_of_map (l : list val) :
  forallb (fun x => match x with VStr _ => true | _ => false end) l = true ->
  l = map VStr (map (fun x => match x with VStr c => c | _ => EmptyString end) l).
Proof.
  induction l as [| x l IH]; simpl; [reflexivity |].
  intros H. apply andb_true_iff in H. destruct H as [Hx Hl].
  destruct x; try discriminate. simpl. f_equal. now apply IH.
Qed.

Lemma capabilities_of_join (lower : string -> string) (ni : dict val)
  (k : string) (caps : list string) :
  capabilities_of ni k = Some caps ->
  exists v, get_default (VDict ni) k (VList []) = Ok v /\
            join_lower lower v = Ok (lower_concat lower caps).
Proof.
  unfold capabilities_of. simpl get_default.
  destruct (dict_get (KStr k) ni) as [[| | | | | l |] |]; try discriminate.
  - destruct (forallb _ l) eqn:Hall; [| discriminate].
    intros H. injection H as <-. exists (VList l). split; [reflexivity |].
    rewrite (strings_of_map l Hall) at 1. apply join_lower_strings.
  - intros H. injection H as <-. exists (VList []). split; reflexivity.
Qed.

Lemma get_default_field (d : dict val) (k : string) :
  get_default (VDict d) k (VStr EmptyString) = Ok (field_or_empty d k).
Proof.
  unfold field_or_empty. simpl. destruct (dict_get (KStr k) d); reflexivity.
Qed.

(** X14. The entry [get_lldp_neighbors_detail] builds for a neighbour
    never fails for want of a field: a missing [neighbor_info] counts as
    empty, every missing text field becomes the empty string, and each
    capability field is the concatenation of its lower-cased elements
    (the empty string when the list is missing). *)
Theorem lldp_entry_fields (lower : string -> string) (decoded_intf : string)
  (nbr ni : dict val)
  (available enabled : list string) :
  neighbor_info_of nbr = Some ni ->
  capabilities_of ni "chassis_capability_available" = Some available ->
  capabilities_of ni "chassis_capability_enabled" = Some enabled ->
  lldp_entry lower decoded_intf (VDict nbr)
  = Ok (VDict
      [ (KStr "parent_interface", VStr decoded_intf);
        (KStr "remote_chassis_id", field_or_empty nbr "chassis_id");
        (KStr "remote_system_name", field_or_empty ni "chassis_name");
        (KStr "remote_port", field_or_empty nbr "port_id");
        (KStr "remote_port_description", field_or_empty ni "port_description");
        (KStr "remote_system_description",
         field_or_empty ni "chassis_description");
        (KStr "remote_system_capab", VStr (lower_concat lower available));
        (KStr "remote_system_enable_capab", VStr (lower_concat lower enabled)) ]).
Proof.
  intros Hni Hav Hen. unfold lldp_entry.
  assert (Hget : get_default (VDict nbr) "neighbor_info" (VDict []) = Ok (VDict ni)).
  { unfold neighbor_info_of in Hni. simpl.
    destruct (dict_get (KStr "neighbor_info") nbr) as [[| | | | | | ni'] |];
      try discriminate; now injection Hni as <-. }
  rewrite Hget, bind_Ok_l.
  destruct (capabilities_of_join lower _ _ _ Hav) as [va [Hva Hja]].
  destruct (capabilities_of_join lower _ _ _ Hen) as [ve [Hve Hje]].
  rewrite Hva, bind_Ok_l, Hja, bind_Ok_l, Hve, bind_Ok_l, Hje, bind_Ok_l.
  rewrite !get_default_field, !bind_Ok_l. reflexivity.
Qed.

Lemma lldp_entry_fields_witness :
  lldp_entry Str.lower_ascii "1/1/1" (VDict [ (KStr "port_id", VStr "1/1/24") ])
  = Ok (VDict
      [ (KStr "parent_interface", VStr "1/1/1");
        (KStr "remote_chassis_id", VStr EmptyString);
        (KStr "remote_system_name", VStr EmptyString);
        (KStr "remote_port", VStr "1/1/24");
        (KStr "remote_port_description", VStr EmptyString);
        (KStr "remote_system_description", VStr EmptyString);
        (KStr "remote_system_capab", VStr EmptyString);
        (KStr "remote_system_enable_capab", VStr EmptyString) ]) /\
  exists e,
    lldp_entry Str.lower_ascii "1/1/1"
      (VDict [ (KStr "neighbor_info",
                VDict [ (KStr "chassis_capability_available",
                         VList [VStr "Bridge"; VStr "Router"]) ]) ]) = Ok e /\
    getitem e "remote_system_capab" = Ok (VStr "bridgerouter").
Proof.
  split.
  - exact (lldp_entry_fields Str.lower_ascii "1/1/1" [ (KStr "port_id", VStr "1/1/24") ] []
             [] [] eq_refl eq_refl eq_refl).
  - eexists. split.
    + exact (lldp_entry_fields Str.lower_ascii "1/1/1"
               [ (KStr "neighbor_info",
                  VDict [ (KStr "chassis_capability_available",
                           VList [VStr "Bridge"; VStr "Router"]) ]) ]
               [ (KStr "chassis_capability_available",
                  VList [VStr "Bridge"; VStr "Router"]) ]
               ["Bridge"; "Router"] [] eq_refl eq_refl eq_refl).
    + reflexivity.
Defined.

Section LldpDetailAll.
Variables unquote slugify lower : string -> string.



End LldpDetailAll.


(** ** get_config *)

Lemma existsb_eqb_In (x : string) (l : list string) :
  existsb (String.eqb x) l = true <-> In x l.
Proof.
  rewrite existsb_exists. split.
  - intros [y [Hy He]]. apply String.eqb_eq in He. now subst.
  - intros H. exists x. split; [exact H | apply String.eqb_refl].
Qed.

(** X16. [get_config] rejects an unknown [retrieve] with [ValueError]
    and answers [retrieve="candidate"] with three empty strings; in
    both cases the switch is not contacted, so this holds on every
    session, reachable or not. *)
Theorem get_config_without_fetch (s : Session) (retrieve : string) :
  (~ In retrieve retrieve_options -> get_config s retrieve = Raise ValueError) /\
  get_config s "candidate"
  = Ok (VDict [ (KStr "running", VStr EmptyString);
                (KStr "startup", VStr EmptyString);
                (KStr "candidate", VStr EmptyString) ]).
Proof.
  split; [| reflexivity].
  intros Hn. unfold get_config.
  destruct (existsb (String.eqb retrieve) ["running"; "startup"; "candidate"; "all"])
    eqn:E; [| reflexivity].
  apply existsb_eqb_In in E. contradiction.
Qed.

Lemma get_config_without_fetch_witness :
  get_config (unreachable "timeout") "merge" = Raise ValueError /\
  is_ok (get_config (unreachable "timeout") "candidate") = true.
Proof.
  destruct (get_config_without_fetch (unreachable "timeout") "merge") as [H1 H2].
  split.
  - apply H1. unfold retrieve_options. simpl.
    intros H. repeat (destruct H as [H | H]; [discriminate |]). exact H.
  - now rewrite H2.
Defined.

Lemma fetch_config_inv (s : Session) (path label body : string) :
  fetch_config s path label = Ok body ->
  exists resp, http_get s (base_url s ++ path) = Ok resp /\
               resp_ok resp = true /\ body = text resp.
Proof.
  unfold fetch_config. intros H. bind_inv H.
  destruct (resp_ok a) eqn:Hok; [| discriminate].
  injection H as <-. eauto.
Qed.

(** X17. Whenever [get_config] returns, the result has exactly the keys
    [running], [startup] and [candidate]; [candidate] is the empty
    string; a configuration that was not asked for is the empty string,
    and one that was asked for is the body of a response whose [ok] flag
    is true. *)
Theorem get_config_result (s : Session) (retrieve : string) (r : val) :
  get_config s retrieve = Ok r ->
  In retrieve retrieve_options /\
  exists running startup,
    r = VDict [ (KStr "running", VStr running);
                (KStr "startup", VStr startup);
                (KStr "candidate", VStr EmptyString) ] /\
    (if existsb (String.eqb retrieve) ["running"; "all"]
     then exists resp,
            http_get s (base_url s ++ "configs/running-config") = Ok resp /\
            resp_ok resp = true /\ running = text resp
     else running = EmptyString) /\
    (if existsb (String.eqb retrieve) ["startup"; "all"]
     then exists resp,
            http_get s (base_url s ++ "configs/startup-config") = Ok resp /\
            resp_ok resp = true /\ startup = text resp
     else startup = EmptyString).
Proof.
  unfold get_config. intros H.
  destruct (existsb (String.eqb retrieve) ["running"; "startup"; "candidate"; "all"])
    eqn:E; [| discriminate].
  apply existsb_eqb_In in E. split; [exact E |].
  cbn [negb] in H. bind_inv H. rename a into running, E0 into Hr.
  bind_inv H. rename a into startup, E0 into Hs. injection H as <-.
  exists running, startup. split; [reflexivity |]. split.
  - destruct (existsb (String.eqb retrieve) ["running"; "all"]).
    + now apply fetch_config_inv in Hr.
    + now injection Hr as <-.
  - destruct (existsb (String.eqb retrieve) ["startup"; "all"]).
    + now apply fetch_config_inv in Hs.
    + now injection Hs as <-.
Qed.

Lemma get_config_result_witness :
  get_config example_config_session "running"
  = Ok (VDict [ (KStr "running", VStr "hostname sw1");
                (KStr "startup", VStr EmptyString);
                (KStr "candidate", VStr EmptyString) ]).
Proof.
  destruct (get_config_result example_config_session "running" _ eq_refl)
    as [_ [running [startup [Hr [[resp [Hresp [_ Hrun]]] Hst]]]]].
  simpl in Hst. subst startup. injection Hresp as <-. simpl in Hrun. subst running.
  reflexivity.
Defined.

(** X18. A response whose [ok] flag is false makes [get_config] raise
    [MergeConfigException] with the status and the body in its text,
    whichever configuration was being fetched.  With [retrieve="startup"]
    the running configuration is not asked for; with [retrieve="all"] it
    is fetched first: when that fetch is refused the startup
    configuration is never asked for, and when it succeeds a refused
    startup fetch discards it. *)
Theorem get_config_refused (s : Session) (resp : Response) :
  resp_ok resp = false ->
  (forall retrieve, In retrieve ["running"; "all"] ->
     http_get s (base_url s ++ "configs/running-config") = Ok resp ->
     get_config s retrieve
     = Raise (MergeConfigException
                ("Running-config fetch failed: " ++ status_code resp ++ " "
                 ++ text resp))) /\
  (http_get s (base_url s ++ "configs/startup-config") = Ok resp ->
   get_config s "startup"
   = Raise (MergeConfigException
              ("Startup-config fetch failed: " ++ status_code resp ++ " "
               ++ text resp))) /\
  (forall running,
     http_get s (base_url s ++ "configs/running-config") = Ok running ->
     resp_ok running = true ->
     http_get s (base_url s ++ "configs/startup-config") = Ok resp ->
     get_config s "all"
     = Raise (MergeConfigException
                ("Startup-config fetch failed: " ++ status_code resp ++ " "
                 ++ text resp))).
Proof.
  intros Hno. split; [| split].
  - intros retrieve Hin Hget.
    assert (E : get_config s retrieve
                = (running_config <-
                     fetch_config s "configs/running-config" "Running-config" ;;
                   startup_config <-
                     (if existsb (String.eqb retrieve) ["startup"; "all"]
                      then fetch_config s "configs/startup-config" "Startup-config"
                      else Ok EmptyString) ;;
                   Ok (VDict (dict_of
                     [ (KStr "running", VStr running_config);
                       (KStr "startup", VStr startup_config);
                       (KStr "candidate", VStr EmptyString) ])))).
    { destruct Hin as [<- | [<- | []]]; reflexivity. }
    rewrite E. unfold fetch_config at 1. rewrite Hget, bind_Ok_l, Hno.
    reflexivity.
  - intros Hget. unfold get_config. simpl existsb. cbn [negb].
    rewrite bind_Ok_l. unfold fetch_config. rewrite Hget, bind_Ok_l, Hno.
    reflexivity.
  - intros running Hrun Hok Hget. unfold get_config. simpl existsb. cbn [negb].
    unfold fetch_config. rewrite Hrun, bind_Ok_l, Hok. cbn [negb].
    rewrite bind_Ok_l, Hget, bind_Ok_l, Hno.
    reflexivity.
Qed.

Lemma get_config_refused_witness :
  get_config example_config_session "all"
  = Raise (MergeConfigException "Startup-config fetch failed: 403 Forbidden") /\
  get_config example_config_session "startup"
  = Raise (MergeConfigException "Startup-config fetch failed: 403 Forbidden") /\
  get_config example_refusing_session "running"
  = Raise (MergeConfigException "Running-config fetch failed: 500 Internal error").
Proof.
  destruct (get_config_refused example_config_session
              {| resp_ok := false; status_code := "403"; text := "Forbidden";
                 json := Raise ValueError |} eq_refl) as [_ [Hs Ha]].
  destruct (get_config_refused example_refusing_session
              {| resp_ok := false; status_code := "500";
                 text := "Internal error"; json := Raise ValueError |} eq_refl)
    as [Hr _].
  split; [exact (Ha _ eq_refl eq_refl eq_refl) |].
  split; [exact (Hs eq_refl) |].
  exact (Hr "running" (or_introl eq_refl) eq_refl).
Defined.

(** ** get_vlans: the table *)

Lemma scan_interface_source (il : val) (vj : dict val) (interface : key) :
  scan_interface il vj interface
  = (facts <- subscript il (key_val interface) ;;
     ids <- vlan_source facts ;;
     foldM (add_member (key_val interface)) ids vj).
Proof.
  unfold scan_interface, vlan_source, add_members.
  destruct (subscript il (key_val interface)) as [facts |]; [| reflexivity].
  cbn [bind].
  destruct (membership_key facts) as [key |]; [| reflexivity]. cbn [bind].
  destruct (negb (String.eqb key EmptyString)); [| reflexivity].
  destruct (getitem facts key) as [src |]; [| reflexivity]. cbn [bind].
  destruct (iter src) as [ks |]; [| reflexivity]. cbn [bind].
  destruct (mapM py_int ks); reflexivity.
Qed.

(** What one [vlan_json[id]['interfaces'].append(interface)] does. *)
Lemma add_member_inv (m : val) (vj vj' : dict val) (id : Z) :
  add_member m vj id = Ok vj' ->
  exists rec l,
    dict_get (KInt id) vj = Some (VDict rec) /\
    dict_get (KStr "interfaces") rec = Some (VList l) /\
    vj' = dict_set (KInt id)
            (VDict (dict_set (KStr "interfaces") (VList (l ++ [m])) rec)) vj.
Proof.
  unfold add_member. intros H.
  destruct (dict_get (KInt id) vj) as [recv |] eqn:Hg; [| discriminate].
  bind_inv H. bind_inv H. bind_inv H. injection H as <-.
  destruct recv as [| | | | | | rec]; try discriminate.
  apply getitem_dict in E. destruct a as [| | | | | l |]; try discriminate.
  injection E0 as <-. injection E1 as <-.
  exists rec, l. auto.
Qed.

Lemma members_of_add (m : val) (vj vj' : dict val) (id : Z) :
  add_member m vj id = Ok vj' ->
  In m (members_of vj' id) /\
  (forall id0 x, In x (members_of vj id0) -> In x (members_of vj' id0)) /\
  (forall id0 x, In x (members_of vj' id0) ->
     In x (members_of vj id0) \/ (id0 = id /\ x = m)) /\
  dict_keys vj' = dict_keys vj /\
  (forall k, option_map (fun v => getitem v "name") (dict_get k vj')
             = option_map (fun v => getitem v "name") (dict_get k vj)).
Proof.
  intros H. destruct (add_member_inv _ _ _ _ H) as [rec [l [Hg [Hl ->]]]].
  assert (Hm : forall id0,
            members_of (dict_set (KInt id)
                          (VDict (dict_set (KStr "interfaces")
                                    (VList (l ++ [m])) rec)) vj) id0
            = if Z.eqb id0 id then l ++ [m] else members_of vj id0).
  { intros id0. unfold members_of. rewrite dict_get_set. simpl key_eqb.
    destruct (Z.eqb id0 id); [| reflexivity].
    now rewrite dict_get_set_same. }
  repeat split.
  - rewrite Hm, Z.eqb_refl. apply in_or_app. right. now left.
  - intros id0 x Hx. rewrite Hm. destruct (Z.eqb id0 id) eqn:E; [| exact Hx].
    apply Z.eqb_eq in E. subst id0. unfold members_of in Hx.
    rewrite Hg, Hl in Hx. apply in_or_app. now left.
  - intros id0 x Hx. rewrite Hm in Hx. destruct (Z.eqb id0 id) eqn:E; [| now left].
    apply Z.eqb_eq in E. subst id0. apply in_app_or in Hx.
    destruct Hx as [Hx | [<- | []]]; [left | now right].
    unfold members_of. now rewrite Hg, Hl.
  - apply dict_keys_set_present. unfold dict_has. now rewrite Hg.
  - intros k. rewrite dict_get_set. destruct (key_eqb k (KInt id)) eqn:E;
      [| reflexivity].
    rewrite (dict_get_congr _ _ _ _ E), Hg. simpl option_map. f_equal.
    apply getitem_set_other. discriminate.
Qed.

(** The loop appending one interface to its VLANs. *)
Lemma members_of_add_all (m : val) (ids : list Z) (vj vj' : dict val) :
  foldM (add_member m) ids vj = Ok vj' ->
  (forall id, In id ids -> In m (members_of vj' id)) /\
  (forall id0 x, In x (members_of vj id0) -> In x (members_of vj' id0)) /\
  (forall id0 x, In x (members_of vj' id0) ->
     In x (members_of vj id0) \/ (In id0 ids /\ x = m)) /\
  dict_keys vj' = dict_keys vj /\
  (forall k, option_map (fun v => getitem v "name") (dict_get k vj')
             = option_map (fun v => getitem v "name") (dict_get k vj)).
Proof.
  revert vj. induction ids as [| id ids IH]; intros vj H.
  - simpl in H. injection H as <-. repeat split; auto. intros ? [].
  - simpl in H. bind_inv H. rename a into vj1.
    destruct (members_of_add _ _ _ _ E) as [A1 [A2 [A3 [A4 A5]]]].
    destruct (IH _ H) as [B1 [B2 [B3 [B4 B5]]]].
    repeat split.
    + intros id0 [<- | Hin]; [now apply B2 | now apply B1].
    + intros id0 x Hx. apply B2. now apply A2.
    + intros id0 x Hx. destruct (B3 _ _ Hx) as [Hx' | [Hin ->]].
      * destruct (A3 _ _ Hx') as [Hx'' | [-> ->]]; [now left |].
        right. split; [now left | reflexivity].
      * right. split; [now right | reflexivity].
    + congruence.
    + intros k. now rewrite B5, A5.
Qed.

Lemma vlan_record_add (m : val) (vj vj' : dict val) (id : Z) :
  (forall k v, In (k, v) vj -> (exists n, k = KInt n) /\ vlan_record v) ->
  add_member m vj id = Ok vj' ->
  forall k v, In (k, v) vj' -> (exists n, k = KInt n) /\ vlan_record v.
Proof.
  intros Hwf H k v Hin.
  destruct (add_member_inv _ _ _ _ H) as [rec [l [Hg [Hl ->]]]].
  apply dict_set_In in Hin. destruct Hin as [[Hk ->] | Hin]; [| eauto].
  apply key_eqb_int in Hk. subst k. split; [eauto |].
  destruct (dict_get_In _ _ _ Hg) as [k0 Hk0].
  destruct (Hwf _ _ Hk0) as [_ [name [ifs Hrec]]].
  injection Hrec as ->. exists name, (l ++ [m]). reflexivity.
Qed.

(** The skeleton built from the VLAN list. *)
Lemma vlan_skeleton_shape (vl : val) (sk : dict val) :
  vlan_skeleton vl = Ok sk ->
  forall k v, In (k, v) sk ->
    (exists n, k = KInt n) /\
    exists name, v = VDict [ (KStr "name", name); (KStr "interfaces", VList []) ].
Proof.
  unfold vlan_skeleton. intros H. bind_inv H.
  eapply (foldM_invariant
            (fun acc => forall k v, In (k, v) acc ->
               (exists n, k = KInt n) /\
               exists name, v = VDict [ (KStr "name", name);
                                        (KStr "interfaces", VList []) ]));
    [| | exact H]; [| intros ? ? []].
  intros acc x acc' _ IH Hb k v Hin.
  bind_inv Hb. bind_inv Hb. bind_inv Hb. injection Hb as <-.
  apply dict_set_In in Hin. destruct Hin as [[Hk ->] | Hin]; [| eauto].
  apply key_eqb_int in Hk. subst k. split; [eauto |].
  eexists. reflexivity.
Qed.

Lemma vlan_skeleton_no_members (vl : val) (sk : dict val) (id : Z) :
  vlan_skeleton vl = Ok sk -> members_of sk id = [].
Proof.
  intros H. unfold members_of.
  destruct (dict_get (KInt id) sk) as [v |] eqn:Hg; [| reflexivity].
  destruct (dict_get_In _ _ _ Hg) as [k0 Hk0].
  destruct (vlan_skeleton_shape _ _ H _ _ Hk0) as [_ [name ->]]. reflexivity.
Qed.

(** The steps of a loop that returned all returned, from accumulators
    satisfying any invariant of the loop. *)
Lemma foldM_steps {A S : Type} (P : S -> Prop) (body : S -> A -> result S)
  (xs : list A) :
  (forall acc x acc', In x xs -> P acc -> body acc x = Ok acc' -> P acc') ->
  forall acc r, P acc -> foldM body xs acc = Ok r ->
  forall x, In x xs -> exists a a', P a /\ body a x = Ok a'.
Proof.
  induction xs as [| x0 xs IH]; intros Hstep acc r Hacc H x Hin; [destruct Hin |].
  simpl in H. bind_inv H. destruct Hin as [<- | Hin]; [eauto |].
  eapply (IH (fun a y a' Hy => Hstep a y a' (or_intror Hy)) a r); eauto.
  eapply Hstep; eauto. now left.
Qed.

(** [get_vlans] after its two fetches and the skeleton. *)
Lemma get_vlans_scan (s : Session) (vl : val) (its sk : dict val) (r : val) :
  Vlan_get_facts s = Ok vl ->
  Interface_get_facts s = Ok (VDict its) ->
  vlan_skeleton vl = Ok sk ->
  get_vlans s = Ok r ->
  exists phys table,
    physical_interfaces its = Ok phys /\
    foldM (scan_interface (VDict its)) (dict_keys phys) sk = Ok table /\
    r = VDict table.
Proof.
  intros Hv Hi Hsk H. unfold get_vlans in H. rewrite Hv, Hi in H.
  cbn [bind] in H. rewrite Hsk in H. cbn [bind items] in H.
  bind_inv H. bind_inv H. injection H as <-. eauto.
Qed.

Lemma table_kept_scan (its sk table table' : dict val) (interface : key) :
  table_kept sk table ->
  scan_interface (VDict its) table interface = Ok table' ->
  table_kept sk table'.
Proof.
  intros [K1 [K2 K3]] H. rewrite scan_interface_source in H.
  bind_inv H. bind_inv H. rename a0 into ids.
  destruct (members_of_add_all _ _ _ _ H) as [_ [_ [_ [A4 A5]]]].
  split; [congruence |]. split; [intros k; now rewrite A5, K2 |].
  eapply (foldM_invariant
            (fun t => forall k v, In (k, v) t ->
               (exists n, k = KInt n) /\ vlan_record v));
    [| exact K3 | exact H].
  intros acc id acc' _ Hacc Hb. eapply vlan_record_add; eauto.
Qed.

Lemma table_kept_refl (vl : val) (sk : dict val) :
  vlan_skeleton vl = Ok sk -> table_kept sk sk.
Proof.
  intros H. split; [reflexivity |]. split; [reflexivity |].
  intros k v Hin. destruct (vlan_skeleton_shape _ _ H _ _ Hin) as [Hk [name ->]].
  split; [exact Hk |]. exists name, []. reflexivity.
Qed.

(** X19. The scan of the interfaces only appends members: the table
    [get_vlans] returns has exactly the keys of the skeleton built from
    the VLAN list (integers), each VLAN keeps its name, and every record
    has the two keys [name] and [interfaces], the latter a list. *)
Theorem get_vlans_table (s : Session) (vl : val) (its sk : dict val) (r : val) :
  Vlan_get_facts s = Ok vl ->
  Interface_get_facts s = Ok (VDict its) ->
  vlan_skeleton vl = Ok sk ->
  get_vlans s = Ok r ->
  exists table, r = VDict table /\ table_kept sk table.
Proof.
  intros Hv Hi Hsk H.
  destruct (get_vlans_scan _ _ _ _ _ Hv Hi Hsk H) as [phys [table [_ [Hf ->]]]].
  exists table. split; [reflexivity |].
  eapply (foldM_invariant (table_kept sk)); [| | exact Hf].
  - intros acc x acc' _ Hacc Hb. eapply table_kept_scan; eauto.
  - eapply table_kept_refl; eauto.
Qed.

Lemma get_vlans_table_witness :
  exists table,
    get_vlans example_trunk_session = Ok (VDict table) /\
    dict_keys table = [KInt 10; KInt 20] /\
    option_map (fun v => getitem v "name") (dict_get (KInt 20) table)
    = Some (Ok (VStr "data")).
Proof.
  destruct (get_vlans_table example_trunk_session example_vlan_facts
              example_trunk_interfaces _ _ eq_refl eq_refl eq_refl eq_refl)
    as [table [Hr [K1 [K2 _]]]].
  exists table. split; [now rewrite <- Hr |].
  split; [exact K1 | exact (K2 (KInt 20))].
Defined.

Lemma dict_get_Some_key {V : Type} (k : key) (d : dict V) (v : V) :
  dict_get k d = Some v ->
  exists k', In k' (dict_keys d) /\ key_eqb k k' = true.
Proof.
  unfold dict_keys. induction d as [| [k0 v0] d IH]; simpl; [discriminate |].
  destruct (key_eqb k k0) eqn:E.
  - intros _. exists k0. auto.
  - intros H. destruct (IH H) as [k' [Hin Hk]]. eauto.
Qed.

Lemma In_keys_dict_has {V : Type} (k : key) (d : dict V) :
  In k (dict_keys d) -> dict_has k d = true.
Proof.
  unfold dict_keys, dict_has. induction d as [| [k0 v0] d IH]; simpl; [tauto |].
  intros [-> | H]; [now rewrite key_eqb_refl |].
  destruct (key_eqb k k0); [reflexivity | now apply IH].
Qed.

(** Every physical item of the input is scanned. *)
Lemma physical_interfaces_complete (its phys : dict val) (k : key) :
  physical_interfaces its = Ok phys ->
  In k (dict_keys its) -> physical_name k = true -> In k (dict_keys phys).
Proof.
  unfold physical_interfaces. intros H Hin Hp.
  unfold dict_keys in Hin. apply in_map_iff in Hin. destruct Hin as [[k' v] [<- Hkv]].
  simpl in Hp.
  pose proof (foldM_each
                (fun (kv : key * val) (acc : dict val) =>
                   physical_name (fst kv) = true ->
                   dict_has (fst kv) acc = true)) as Each.
  assert (Hhas : dict_has k' phys = true).
  { refine (Each _ _ _ _ _ _ H (k', v) Hkv Hp).
    - intros acc x acc' Hb Hx. bind_inv Hb.
      destruct (fst x) as [n | | |] eqn:Ex; try discriminate.
      simpl in E, Hx. injection E as <-. rewrite Hx in Hb. injection Hb as <-.
      unfold dict_has. now rewrite dict_get_set_same.
    - intros acc x acc' y Hq Hb Hy. bind_inv Hb.
      destruct a; injection Hb as <-; [apply dict_has_set |]; now apply Hq. }
  unfold dict_has in Hhas.
  destruct (dict_get k' phys) as [v' |] eqn:Hg; [| discriminate].
  destruct (dict_get_Some_key _ _ _ Hg) as [k'' [Hin Hk]].
  destruct k'; simpl in Hp; try discriminate.
  apply key_eqb_str in Hk. now subst k''.
Qed.

Lemma subscript_str_key (its : dict val) (k : key) (facts : val) :
  is_str_key k = true ->
  (subscript (VDict its) (key_val k) = Ok facts <-> dict_get k its = Some facts).
Proof.
  intros Hk. simpl. rewrite (to_key_key_val_str _ Hk). cbn [bind].
  destruct (dict_get k its); split; intros H; inversion H; auto.
Qed.

(** The scan, interface by interface: what is listed, and that a listed
    VLAN is one of the skeleton. *)
Lemma get_vlans_members_scan (s : Session) (vl : val) (its sk table : dict val)
  (id : Z) (m : val) :
  Vlan_get_facts s = Ok vl ->
  Interface_get_facts s = Ok (VDict its) ->
  vlan_skeleton vl = Ok sk ->
  get_vlans s = Ok (VDict table) ->
  (In m (members_of table id) <->
   exists interface facts ids,
     m = key_val interface /\
     In interface (dict_keys its) /\ physical_name interface = true /\
     dict_get interface its = Some facts /\
     vlan_source facts = Ok ids /\ In id ids) /\
  (In m (members_of table id) -> dict_has (KInt id) sk = true).
Proof.
  intros Hv Hi Hsk H.
  destruct (get_vlans_scan _ _ _ _ _ Hv Hi Hsk H) as [phys [table' [Hp [Hf Ht]]]].
  injection Ht as <-.
  assert (Hphys : forall k, In k (dict_keys phys) ->
            physical_name k = true /\ is_str_key k = true).
  { intros k Hk. pose proof (physical_interfaces_keys _ _ Hp k Hk) as Hn.
    split; [exact Hn | now apply physical_name_str]. }
  assert (Hsub : forall k, In k (dict_keys phys) -> In k (dict_keys its)).
  { unfold physical_interfaces in Hp.
    eapply (foldM_invariant
              (fun acc => forall k, In k (dict_keys acc) -> In k (dict_keys its)));
      [| | exact Hp]; [| intros ? []].
    intros acc [k0 v0] acc' Hx IH Hb k Hk. bind_inv Hb.
    destruct a; injection Hb as <-; [| now apply IH].
    apply dict_set_In_key in Hk. destruct Hk as [-> | Hk]; [| now apply IH].
    now apply In_dict_keys in Hx. }
  split; [split |].
  - (* every listed member comes from a scanned interface *)
    revert id m.
    eapply (foldM_invariant
              (fun t => forall id m, In m (members_of t id) ->
                 exists interface facts ids,
                   m = key_val interface /\
                   In interface (dict_keys its) /\
                   physical_name interface = true /\
                   dict_get interface its = Some facts /\
                   vlan_source facts = Ok ids /\ In id ids));
      [| | exact Hf].
    + intros acc i acc' Hin IH Hb id m Hm.
      rewrite scan_interface_source in Hb. bind_inv Hb. bind_inv Hb.
      rename a into facts, a0 into ids.
      destruct (members_of_add_all _ _ _ _ Hb) as [_ [_ [A3 _]]].
      destruct (A3 _ _ Hm) as [Hold | [Hid ->]]; [now apply IH |].
      destruct (Hphys i Hin) as [Hn Hs].
      exists i, facts, ids. repeat split; auto.
      now apply (subscript_str_key its i facts Hs).
    + intros id m Hm. now rewrite (vlan_skeleton_no_members _ _ id Hsk) in Hm.
  - (* every scanned interface is listed in each of its VLANs *)
    intros [i [facts [ids [-> [Hin [Hn [Hg [Hsrc Hid]]]]]]]].
    pose proof (physical_interfaces_complete _ _ _ Hp Hin Hn) as Hscan.
    pose proof (foldM_each
                  (fun (i : key) (t : dict val) =>
                     is_str_key i = true ->
                     forall facts ids,
                       dict_get i its = Some facts ->
                       vlan_source facts = Ok ids ->
                       forall id, In id ids -> In (key_val i) (members_of t id)))
      as Each.
    refine (Each _ _ _ _ _ _ Hf i Hscan (proj2 (Hphys i Hscan))
              facts ids Hg Hsrc id Hid).
    + intros acc x acc' Hb Hx facts0 ids0 Hg0 Hs0 id0 Hid0.
      rewrite scan_interface_source in Hb. bind_inv Hb. bind_inv Hb.
      destruct (members_of_add_all _ _ _ _ Hb) as [A1 _].
      apply (subscript_str_key its x a Hx) in E.
      rewrite Hg0 in E. injection E as <-. rewrite Hs0 in E0.
      injection E0 as <-. now apply A1.
    + intros acc x acc' y Hq Hb Hy facts0 ids0 Hg0 Hs0 id0 Hid0.
      rewrite scan_interface_source in Hb. bind_inv Hb. bind_inv Hb.
      destruct (members_of_add_all _ _ _ _ Hb) as [_ [A2 _]].
      apply A2. eapply Hq; eauto.
  - intros Hm.
    assert (Hk : table_kept sk table).
    { eapply (foldM_invariant (table_kept sk)); [| | exact Hf].
      - intros acc x acc' _ Hacc Hb. eapply table_kept_scan; eauto.
      - eapply table_kept_refl; eauto. }
    destruct Hk as [K1 _]. unfold members_of in Hm.
    destruct (dict_get (KInt id) table) as [v |] eqn:Hg; [| destruct Hm].
    destruct (dict_get_Some_key _ _ _ Hg) as [k' [Hin Hk']].
    apply key_eqb_int in Hk'. subst k'. rewrite K1 in Hin.
    now apply In_keys_dict_has.
Qed.

(** The test of one membership field, on facts that are a dictionary. *)
Lemma vlan_field_set_present (f : dict val) (field : string) (b : bool) :
  vlan_field_set (VDict f) field = Ok b ->
  b = match present_nonempty f field with Some _ => true | None => false end.
Proof.
  unfold vlan_field_set, present_nonempty. simpl. unfold dict_has.
  destruct (dict_get (KStr field) f) as [v |]; cbn [bind];
    [| intros H; now injection H as <-].
  destruct (truthy v) eqn:Ht.
  - intros H. bind_inv H. injection H as <-.
    unfold is_nonempty. rewrite E. now destruct (0 <? a).
  - intros H. injection H as <-.
    destruct (is_nonempty v) eqn:Hn; [| reflexivity].
    apply is_nonempty_truthy in Hn. congruence.
Qed.

(** The ids an interface is scanned into, by the rule on its facts. *)
Lemma vlan_source_rule (facts : val) (ids : list Z) :
  vlan_source facts = Ok ids ->
  match facts with
  | VDict f =>
      match membership_source f with
      | Some src => vlan_ids_of src = Ok ids
      | None => ids = []
      end
  | _ => ids = []
  end.
Proof.
  unfold vlan_source, membership_key. intros H.
  bind_inv H. bind_inv E. rename a0 into trunks, E0 into Ht.
  destruct facts as [| b | z | q | t | l | f];
    try (unfold vlan_field_set in Ht; simpl in Ht; discriminate).
  - (* a string: the membership tests are substring tests *)
    destruct trunks.
    + unfold vlan_field_set in Ht. simpl in Ht.
      destruct (substring_of "applied_vlan_trunks" t); discriminate.
    + bind_inv E. destruct a0.
      * unfold vlan_field_set in E0. simpl in E0.
        destruct (substring_of "applied_vlan_tag" t); discriminate.
      * injection E as <-. simpl in H. now injection H as <-.
  - (* a list *)
    destruct trunks.
    + unfold vlan_field_set in Ht. simpl in Ht.
      destruct (existsb _ l); discriminate.
    + bind_inv E. destruct a0.
      * unfold vlan_field_set in E0. simpl in E0.
        destruct (existsb _ l); discriminate.
      * injection E as <-. simpl in H. now injection H as <-.
  - (* a dictionary *)
    pose proof (vlan_field_set_present _ _ _ Ht) as Hb.
    unfold membership_source.
    destruct trunks.
    + injection E as <-. cbn [negb String.eqb Ascii.eqb] in H. simpl negb in H.
      destruct (present_nonempty f "applied_vlan_trunks") as [src |] eqn:Hp;
        [| discriminate].
      unfold present_nonempty in Hp.
      destruct (dict_get (KStr "applied_vlan_trunks") f) as [v |] eqn:Hg;
        [| discriminate].
      destruct (is_nonempty v); [| discriminate]. injection Hp as <-.
      simpl getitem in H. rewrite Hg in H. exact H.
    + destruct (present_nonempty f "applied_vlan_trunks"); [discriminate |].
      bind_inv E. rename a0 into tag, E0 into Hg.
      pose proof (vlan_field_set_present _ _ _ Hg) as Hb'.
      destruct tag.
      * injection E as <-. simpl negb in H.
        destruct (present_nonempty f "applied_vlan_tag") as [src |] eqn:Hp;
          [| discriminate].
        unfold present_nonempty in Hp.
        destruct (dict_get (KStr "applied_vlan_tag") f) as [v |] eqn:Hgt;
          [| discriminate].
        destruct (is_nonempty v); [| discriminate]. injection Hp as <-.
        simpl getitem in H. rewrite Hgt in H. exact H.
      * injection E as <-.
        destruct (present_nonempty f "applied_vlan_tag"); [discriminate |].
        simpl in H. now injection H as <-.
Qed.

(** In a scan that returned, the interfaces scanned all had a source. *)
Lemma get_vlans_sources (s : Session) (vl : val) (its sk : dict val) (r : val)
  (interface : key) (facts : val) :
  Vlan_get_facts s = Ok vl ->
  Interface_get_facts s = Ok (VDict its) ->
  vlan_skeleton vl = Ok sk ->
  get_vlans s = Ok r ->
  physical_name interface = true ->
  dict_get interface its = Some facts ->
  exists ids, vlan_source facts = Ok ids.
Proof.
  intros Hv Hi Hsk H Hn Hg.
  destruct (get_vlans_scan _ _ _ _ _ Hv Hi Hsk H) as [phys [table [Hp [Hf _]]]].
  assert (Hin : In interface (dict_keys its)).
  { destruct (dict_get_Some_key _ _ _ Hg) as [k' [Hin Hk]].
    destruct interface; try discriminate.
    apply key_eqb_str in Hk. now subst k'. }
  pose proof (physical_interfaces_complete _ _ _ Hp Hin Hn) as Hscan.
  destruct (foldM_steps (fun _ => True) _ _ (fun _ _ _ _ _ _ => I) _ _ I Hf
              interface Hscan) as [a [a' [_ Hb]]].
  rewrite scan_interface_source in Hb. bind_inv Hb. bind_inv Hb.
  apply (subscript_str_key its interface a0 (physical_name_str _ Hn)) in E.
  rewrite Hg in E. injection E as <-. eauto.
Qed.

(** C7. [get_vlans] scans only the physical interfaces (those whose
    name contains '/'); for each of them the members come from
    [applied_vlan_trunks] when present and non-empty, else from
    [applied_vlan_tag] when present and non-empty, else the interface
    adds nothing: in the table returned, the members of a VLAN are
    exactly the physical interfaces whose membership source has that VLAN
    among its keys.  With VLANs 10 "default" and 20 "data" and port 1/1/1
    tagged in VLAN 10, VLAN 10 lists ["1/1/1"] and VLAN 20 lists
    nothing. *)
Theorem get_vlans_membership (s : Session) (vl : val) (its : dict val) :
  Vlan_get_facts s = Ok vl ->
  Interface_get_facts s = Ok (VDict its) ->
  forallb (fun kv => is_str_key (fst kv)) its = true ->
  get_vlans s
  = vlans_of vl (VDict (filter (fun kv => physical_name (fst kv)) its)) /\
  (forall interface facts,
     dict_get interface its = Some (VDict facts) ->
     is_str_key interface = true ->
     membership_rule interface facts
       (fun vlan_json => scan_interface (VDict its) vlan_json interface)) /\
  (forall table, get_vlans s = Ok (VDict table) ->
     forall id m,
       In m (members_of table id) <->
       exists interface facts src ids,
         m = key_val interface /\ physical_name interface = true /\
         dict_get interface its = Some (VDict facts) /\
         membership_source facts = Some src /\
         vlan_ids_of src = Ok ids /\ In id ids) /\
  (forall uri,
     vl = example_vlan_facts -> VDict its = example_vlan_interfaces uri ->
     get_vlans s
     = Ok (VDict [ (KInt 10, VDict [ (KStr "name", VStr "default");
                                     (KStr "interfaces", VList [VStr "1/1/1"]) ]);
                   (KInt 20, VDict [ (KStr "name", VStr "data");
                                     (KStr "interfaces", VList []) ]) ])).
Proof.
  intros Hv Hi Hs.
  split; [| split; [| split]].
  - rewrite (get_vlans_fetch _ _ _ Hv Hi). now apply vlans_of_physical_only.
  - intros interface facts Hg Hk. apply scan_interface_rule.
    simpl. rewrite (to_key_key_val_str _ Hk). cbn [bind]. now rewrite Hg.
  - intros table H id m.
    assert (Hsk : exists sk, vlan_skeleton vl = Ok sk).
    { unfold get_vlans in H. rewrite Hv in H. cbn [bind] in H.
      destruct (vlan_skeleton vl) as [sk |]; [eauto | discriminate]. }
    destruct Hsk as [sk Hsk].
    destruct (get_vlans_members_scan s vl its sk table id m Hv Hi Hsk H)
      as [Hiff _].
    split.
    + intros Hm. apply Hiff in Hm.
      destruct Hm as [i [facts [ids [-> [Hin [Hn [Hg [Hsrc Hid]]]]]]]].
      pose proof (vlan_source_rule _ _ Hsrc) as Hrule.
      destruct facts as [| | | | | | f];
        try (subst ids; destruct Hid).
      destruct (membership_source f) as [src |] eqn:Hms;
        [| subst ids; destruct Hid].
      exists i, f, src, ids. repeat split; assumption.
    + intros [i [f [src [ids [-> [Hn [Hg [Hms [Hids Hid]]]]]]]]].
      destruct (get_vlans_sources _ _ _ _ _ _ _ Hv Hi Hsk H Hn Hg) as [ids' Hsrc].
      pose proof (vlan_source_rule _ _ Hsrc) as Hrule. simpl in Hrule.
      rewrite Hms, Hids in Hrule. injection Hrule as <-.
      apply Hiff. exists i, (VDict f), ids. repeat split; try assumption.
      destruct (dict_get_Some_key _ _ _ Hg) as [k' [Hin Hk]].
      destruct i; try discriminate.
      apply key_eqb_str in Hk. now subst k'.
  - intros uri -> Hits.
    rewrite (get_vlans_fetch _ _ _ Hv Hi), Hits. reflexivity.
Qed.

Lemma get_vlans_membership_witness :
  get_vlans example_vlan_session
  = Ok (VDict [ (KInt 10, VDict [ (KStr "name", VStr "default");
                                  (KStr "interfaces", VList [VStr "1/1/1"]) ]);
                (KInt 20, VDict [ (KStr "name", VStr "data");
                                  (KStr "interfaces", VList []) ]) ]) /\
  scan_interface (example_vlan_interfaces VNone) [] (KStr "vlan20")
  = Raise KeyError /\
  exists table,
    get_vlans example_trunk_session = Ok (VDict table) /\
    In (VStr "1/1/1") (members_of table 20) /\
    In (VStr "1/1/2") (members_of table 20) /\
    ~ In (VStr "1/1/1") (members_of table 1).
Proof.
  destruct (get_vlans_membership example_vlan_session example_vlan_facts _
              eq_refl eq_refl eq_refl) as [_ [Hrule [_ Hex]]].
  split; [exact (Hex VNone eq_refl eq_refl) |].
  split.
  { destruct (Hrule (KStr "vlan20") _ eq_refl eq_refl) as [_ [Htag _]].
    etransitivity; [exact (Htag _ eq_refl eq_refl eq_refl []) | reflexivity]. }
  destruct (get_vlans_membership example_trunk_session example_vlan_facts
              example_trunk_interfaces eq_refl eq_refl eq_refl)
    as [_ [_ [Hmem _]]].
  assert (Hr : exists table, get_vlans example_trunk_session = Ok (VDict table))
    by (eexists; vm_compute; reflexivity).
  destruct Hr as [table Hr]. exists table. split; [exact Hr |].
  split; [| split].
  - apply (Hmem table Hr 20 (VStr "1/1/1")).
    exists (KStr "1/1/1"),
      [ (KStr "applied_vlan_trunks",
         VDict [ (KStr "10", VNone); (KStr "20", VNone) ]);
        (KStr "applied_vlan_tag", VDict [ (KStr "1", VNone) ]) ],
      (VDict [ (KStr "10", VNone); (KStr "20", VNone) ]), [10; 20].
    repeat split; simpl; auto.
  - apply (Hmem table Hr 20 (VStr "1/1/2")).
    exists (KStr "1/1/2"),
      [ (KStr "applied_vlan_tag", VDict [ (KStr "20", VNone) ]) ],
      (VDict [ (KStr "20", VNone) ]), [20].
    repeat split; simpl; auto.
  - intros Hm. apply (Hmem table Hr 1 (VStr "1/1/1")) in Hm.
    destruct Hm as [i [f [src [ids [Hi [_ [Hg [Hms [Hids Hid]]]]]]]]].
    destruct i; try discriminate. injection Hi as <-.
    vm_compute in Hg. injection Hg as <-.
    vm_compute in Hms. injection Hms as <-.
    vm_compute in Hids. injection Hids as <-.
    destruct Hid as [Hid | [Hid | []]]; discriminate.
Defined.

(** X20. The members [get_vlans] lists for a VLAN are exactly the
    physical interfaces (names containing '/') whose membership field --
    [applied_vlan_trunks] when usable, else [applied_vlan_tag] -- has that
    VLAN id among its keys; the VLAN is then one of the VLAN list. *)
Theorem get_vlans_members (s : Session) (vl : val) (its sk table : dict val)
  (id : Z) (m : val) :
  Vlan_get_facts s = Ok vl ->
  Interface_get_facts s = Ok (VDict its) ->
  vlan_skeleton vl = Ok sk ->
  get_vlans s = Ok (VDict table) ->
  (In m (members_of table id) <->
   exists interface facts ids,
     m = key_val interface /\
     In interface (dict_keys its) /\ physical_name interface = true /\
     dict_get interface its = Some facts /\
     vlan_source facts = Ok ids /\ In id ids) /\
  (In m (members_of table id) -> dict_has (KInt id) sk = true).
Proof.
  intros Hv Hi Hsk H. exact (get_vlans_members_scan s vl its sk table id m Hv Hi Hsk H).
Qed.

Lemma get_vlans_members_witness :
  exists table,
    get_vlans example_trunk_session = Ok (VDict table) /\
    In (VStr "1/1/2") (members_of table 20) /\
    ~ In (VStr "1/1/1") (members_of table 1).
Proof.
  assert (Hsk : exists sk, vlan_skeleton example_vlan_facts = Ok sk)
    by (eexists; vm_compute; reflexivity).
  destruct Hsk as [sk Hsk].
  assert (Hr : exists table, get_vlans example_trunk_session = Ok (VDict table))
    by (eexists; vm_compute; reflexivity).
  destruct Hr as [table Hr]. exists table. split; [exact Hr |]. split.
  - apply (proj1 (get_vlans_members example_trunk_session example_vlan_facts
                    example_trunk_interfaces sk table 20 (VStr "1/1/2")
                    eq_refl eq_refl Hsk Hr)).
    exists (KStr "1/1/2"),
      (VDict [ (KStr "applied_vlan_tag", VDict [ (KStr "20", VNone) ]) ]),
      [20].
    repeat split; simpl; auto.
  - intros Hm.
    apply (proj1 (get_vlans_members example_trunk_session example_vlan_facts
                    example_trunk_interfaces sk table 1 (VStr "1/1/1")
                    eq_refl eq_refl Hsk Hr)) in Hm.
    destruct Hm as [i [facts [ids [Hi [Hin [_ [Hg [Hs Hid]]]]]]]].
    destruct Hin as [<- | [<- | []]]; simpl in Hi; try discriminate.
    simpl in Hg. injection Hg as <-. vm_compute in Hs. injection Hs as <-.
    destruct Hid as [Hid | [Hid | []]]; discriminate.
Defined.

(** X21. A physical interface that is a member of a VLAN missing from the
    VLAN list is never dropped silently: [get_vlans] then returns no
    table at all (the lookup [vlan_json[int(id)]] raises). *)
Theorem get_vlans_unknown_vlan (s : Session) (vl : val) (its sk : dict val)
  (interface : key) (facts : val) (ids : list Z) (id : Z) :
  Vlan_get_facts s = Ok vl ->
  Interface_get_facts s = Ok (VDict its) ->
  vlan_skeleton vl = Ok sk ->
  In interface (dict_keys its) -> physical_name interface = true ->
  dict_get interface its = Some facts ->
  vlan_source facts = Ok ids -> In id ids ->
  dict_has (KInt id) sk = false ->
  exists e, get_vlans s = Raise e.
Proof.
  intros Hv Hi Hsk Hin Hn Hg Hs Hid Hno.
  destruct (get_vlans s) as [r | e] eqn:H; [| eauto]. exfalso.
  destruct (get_vlans_scan _ _ _ _ _ Hv Hi Hsk H) as [phys [table [_ [_ ->]]]].
  destruct (get_vlans_members_scan s vl its sk table id (key_val interface)
              Hv Hi Hsk H) as [Hiff Hknown].
  rewrite Hknown in Hno; [discriminate |].
  apply Hiff. exists interface, facts, ids. repeat split; assumption.
Qed.

Lemma get_vlans_unknown_vlan_witness :
  get_vlans example_unknown_vlan_session = Raise KeyError.
Proof.
  destruct (get_vlans_unknown_vlan example_unknown_vlan_session
              example_vlan_facts
              [ (KStr "1/1/3",
                 VDict [ (KStr "applied_vlan_tag",
                          VDict [ (KStr "30", VNone) ]) ]) ]
              [ (KInt 10, VDict [ (KStr "name", VStr "default");
                                  (KStr "interfaces", VList []) ]);
                (KInt 20, VDict [ (KStr "name", VStr "data");
                                  (KStr "interfaces", VList []) ]) ]
              (KStr "1/1/3")
              (VDict [ (KStr "applied_vlan_tag", VDict [ (KStr "30", VNone) ]) ])
              [30] 30
              eq_refl eq_refl eq_refl (or_introl eq_refl) eq_refl eq_refl
              eq_refl (or_introl eq_refl) eq_refl) as [e He].
  reflexivity.
Defined.

(** ** get_mac_address_table: the remaining fields and the failures *)

Lemma mac_entry_location (mac : dict MacObj) (e : val) :
  mac_entry mac = Ok e -> mac_location_spec mac e.
Proof.
  intros H. destruct mac as [| [k obj] rest].
  - unfold mac_entry in H. simpl dict_keys in H.
    rewrite seq_index_nil in H. discriminate.
  - rewrite mac_entry_first in H. unfold mac_entry in H.
    simpl dict_keys in H. rewrite seq_index_0 in H. cbn [bind] in H.
    destruct k as [mac_key | | |]; try discriminate.
    cbn [bind] in H.
    bind_inv H. bind_inv H. bind_inv H.
    simpl dict_get in E1. rewrite String.eqb_refl in E1. injection E1 as <-.
    bind_inv H. destruct a1. rename E1 into Hget.
    bind_inv H. rename a1 into n, E1 into Hn.
    bind_inv H. rename a1 into port, E1 into Hport.
    bind_inv H. rename a1 into ports, E1 into Hkeys.
    bind_inv H. rename a1 into p, E1 into Hp.
    inversion H; subst; clear H.
    destruct port as [| | | | | | pd]; try discriminate.
    simpl in Hkeys. injection Hkeys as <-.
    destruct (dict_keys pd) as [| p0 ps] eqn:Hpd;
      [rewrite seq_index_nil in Hp; discriminate |].
    rewrite seq_index_0 in Hp. injection Hp as ->.
    exists (KStr mac_key), obj, rest, n, pd, p, ps.
    repeat split; try assumption; reflexivity.
Qed.

(** X22. Every record of the MAC table is built after the entry's own
    [get()] succeeded; its [vlan] is the integer of the parent VLAN's id,
    its [interface] the first key of the entry's [port] attribute, and it
    has exactly the seven keys of the NAPALM record. *)
Theorem mac_table_vlan_and_interface (s : Session) (vl : dict VlanObj)
  (es : list val) :
  Vlan_get_all s = Ok vl ->
  get_mac_address_table s = Ok (VList es) ->
  exists ml,
    fetch_mac_list s vl = Ok ml /\
    Forall2 mac_location_spec (with_entries ml) es.
Proof.
  intros Hv H.
  destruct (get_mac_address_table_inv _ _ _ Hv H) as [ml [Hml F]].
  exists ml. split; [exact Hml |].
  eapply Forall2_impl; [| exact F]. apply mac_entry_location.
Qed.

Lemma mac_table_vlan_and_interface_witness :
  exists e1 e2,
    get_mac_address_table example_mac_session = Ok (VList [e1; e2]) /\
    getitem e1 "vlan" = Ok (VInt 10) /\
    getitem e1 "interface" = Ok (VStr "1/1/1") /\
    getitem e2 "vlan" = Ok (VInt 20) /\
    getitem e2 "interface" = Ok (VStr "1/1/2").
Proof.
  destruct (mac_table_vlan_and_interface example_mac_session example_vlans _
              eq_refl eq_refl) as [ml [Hml F]].
  vm_compute in Hml. inversion Hml; subst ml; clear Hml.
  unfold with_entries in F. simpl filter in F.
  inversion F as [| m1 e1 ms1 es1 H1 F1]; subst.
  inversion F1 as [| m2 e2 ms2 es2 H2 F2]; subst.
  destruct H1 as [k1 [o1 [r1 [n1 [pd1 [p1 [ps1
    [Hm1 [_ [Hn1 [Hp1 [Hk1 [Hv1 [Hi1 _]]]]]]]]]]]]]].
  destruct H2 as [k2 [o2 [r2 [n2 [pd2 [p2 [ps2
    [Hm2 [_ [Hn2 [Hp2 [Hk2 [Hv2 [Hi2 _]]]]]]]]]]]]]].
  inversion Hm1; subst k1 o1 r1; clear Hm1.
  inversion Hm2; subst k2 o2 r2; clear Hm2.
  vm_compute in Hn1. injection Hn1 as <-.
  vm_compute in Hn2. injection Hn2 as <-.
  vm_compute in Hp1. injection Hp1 as <-.
  vm_compute in Hp2. injection Hp2 as <-.
  vm_compute in Hk1. injection Hk1 as <- <-.
  vm_compute in Hk2. injection Hk2 as <- <-.
  eexists. eexists. split; [reflexivity |].
  repeat split; assumption.
Defined.

Lemma mapM_Raise_In {A B : Type} (f : A -> result B) (xs : list A) (x : A) :
  In x xs -> is_ok (f x) = false -> exists e, mapM f xs = Raise e.
Proof.
  induction xs as [| x0 xs IH]; simpl; [tauto |].
  intros [-> | Hin] Hx.
  - revert Hx. destruct (f x); simpl; [discriminate | eexists; reflexivity].
  - destruct (f x0); [| eexists; reflexivity]. cbn [bind].
    destruct (IH Hin Hx) as [e ->]. eexists. reflexivity.
Qed.

(** X23. A MAC entry whose compound key has no comma has no second
    component: building its record raises [IndexError], and the whole
    table is lost -- [get_mac_address_table] returns no partial list. *)
Theorem mac_table_key_without_comma (s : Session) (vl : dict VlanObj)
  (ml : list (dict MacObj)) (k : string) (obj : MacObj) (rest : dict MacObj) :
  Vlan_get_all s = Ok vl ->
  fetch_mac_list s vl = Ok ml ->
  In ((KStr k, obj) :: rest) ml ->
  Str.has_char "," k = false ->
  mac_entry ((KStr k, obj) :: rest) = Raise IndexError /\
  exists e, get_mac_address_table s = Raise e.
Proof.
  intros Hv Hml Hin Hk.
  assert (He : mac_entry ((KStr k, obj) :: rest) = Raise IndexError).
  { rewrite mac_entry_first. unfold mac_entry. simpl dict_keys.
    rewrite seq_index_0. cbn [bind]. rewrite (split_no_sep _ _ Hk).
    rewrite seq_index_0. cbn [bind].
    assert (H1 : seq_index [k] 1 = Raise IndexError) by reflexivity.
    rewrite H1. reflexivity. }
  split; [exact He |].
  unfold get_mac_address_table. rewrite Hv. cbn [bind]. rewrite Hml. cbn [bind].
  unfold mac_entries_of. rewrite nonempty_macs_with_entries.
  destruct (mapM_Raise_In mac_entry (with_entries ml) ((KStr k, obj) :: rest))
    as [e ->]; [| now rewrite He | eexists; reflexivity].
  unfold with_entries. apply filter_In. split; [exact Hin | reflexivity].
Qed.

Lemma mac_table_key_without_comma_witness :
  get_mac_address_table example_bad_mac_session = Raise IndexError.
Proof.
  destruct (mac_table_key_without_comma example_bad_mac_session example_vlans
              [ []; [ (KStr "aa:bb:cc:dd:ee:ff", example_mac_obj (VInt 10) "1/1/1") ]; [] ]
              "aa:bb:cc:dd:ee:ff" (example_mac_obj (VInt 10) "1/1/1") []
              eq_refl eq_refl (or_intror (or_introl eq_refl)) eq_refl)
    as [_ [e He]].
  reflexivity.
Defined.

(** ** Temperature sensors *)

Lemma not_critical_and_emergency (st : val) :
  eq_str st "critical" && eq_str st "emergency" = false.
Proof.
  destruct st as [| | | | t | |]; try reflexivity. simpl.
  destruct (String.eqb t "critical") eqn:E; [| reflexivity].
  apply String.eqb_eq in E. subst t. reflexivity.
Qed.

Lemma temperature_record_inv (float_of_str : string -> result val)
  (sensor r : val) :
  temperature_record float_of_str sensor = Ok r ->
  sensor_record sensor r.
Proof.
  unfold temperature_record, sensor_record. intros H.
  bind_inv H. rename a into t, E into Ht.
  bind_inv H. rename a into t1000, E into Hdiv.
  bind_inv H. rename a into temp, E into Hfl.
  bind_inv H. rename a into st, E into Hst.
  bind_inv H. rewrite Hst in E. injection E as <-. injection H as <-.
  assert (Hd : exists d, thousandth t = Some d /\ temp = VFloat d).
  { unfold thousandth. destruct t as [| b | z | q | | |]; try discriminate;
      unfold div1000, double_of in Hdiv;
      match type of Hdiv with
      | match nearest_double ?x with _ => _ end = _ =>
          destruct (nearest_double x) as [d |]; [| discriminate]
      end;
      injection Hdiv as <-; simpl in Hfl; injection Hfl as <-; eauto. }
  destruct Hd as [d [Hd ->]].
  exists t, st, d. split; [exact Ht |]. split; [exact Hst |].
  split; [exact Hd | reflexivity].
Qed.

(** X8. Every record of the temperature section is the record of a
    sensor of the input read at that location, and every sensor of the
    input has a record at its location.  The temperature published is the
    float nearest to the sensor's value divided by 1000, [is_alert] is
    [status == "critical"] and [is_critical] is [status == "emergency"],
    so no record is both in alert and critical. *)
Theorem temperature_section (float_of_str : string -> result val) (td : val)
  (r : dict val) :
  env_temperature float_of_str td = Ok r ->
  (forall k v, In (k, v) r ->
     exists sensor,
       sensor_at td k sensor /\ sensor_record sensor v /\
       ~ (getitem v "is_alert" = Ok (VBool true) /\
          getitem v "is_critical" = Ok (VBool true))) /\
  (forall k sensor, sensor_at td k sensor -> dict_has k r = true).
Proof.
  intros H.
  assert (Hrec : forall sensor v, temperature_record float_of_str sensor = Ok v ->
            sensor_record sensor v /\
            ~ (getitem v "is_alert" = Ok (VBool true) /\
               getitem v "is_critical" = Ok (VBool true))).
  { intros sensor v Hv. pose proof (temperature_record_inv _ _ _ Hv) as Hs.
    split; [exact Hs |].
    destruct Hs as [t [st [temp [_ [_ [_ ->]]]]]]. simpl.
    intros [Ha Hc]. injection Ha as Ha. injection Hc as Hc.
    pose proof (not_critical_and_emergency st) as Hn.
    rewrite Ha, Hc in Hn. discriminate. }
  unfold env_temperature in H. destruct td as [| b | z | q | t | l | d].
  1-6: bind_inv H; rename a into sensors, E into Hiter;
    (split;
     [ intros k v Hin;
       enough (Hx : exists sensor,
                 (In sensor sensors /\
                  exists loc k', getitem sensor "location" = Ok loc /\
                                 to_key loc = Ok k' /\ key_eqb k' k = true) /\
                 temperature_record float_of_str sensor = Ok v)
         by (destruct Hx as [sensor [[Hs Hl] Hv]];
             destruct (Hrec _ _ Hv) as [Hr1 Hr2];
             exists sensor; split; [exists sensors; auto | auto]);
       revert k v Hin;
       eapply (foldM_invariant
                 (fun acc => forall k v, In (k, v) acc ->
                    exists sensor,
                      (In sensor sensors /\
                       exists loc k', getitem sensor "location" = Ok loc /\
                                      to_key loc = Ok k' /\ key_eqb k' k = true) /\
                      temperature_record float_of_str sensor = Ok v));
         [| | exact H];
         [ intros acc x acc' Hx IH Hb k0 v0 Hin0;
           bind_inv Hb; bind_inv Hb; bind_inv Hb; injection Hb as <-;
           simpl in Hin0; apply dict_set_In in Hin0;
           destruct Hin0 as [[Hk ->] | Hin0]; [| now apply IH];
           exists x; split; [split; [exact Hx | eauto] | assumption]
         | intros ? ? [] ]
     | intros k sensor [sensors' [Hi' [Hin [loc [k' [Hloc [Hk' Hkk]]]]]]];
       rewrite Hiter in Hi'; injection Hi' as <-;
       pose proof (foldM_each
                     (fun (sensor : val) (acc : dict val) =>
                        forall loc k', getitem sensor "location" = Ok loc ->
                          to_key loc = Ok k' -> dict_has k' acc = true)) as Each;
       unfold dict_has; rewrite <- (dict_get_congr _ _ _ _ Hkk);
       refine (Each _ _ _ _ _ _ H sensor Hin loc k' Hloc Hk');
         [ intros acc x acc' Hb loc0 k0 Hl0 Hk0;
           bind_inv Hb; bind_inv Hb; bind_inv Hb; injection Hb as <-;
           rewrite Hl0 in E; injection E as <-;
           rewrite Hk0 in E1; injection E1 as <-;
           simpl; unfold dict_has; now rewrite dict_get_set_same
         | intros acc x acc' y Hq Hb loc0 k0 Hl0 Hk0;
           bind_inv Hb; bind_inv Hb; bind_inv Hb; injection Hb as <-;
           simpl; apply dict_has_set; eapply Hq; eauto ] ]).
  split.
  - intros k v Hin.
    enough (Hx : exists sensor,
              (exists k', In (k', sensor) d /\ key_eqb k' k = true) /\
              temperature_record float_of_str sensor = Ok v)
      by (destruct Hx as [sensor [Hs Hv]];
          destruct (Hrec _ _ Hv) as [Hr1 Hr2]; exists sensor; auto).
    revert k v Hin.
    eapply (foldM_invariant
              (fun acc => forall k v, In (k, v) acc ->
                 exists sensor,
                   (exists k', In (k', sensor) d /\ key_eqb k' k = true) /\
                   temperature_record float_of_str sensor = Ok v));
      [| | exact H].
    + intros acc [loc sensor] acc' Hx IH Hb k0 v0 Hin0.
      bind_inv Hb. injection Hb as <-.
      apply dict_set_In in Hin0. destruct Hin0 as [[Hk ->] | Hin0];
        [| now apply IH].
      exists sensor. split; [exists loc; auto | assumption].
    + intros ? ? [].
  - intros k sensor [k' [Hin Hkk]].
    pose proof (foldM_each
                  (fun (ls : key * val) (acc : dict val) =>
                     dict_has (fst ls) acc = true)) as Each.
    unfold dict_has. rewrite <- (dict_get_congr _ _ _ _ Hkk).
    refine (Each _ _ _ _ _ _ H (k', sensor) Hin).
    + intros acc [loc x] acc' Hb. bind_inv Hb. injection Hb as <-.
      simpl. unfold dict_has. now rewrite dict_get_set_same.
    + intros acc [loc x] acc' y Hq Hb. bind_inv Hb. injection Hb as <-.
      now apply dict_has_set.
Qed.

Lemma temperature_section_witness :
  exists r,
    env_temperature (fun _ => Raise ValueError) example_sensors = Ok r /\
    dict_has (KStr "1/1-PHY") r = true /\
    dict_get (KStr "1/2-PHY") r
    = Some (VDict [ (KStr "temperature", VFloat (25 # 1));
                    (KStr "is_alert", VBool true);
                    (KStr "is_critical", VBool false) ]).
Proof.
  assert (Hr : exists r,
             env_temperature (fun _ => Raise ValueError) example_sensors = Ok r)
    by (eexists; vm_compute; reflexivity).
  destruct Hr as [r Hr]. exists r. split; [exact Hr |].
  destruct (temperature_section (fun _ => Raise ValueError) example_sensors r Hr)
    as [_ Hall].
  split.
  - apply (Hall (KStr "1/1-PHY")
             (VDict [ (KStr "location", VStr "1/1-PHY");
                      (KStr "temperature", VInt 47001);
                      (KStr "status", VStr "normal") ])).
    eexists. split; [reflexivity |]. split; [simpl; auto |].
    exists (VStr "1/1-PHY"), (KStr "1/1-PHY"). repeat split.
  - vm_compute in Hr. injection Hr as <-. reflexivity.
Defined.

(** ** get_environment: fans, power supplies, resources *)

Lemma dict_has_set_eq {V : Type} (k k' : key) (v : V) (d : dict V) :
  dict_has k (dict_set k' v d) = (key_eqb k k' || dict_has k d)%bool.
Proof.
  unfold dict_has. rewrite dict_get_set. now destruct (key_eqb k k').
Qed.

Lemma dict_has_cons {V : Type} (k k0 : key) (v0 : V) (d : dict V) :
  dict_has k ((k0, v0) :: d) = (key_eqb k k0 || dict_has k d)%bool.
Proof. unfold dict_has. simpl. now destruct (key_eqb k k0). Qed.

(** One turn of the loop over a mapping of fans never fails. *)
Lemma fan_step (fan_dict : dict val) (name : key) (details : val) :
  exists b,
    (has <- (if is_dict details then contains "status" details else Ok false) ;;
     if (has : bool)
     then st <- getitem details "status" ;;
          Ok (dict_set name (VBool (eq_str st "ok")) fan_dict)
     else Ok (dict_set name (VBool (truthy details)) fan_dict))
    = Ok (dict_set name (VBool b) fan_dict) /\
    (is_dict details = false -> b = truthy details).
Proof.
  destruct details as [| b | z | q | t | l | f];
    try (eexists; split; [reflexivity | reflexivity]).
  cbn [is_dict contains bind]. unfold dict_has, getitem.
  destruct (dict_get (KStr "status") f) as [st |].
  - eexists. split; [reflexivity | discriminate].
  - eexists. split; [reflexivity | discriminate].
Qed.

(** X24. When the fan details are a mapping, the fans section never
    fails: it has the same keys as the mapping and every value is a
    boolean (a fan given by a bare value is reported by its truth
    value). *)
Theorem fans_section_of_mapping (d : dict val) :
  exists r,
    env_fans (VDict d) = Ok r /\
    (forall k, dict_has k r = dict_has k d) /\
    (forall k v, In (k, v) r -> exists b, v = VBool b).
Proof.
  unfold env_fans.
  match goal with
  | |- exists r, foldM ?body d [] = Ok r /\ _ =>
      enough (H : forall acc,
                (forall k v, In (k, v) acc -> exists b, v = VBool b) ->
                exists r, foldM body d acc = Ok r /\
                  (forall k, dict_has k r = (dict_has k acc || dict_has k d)%bool) /\
                  (forall k v, In (k, v) r -> exists b, v = VBool b))
  end.
  { destruct (H [] (fun k v (F : In (k, v) []) => match F with end))
      as [r [Hr [Hk Hv]]].
    exists r. split; [exact Hr |]. split; [| exact Hv].
    intros k. now rewrite Hk. }
  induction d as [| [name details] d IH]; intros acc Hacc.
  - exists acc. split; [reflexivity |]. split; [| exact Hacc].
    intros k. unfold dict_has at 3. simpl. now rewrite orb_false_r.
  - cbn [foldM]. destruct (fan_step acc name details) as [b [-> _]].
    cbn [bind].
    destruct (IH (dict_set name (VBool b) acc)) as [r [Hr [Hk Hv]]].
    + intros k v Hin. apply dict_set_In in Hin.
      destruct Hin as [[_ ->] | Hin]; eauto.
    + exists r. split; [exact Hr |]. split; [| exact Hv].
      intros k. rewrite Hk, dict_has_set_eq, dict_has_cons.
      destruct (key_eqb k name), (dict_has k acc); reflexivity.
Qed.

Lemma py_float_zero (float_of_str : string -> result val) :
  py_float float_of_str (VInt 0) = Ok (VFloat 0).
Proof. reflexivity. Qed.

(** X25. Every record of the power section has exactly the keys
    [status], [capacity] and [output]; [status] is a boolean, [capacity]
    is a result of [float()], and [output] is always the string "N/A",
    never a number. *)
Theorem power_section (float_of_str : string -> result val) (pd : val)
  (r : dict val) (k : key) (v : val) :
  env_power float_of_str pd = Ok r ->
  In (k, v) r ->
  power_record float_of_str v.
Proof.
  intros H. revert k v.
  unfold env_power in H. destruct pd as [| | | | | | d].
  1-6: bind_inv H;
    eapply (foldM_invariant
              (fun acc => forall k v, In (k, v) acc ->
                 power_record float_of_str v)); [| | exact H];
    [ intros acc x acc' _ IH Hb k0 v0 Hin0;
      bind_inv Hb; bind_inv Hb; bind_inv Hb; bind_inv Hb; bind_inv Hb;
      bind_inv Hb; injection Hb as <-;
      simpl in Hin0; apply dict_set_In in Hin0;
      destruct Hin0 as [[_ ->] | Hin0]; [| now eauto];
      eexists; eexists; eexists; split; [eassumption | reflexivity]
    | intros ? ? [] ].
  eapply (foldM_invariant
            (fun acc => forall k v, In (k, v) acc ->
               power_record float_of_str v)); [| | exact H].
  - intros acc [name specs] acc' _ IH Hb k0 v0 Hin0.
    bind_inv Hb. injection Hb as <-.
    apply dict_set_In in Hin0. destruct Hin0 as [[_ ->] | Hin0]; [| now eauto].
    destruct (is_dict specs).
    + bind_inv E. bind_inv E. bind_inv E. bind_inv E. injection E as <-.
      eexists; eexists; eexists; split; [eassumption | reflexivity].
    + injection E as <-.
      eexists; eexists; eexists; split; [apply py_float_zero | reflexivity].
  - intros ? ? [].
Qed.

Lemma power_section_witness :
  exists r,
    env_power (fun _ => Raise ValueError)
      (VDict [ (KStr "1/1", VDict [ (KStr "status", VStr "ok") ]);
               (KStr "1/2", VStr "absent") ]) = Ok r /\
    power_record (fun _ => Raise ValueError)
      (VDict [ (KStr "status", VBool true);
               (KStr "capacity", VFloat 0);
               (KStr "output", VStr "N/A") ]) /\
    dict_get (KStr "1/1") r
    = Some (VDict [ (KStr "status", VBool true);
                    (KStr "capacity", VFloat 0);
                    (KStr "output", VStr "N/A") ]).
Proof.
  eexists. split; [reflexivity |]. split; [| reflexivity].
  apply (power_section (fun _ => Raise ValueError)
           (VDict [ (KStr "1/1", VDict [ (KStr "status", VStr "ok") ]);
                    (KStr "1/2", VStr "absent") ])
           _ (KStr "1/1") _ eq_refl (or_introl eq_refl)).
Defined.

(** One turn of the loop over a sequence of management modules. *)
Lemma resources_step (cm cm' : dict val * dict val) (mm : val) :
  (name <- getitem mm "name" ;;
   ru <- getitem mm "resource_utilization" ;;
   cpu <- getitem ru "cpu" ;;
   k <- to_key name ;;
   let cpu_dict :=
     dict_update (fst cm) [(k, VDict (dict_of [ (KStr "%usage", cpu) ]))] in
   ru' <- getitem mm "resource_utilization" ;;
   mem <- getitem ru' "memory" ;;
   Ok (cpu_dict, mem_record mem)) = Ok cm' ->
  exists name k ru cpu used,
    getitem mm "name" = Ok name /\ to_key name = Ok k /\
    getitem mm "resource_utilization" = Ok ru /\
    getitem ru "cpu" = Ok cpu /\ getitem ru "memory" = Ok used /\
    cm' = (dict_set k (VDict [ (KStr "%usage", cpu) ]) (fst cm),
           mem_record used).
Proof.
  intros H. bind_inv H. bind_inv H. bind_inv H. bind_inv H. cbv zeta in H.
  bind_inv H. bind_inv H. injection H as <-.
  rewrite E0 in E3. injection E3 as <-.
  exists a, a2, a0, a1, a4. repeat split; assumption.
Qed.

(** X26. When the resource details are a sequence of modules, the
    memory section is that of the last module alone (earlier modules'
    memory is overwritten), the cpu section has an entry under every
    module's name, and an empty sequence gives an empty cpu section and an
    empty memory section, without the keys [available_ram] and
    [used_ram]. *)
Theorem resources_of_sequence (mms : list val) (cpu mem : dict val) :
  env_resources (VList mms) = Ok (cpu, mem) ->
  (mms = [] -> cpu = [] /\ mem = []) /\
  (forall init mm, mms = init ++ [mm] ->
     exists ru used,
       getitem mm "resource_utilization" = Ok ru /\
       getitem ru "memory" = Ok used /\
       mem = [ (KStr "available_ram", VStr "N/A"); (KStr "used_ram", used) ]) /\
  (forall mm, In mm mms ->
     exists name k, getitem mm "name" = Ok name /\ to_key name = Ok k /\
                    dict_has k cpu = true).
Proof.
  unfold env_resources. cbn [iter bind]. intros H. split; [| split].
  - intros ->. simpl in H. injection H as <- <-. auto.
  - intros init mm ->. rewrite foldM_app in H. bind_inv H.
    cbn [foldM] in H. bind_inv H. injection H as ->.
    destruct (resources_step _ _ _ E0)
      as [name [k [ru [c [used [_ [_ [Hru [_ [Hused Hcm]]]]]]]]]].
    injection Hcm as _ ->. exists ru, used.
    split; [exact Hru |]. split; [exact Hused | reflexivity].
  - intros mm Hin.
    pose proof (foldM_each
                  (fun (mm : val) (cm : dict val * dict val) =>
                     exists name k, getitem mm "name" = Ok name /\
                                    to_key name = Ok k /\
                                    dict_has k (fst cm) = true)) as Each.
    refine (Each _ _ _ _ _ _ H mm Hin).
    + intros acc x acc' Hb.
      destruct (resources_step _ _ _ Hb)
        as [name [k [ru [c [used [Hname [Hk [_ [_ [_ ->]]]]]]]]]].
      exists name, k. repeat split; try assumption.
      simpl fst. unfold dict_has. now rewrite dict_get_set_same.
    + intros acc x acc' y [name [k [Hname [Hk Hhas]]]] Hb.
      destruct (resources_step _ _ _ Hb)
        as [name' [k' [ru [c [used [_ [_ [_ [_ [_ ->]]]]]]]]]].
      exists name, k. repeat split; try assumption.
      simpl fst. now apply dict_has_set.
Qed.

Lemma resources_of_sequence_witness :
  env_resources example_modules
  = Ok ([ (KStr "1/1", VDict [ (KStr "%usage", VInt 7) ]);
          (KStr "1/2", VDict [ (KStr "%usage", VInt 9) ]) ],
        [ (KStr "available_ram", VStr "N/A"); (KStr "used_ram", VInt 34) ]) /\
  env_resources (VList []) = Ok ([], []).
Proof.
  split; [| reflexivity].
  destruct (resources_of_sequence
              [ VDict [ (KStr "name", VStr "1/1");
                        (KStr "resource_utilization",
                         VDict [ (KStr "cpu", VInt 7); (KStr "memory", VInt 21) ]) ];
                VDict [ (KStr "name", VStr "1/2");
                        (KStr "resource_utilization",
                         VDict [ (KStr "cpu", VInt 9); (KStr "memory", VInt 34) ]) ] ]
              [ (KStr "1/1", VDict [ (KStr "%usage", VInt 7) ]);
                (KStr "1/2", VDict [ (KStr "%usage", VInt 9) ]) ]
              [ (KStr "available_ram", VStr "N/A"); (KStr "used_ram", VInt 34) ]
              eq_refl) as [_ [Hlast _]].
  reflexivity.
Defined.

(** ** get_interfaces: which interfaces are listed, and the failures *)

Lemma dict_get_key_listed (il : dict val) (name : string) (v : val) :
  dict_get (KStr name) il = Some v ->
  In (VStr name) (map key_val (dict_keys il)).
Proof.
  intros H. destruct (dict_get_Some_key _ _ _ H) as [k' [Hin Hk]].
  apply key_eqb_str in Hk. subst k'.
  apply in_map_iff. exists (KStr name). auto.
Qed.

(** The interfaces of a returned table all had their record built. *)
Lemma interfaces_of_entries (il r : dict val) (name : string) (v : val) :
  interfaces_of (VDict il) = Ok (VDict r) ->
  dict_get (KStr name) il = Some v ->
  exists entry,
    get_interfaces_entry (VDict il) (VStr name) = Ok (KStr name, entry) /\
    dict_has (KStr name) r = true.
Proof.
  unfold interfaces_of. cbn [iter bind]. intros H Hg.
  bind_inv H. injection H as <-.
  pose proof (dict_get_key_listed _ _ _ Hg) as Hin.
  pose proof (foldM_each
                (fun (interface : val) (acc : dict val) =>
                   forall name, interface = VStr name ->
                     exists entry,
                       get_interfaces_entry (VDict il) interface
                       = Ok (KStr name, entry) /\
                       dict_has (KStr name) acc = true)) as Each.
  refine (Each _ _ _ _ _ _ E (VStr name) Hin name eq_refl).
  - intros acc x acc' Hb n ->. bind_inv Hb. destruct a0 as [k entry].
    injection Hb as <-.
    destruct (get_interfaces_entry_inv _ _ _ _ E0)
      as [d [hw [ls [adm [sp [mtu [mac [_ [Hk _]]]]]]]]].
    simpl in Hk. injection Hk as <-.
    exists entry. split; [exact E0 |].
    simpl. unfold dict_has. now rewrite dict_get_set_same.
  - intros acc x acc' y Hq Hb n ->. bind_inv Hb. destruct a0 as [k entry].
    injection Hb as <-.
    destruct (Hq n eq_refl) as [entry' [He Hhas]].
    exists entry'. split; [exact He |]. simpl. now apply dict_has_set.
Qed.

(** X27. [get_interfaces] reads [hw_intf_info], [link_state] and
    [admin_state] of every interface without testing for them: when one
    interface's record lacks any of the three -- a logical interface
    without hardware information, say -- no table is returned at all. *)
Theorem get_interfaces_required_fields (s : Session) (il : dict val)
  (name : string) (d : dict val) :
  Interface_get_facts s = Ok (VDict il) ->
  dict_get (KStr name) il = Some (VDict d) ->
  has_required_fields d = false ->
  exists e, get_interfaces s = Raise e.
Proof.
  intros Hf Hg Hreq. rewrite (get_interfaces_fetch _ _ Hf).
  destruct (interfaces_of (VDict il)) as [r | e] eqn:H; [| eauto]. exfalso.
  assert (Hr : exists r', r = VDict r').
  { unfold interfaces_of in H. bind_inv H. bind_inv H. injection H as <-. eauto. }
  destruct Hr as [r' ->].
  destruct (interfaces_of_entries _ _ _ _ H Hg) as [entry [He _]].
  destruct (get_interfaces_entry_inv _ _ _ _ He)
    as [d' [hw [ls [adm [sp [mtu [mac [Hsub [_ [Hhw [Hls [Hadm _]]]]]]]]]]]].
  simpl in Hsub. rewrite Hg in Hsub. injection Hsub as <-.
  unfold has_required_fields, dict_has in Hreq.
  rewrite Hhw, Hls, Hadm in Hreq. discriminate.
Qed.

Lemma get_interfaces_required_fields_witness :
  get_interfaces example_svi_session = Raise KeyError.
Proof.
  destruct (get_interfaces_required_fields example_svi_session
              example_svi_interfaces "vlan20"
              [ (KStr "description", VStr "users");
                (KStr "link_state", VStr "up");
                (KStr "admin_state", VStr "up") ]
              eq_refl eq_refl eq_refl) as [e He].
  reflexivity.
Defined.

(** X28. A table returned by [get_interfaces] lists exactly the
    interfaces of the input: a name has a record if and only if it is a
    key of what [Interface.get_facts] returned. *)
Theorem get_interfaces_names (s : Session) (il r : dict val) (name : string) :
  Interface_get_facts s = Ok (VDict il) ->
  get_interfaces s = Ok (VDict r) ->
  dict_has (KStr name) r = dict_has (KStr name) il.
Proof.
  intros Hf H. rewrite (get_interfaces_fetch _ _ Hf) in H.
  destruct (dict_get (KStr name) il) as [v |] eqn:Hg.
  - destruct (interfaces_of_entries _ _ _ _ H Hg) as [entry [_ Hhas]].
    rewrite Hhas. unfold dict_has. now rewrite Hg.
  - unfold dict_has at 2. rewrite Hg.
    unfold dict_has. destruct (dict_get (KStr name) r) as [entry |] eqn:Hr;
      [| reflexivity]. exfalso.
    destruct (dict_get_Some_key _ _ _ Hr) as [k' [Hin Hk]].
    apply key_eqb_str in Hk. subst k'.
    unfold dict_keys in Hin. apply in_map_iff in Hin.
    destruct Hin as [[k0 entry0] [Hk0 Hin]]. simpl in Hk0. subst k0.
    destruct (interfaces_of_In _ _ _ _ H Hin) as [interface [name' [He Hk]]].
    destruct (get_interfaces_entry_inv _ _ _ _ He)
      as [d' [hw [ls [adm [sp [mtu [mac [Hsub [Hkey _]]]]]]]]].
    pose proof (to_key_str_inv _ _ _ Hkey Hk) as ->.
    simpl in Hsub. rewrite Hg in Hsub. discriminate.
Qed.

Lemma get_interfaces_names_witness :
  exists r,
    get_interfaces example_interface_session = Ok (VDict r) /\
    dict_has (KStr "loopback0") r = true /\
    dict_has (KStr "vlan20") r = false.
Proof.
  assert (Hr : exists r, get_interfaces example_interface_session = Ok (VDict r))
    by (eexists; vm_compute; reflexivity).
  destruct Hr as [r Hr]. exists r. split; [exact Hr |]. split.
  - exact (get_interfaces_names example_interface_session _ r "loopback0"
             eq_refl Hr).
  - exact (get_interfaces_names example_interface_session _ r "vlan20"
             eq_refl Hr).
Defined.

(** ** get_interfaces_counters: which interfaces are listed, and the failures *)

(** The interfaces of a returned table of counters all had their
    counters built. *)
Lemma counters_of_entries (il r : dict val) (name : string) (v : val) :
  counters_of (VDict il) = Ok (VDict r) ->
  dict_get (KStr name) il = Some v ->
  (exists counters, interface_counters v = Ok counters) /\
  dict_has (KStr name) r = true.
Proof.
  unfold counters_of. cbn [iter bind]. intros H Hg.
  bind_inv H. injection H as <-.
  pose proof (dict_get_key_listed _ _ _ Hg) as Hin.
  pose proof (foldM_each
                (fun (interface : val) (acc : dict val) =>
                   forall name v, interface = VStr name ->
                     dict_get (KStr name) il = Some v ->
                     (exists counters, interface_counters v = Ok counters) /\
                     dict_has (KStr name) acc = true)) as Each.
  refine (Each _ _ _ _ _ _ E (VStr name) Hin name v eq_refl Hg).
  - intros acc x acc' Hb n v0 -> Hg0. bind_inv Hb. bind_inv Hb. bind_inv Hb.
    injection Hb as <-. simpl in E0. rewrite Hg0 in E0. injection E0 as <-.
    simpl in E2. injection E2 as <-. split; [eauto |].
    simpl. unfold dict_has. now rewrite dict_get_set_same.
  - intros acc x acc' y Hq Hb n v0 -> Hg0. bind_inv Hb. bind_inv Hb. bind_inv Hb.
    injection Hb as <-. destruct (Hq n v0 eq_refl Hg0) as [Hc Hhas].
    split; [exact Hc |]. simpl. now apply dict_has_set.
Qed.

(** X29. A table returned by [get_interfaces_counters] lists exactly the
    interfaces of the input; and because [statistics] is read of every
    interface without being tested for, one interface without that field
    makes the whole call fail. *)
Theorem get_interfaces_counters_names (s : Session) (il : dict val)
  (name : string) :
  Interface_get_facts s = Ok (VDict il) ->
  (forall r, get_interfaces_counters s = Ok (VDict r) ->
     dict_has (KStr name) r = dict_has (KStr name) il) /\
  (forall d, dict_get (KStr name) il = Some (VDict d) ->
     dict_has (KStr "statistics") d = false ->
     exists e, get_interfaces_counters s = Raise e).
Proof.
  intros Hf. unfold get_interfaces_counters. rewrite Hf. cbn [bind]. split.
  - intros r H. destruct (dict_get (KStr name) il) as [v |] eqn:Hg.
    + destruct (counters_of_entries _ _ _ _ H Hg) as [_ Hhas].
      rewrite Hhas. unfold dict_has. now rewrite Hg.
    + unfold dict_has at 2. rewrite Hg.
      unfold dict_has. destruct (dict_get (KStr name) r) as [entry |] eqn:Hr;
        [| reflexivity]. exfalso.
      destruct (dict_get_Some_key _ _ _ Hr) as [k' [Hin Hk]].
      apply key_eqb_str in Hk. subst k'.
      unfold dict_keys in Hin. apply in_map_iff in Hin.
      destruct Hin as [[k0 entry0] [Hk0 Hin]]. simpl in Hk0. subst k0.
      destruct (counters_of_In _ _ _ _ H Hin)
        as [interface [details [counters [name' [Hsub [_ [Hkey [Hk _]]]]]]]].
      pose proof (to_key_str_inv _ _ _ Hkey Hk) as ->.
      simpl in Hsub. rewrite Hg in Hsub. discriminate.
  - intros d Hg Hno.
    destruct (counters_of (VDict il)) as [r | e] eqn:H; [| eauto]. exfalso.
    assert (Hr : exists r', r = VDict r').
    { unfold counters_of in H. bind_inv H. bind_inv H. injection H as <-. eauto. }
    destruct Hr as [r' ->].
    destruct (counters_of_entries _ _ _ _ H Hg) as [[counters Hc] _].
    destruct (interface_counters_inv _ _ Hc) as [stats [Hst _]].
    apply getitem_dict in Hst. unfold dict_has in Hno. rewrite Hst in Hno.
    discriminate.
Qed.

Lemma get_interfaces_counters_names_witness :
  (exists r,
     get_interfaces_counters example_interface_session = Ok (VDict r) /\
     dict_has (KStr "loopback0") r = true) /\
  get_interfaces_counters example_svi_session = Raise KeyError.
Proof.
  split.
  - assert (Hr : exists r,
               get_interfaces_counters example_interface_session = Ok (VDict r))
      by (eexists; vm_compute; reflexivity).
    destruct Hr as [r Hr]. exists r. split; [exact Hr |].
    destruct (get_interfaces_counters_names example_interface_session _
                "loopback0" eq_refl) as [Hnames _].
    exact (Hnames r Hr).
  - destruct (get_interfaces_counters_names example_svi_session
                example_svi_interfaces "vlan20" eq_refl) as [_ Hfail].
    destruct (Hfail _ eq_refl eq_refl) as [e He].
    reflexivity.
Defined.

(** ** The local [slugify] of get_lldp_neighbors_detail *)

Lemma lower_char_slug (c : ascii) :
  Str.is_word c || is_dash c = true -> slug_char (Str.lower_char c) = true.
Proof.
  destruct c as [[] [] [] [] [] [] [] []]; vm_compute; intros H;
    first [reflexivity | discriminate H].
Qed.

Lemma lower_char_dash (c : ascii) :
  is_dash (Str.lower_char c) = is_dash c.
Proof. destruct c as [[] [] [] [] [] [] [] []]; reflexivity. Qed.

Lemma string_forall_sub (s : string) (in_run : bool) :
  string_forall (fun c => Str.is_word c || is_dash c)
    (Str.sub_nonword_runs s in_run) = true.
Proof.
  revert in_run. induction s as [| c s IH]; intros in_run; simpl; [reflexivity |].
  destruct (Str.is_word c) eqn:Hw.
  - simpl. now rewrite Hw, IH.
  - destruct in_run; [apply IH |]. cbn [string_forall]. rewrite IH.
    reflexivity.
Qed.

Lemma string_forall_lstrip (q p : ascii -> bool) (s : string) :
  string_forall q s = true -> string_forall q (Str.lstrip p s) = true.
Proof.
  induction s as [| c s IH]; simpl; [auto |].
  intros H. destruct (p c); [| exact H].
  apply andb_true_iff in H. now apply IH.
Qed.

Lemma string_forall_rev (q : ascii -> bool) (s acc : string) :
  string_forall q s = true -> string_forall q acc = true ->
  string_forall q (Str.rev_string s acc) = true.
Proof.
  revert acc. induction s as [| c s IH]; simpl; intros acc Hs Ha; [exact Ha |].
  apply andb_true_iff in Hs. destruct Hs as [Hc Hs].
  apply IH; [exact Hs |]. simpl. now rewrite Hc, Ha.
Qed.

Lemma string_forall_lower (s : string) :
  string_forall (fun c => Str.is_word c || is_dash c) s = true ->
  string_forall slug_char (Str.lower_ascii s) = true.
Proof.
  induction s as [| c s IH]; simpl; [auto |].
  intros H. apply andb_true_iff in H. destruct H as [Hc Hs].
  now rewrite (lower_char_slug _ Hc), IH.
Qed.

Lemma first_char_lstrip (p : ascii -> bool) (s : string) (c : ascii) :
  first_char (Str.lstrip p s) = Some c -> p c = false.
Proof.
  induction s as [| a s IH]; simpl; [discriminate |].
  destruct (p a) eqn:Hp; [exact IH |].
  simpl. intros H. injection H as <-. exact Hp.
Qed.

Lemma last_char_lstrip (p : ascii -> bool) (s : string) (c : ascii) :
  last_char (Str.lstrip p s) = Some c -> last_char s = Some c.
Proof.
  induction s as [| a s IH]; simpl; [discriminate |].
  destruct (p a); [| auto].
  intros H. now rewrite (IH H).
Qed.

Lemma last_char_rev (s acc : string) :
  last_char (Str.rev_string s acc)
  = match last_char acc with
    | Some c => Some c
    | None => first_char s
    end.
Proof.
  revert acc. induction s as [| a s IH]; intros acc; simpl.
  - now destruct (last_char acc).
  - rewrite IH. simpl. now destruct (last_char acc).
Qed.

Lemma first_char_rev (s acc : string) :
  first_char (Str.rev_string s acc)
  = match last_char s with
    | Some c => Some c
    | None => first_char acc
    end.
Proof.
  revert acc. induction s as [| a s IH]; intros acc; simpl; [reflexivity |].
  rewrite IH. simpl. now destruct (last_char s).
Qed.

Lemma first_char_lower (s : string) :
  first_char (Str.lower_ascii s) = option_map Str.lower_char (first_char s).
Proof. now destruct s. Qed.

Lemma last_char_lower (s : string) :
  last_char (Str.lower_ascii s) = option_map Str.lower_char (last_char s).
Proof.
  induction s as [| a s IH]; simpl; [reflexivity |].
  rewrite IH. now destruct (last_char s).
Qed.

(** X30. On an ASCII string, the slug made by the local [slugify] (used
    when django is not importable) consists of digits, lower-case letters,
    underscores and dashes only -- no upper-case letter, no space, no
    slash -- and neither starts nor ends with a dash. *)
Theorem slugify_fallback_shape (slugify_unicode : string -> string) (x : string) :
  Str.is_ascii x = true ->
  string_forall slug_char (Str.slugify_fallback slugify_unicode x) = true /\
  first_char (Str.slugify_fallback slugify_unicode x) <> Some "-"%char /\
  last_char (Str.slugify_fallback slugify_unicode x) <> Some "-"%char.
Proof.
  intros Hx. unfold Str.slugify_fallback, Str.strip. rewrite Hx.
  fold is_dash.
  set (t := Str.lstrip is_dash (Str.sub_nonword_runs x false)).
  set (u := Str.lstrip is_dash (Str.rev_string t EmptyString)).
  split; [| split].
  - apply string_forall_lower. apply string_forall_rev; [| reflexivity].
    apply string_forall_lstrip. apply string_forall_rev; [| reflexivity].
    apply string_forall_lstrip. apply string_forall_sub.
  - rewrite first_char_lower, first_char_rev. simpl first_char.
    destruct (last_char u) as [c |] eqn:Hu; [| discriminate].
    simpl. intros H. injection H as H.
    apply last_char_lstrip in Hu. rewrite last_char_rev in Hu. simpl in Hu.
    apply first_char_lstrip in Hu.
    rewrite <- (lower_char_dash c), H in Hu. discriminate.
  - rewrite last_char_lower, last_char_rev. simpl last_char.
    destruct (first_char u) as [c |] eqn:Hu; [| discriminate].
    simpl. intros H. injection H as H.
    apply first_char_lstrip in Hu.
    rewrite <- (lower_char_dash c), H in Hu. discriminate.
Qed.

Lemma slugify_fallback_shape_witness :
  Str.slugify_fallback (fun x => x) "Lag 10 / 1_2 (Up)" = "lag-10-1_2-up"%string /\
  string_forall slug_char (Str.slugify_fallback (fun x => x) "Lag 10 / 1_2 (Up)")
  = true.
Proof.
  split; [reflexivity |].
  exact (proj1 (slugify_fallback_shape (fun x => x) "Lag 10 / 1_2 (Up)" eq_refl)).
Defined.
